(** * The file-backed stores of the photo-capture application

    A shallow embedding of [auth_store.py] (AuthStore and the atomic JSON
    writer) and [local_store.py] (LocalStore), followed by the properties
    of the specification that were checked against them.

    Conventions of the embedding.
    - A Python [str] is a [string] of 8-bit characters.  [str.strip],
      [str.lower], the regular expressions [\D], [\d] and [[0-9]], and the
      built-in [int] are modelled as they act on ASCII text ([is_ascii]);
      beyond ASCII Python also knows other decimal digits, letters and white
      space, and a statement that compares two of these functions carries
      [is_ascii] as a hypothesis.
    - A raised exception is a value of [exn]; an operation returns a
      [result].  [try ... except Exception] is [try_except].
    - The clock [_now()] and the random salt [secrets.token_hex(16)] are
      arguments of the operations that read them.
    - A regular file is modelled by what [json.load] makes of its text:
      a document, or a text the parser rejects.  An operation first reads,
      then returns the list of file-system steps it performs together with
      its outcome; running a prefix of that list is a process killed
      part-way through. *)

From Stdlib Require Import ZArith Lia Bool List Ascii String DecimalString.
From Stdlib Require DecimalPos.
From Stdlib.Strings Require Import Byte.
From stdpp Require Import base option gmap strings sorting.

Set Warnings "-register-all".

Local Open Scope string_scope.
Local Open Scope Z_scope.

(** ** Exceptions and results *)

(** The exceptions the two modules raise, named after the error taxonomy of
    the specification.  The source raises [ValueError] with these messages:
    - [ValidationError]: "Enter a valid 10-digit mobile number.",
      "PIN must be 4-6 digits.", "mobile must be a 10-digit string";
    - [NotFoundError]: "Account not found. Please register.", "User not found.";
    - [CorruptedError]: "Corrupted account. Recreate the user.";
    - [ThrottledError]: "Too many attempts. Try again in a few minutes.";
    - [UninitializedError]: "Account not initialized properly.";
    - [InvalidCredentialsError]: "Invalid PIN.", "Old PIN incorrect.".
    The remaining constructors are exceptions raised by the Python runtime
    and library ([int], [bytes.fromhex], attribute access, [json.load],
    [FileNotFoundError(src)]). *)
Inductive exn : Type :=
  | ValidationError
  | NotFoundError
  | CorruptedError
  | ThrottledError
  | UninitializedError
  | InvalidCredentialsError
  | PyValueError
  | PyTypeError
  | PyAttributeError
  | JSONDecodeError
  | FileNotFoundError.

Inductive result (A : Type) : Type :=
  | Ok (a : A)
  | Raise (e : exn).
Arguments Ok {A} a.
Arguments Raise {A} e.

Definition bind {A B : Type} (r : result A) (k : A -> result B) : result B :=
  match r with
  | Ok a => k a
  | Raise e => Raise e
  end.

Notation "x <- r ;; k" := (bind r (fun x => k))
  (at level 100, r at next level, right associativity).

(** [try: body except Exception: handler] *)
Definition try_except {A : Type} (body : result A) (handler : result A) : result A :=
  match body with
  | Ok a => Ok a
  | Raise _ => handler
  end.

(** ** Text *)

Definition is_digit (c : ascii) : bool :=
  let n := nat_of_ascii c in (48 <=? n)%nat && (n <=? 57)%nat.

(** The ASCII characters [str.strip()] removes. *)
Definition is_space (c : ascii) : bool :=
  let n := nat_of_ascii c in
  ((9 <=? n)%nat && (n <=? 13)%nat) || ((28 <=? n)%nat && (n <=? 32)%nat).

Fixpoint lstrip (s : string) : string :=
  match s with
  | String c s' => if is_space c then lstrip s' else s
  | EmptyString => EmptyString
  end.

Fixpoint rstrip (s : string) : string :=
  match s with
  | String c s' =>
      match rstrip s' with
      | EmptyString => if is_space c then EmptyString else String c EmptyString
      | r => String c r
      end
  | EmptyString => EmptyString
  end.

Definition strip (s : string) : string := rstrip (lstrip s).

(** [re.sub(r"\D", empty, s)] on ASCII text: every character that is not
    one of 0-9 is dropped.  (Python keeps every Unicode decimal digit; the
    digits of ASCII are 0-9.) *)
Fixpoint sub_non_digits (s : string) : string :=
  match s with
  | String c s' => if is_digit c then String c (sub_non_digits s') else sub_non_digits s'
  | EmptyString => EmptyString
  end.

Fixpoint all_digits (s : string) : bool :=
  match s with
  | String c s' => is_digit c && all_digits s'
  | EmptyString => true
  end.

Definition len (s : string) : nat := String.length s.

(** [MOBILE_RE = re.compile(r"^[0-9]{10}$")], used with [fullmatch]. *)
Definition MOBILE_RE_fullmatch (x : string) : bool :=
  all_digits x && (len x =? 10)%nat.

(** [re.fullmatch(r"[0-9]{4,6}", pin)] *)
Definition PIN_RE_fullmatch (pin : string) : bool :=
  all_digits pin && (4 <=? len pin)%nat && (len pin <=? 6)%nat.

Fixpoint is_ascii (s : string) : bool :=
  match s with
  | String c s' => (nat_of_ascii c <? 128)%nat && is_ascii s'
  | EmptyString => true
  end.

(** [str.lower()] on ASCII text: A-Z become a-z.  (Python also maps
    letters beyond ASCII.) *)
Definition to_lower (c : ascii) : ascii :=
  let n := nat_of_ascii c in
  if (65 <=? n)%nat && (n <=? 90)%nat then ascii_of_nat (n + 32) else c.

Fixpoint lower (s : string) : string :=
  match s with
  | String c s' => String (to_lower c) (lower s')
  | EmptyString => EmptyString
  end.

Fixpoint startswith (p s : string) : bool :=
  match p, s with
  | EmptyString, _ => true
  | String a p', String b s' => Ascii.eqb a b && startswith p' s'
  | String _ _, EmptyString => false
  end.

Fixpoint endswith_char (c : ascii) (s : string) : bool :=
  match s with
  | EmptyString => false
  | String a EmptyString => Ascii.eqb a c
  | String _ s' => endswith_char c s'
  end.

(** [str(n)] for an integer. *)
Definition str_of_int (n : Z) : string := NilEmpty.string_of_int (Z.to_int n).

(** The white space [int()] skips around a number: the space and the
    control characters 9 to 13.  It is narrower than that of [str.strip()]:
    [int] rejects the separators 28 to 31. *)
Definition is_int_space (c : ascii) : bool :=
  let n := nat_of_ascii c in
  ((9 <=? n)%nat && (n <=? 13)%nat) || (n =? 32)%nat.

Fixpoint int_lstrip (s : string) : string :=
  match s with
  | String c s' => if is_int_space c then int_lstrip s' else s
  | EmptyString => EmptyString
  end.

Fixpoint int_rstrip (s : string) : string :=
  match s with
  | String c s' =>
      match int_rstrip s' with
      | EmptyString => if is_int_space c then EmptyString else String c EmptyString
      | r => String c r
      end
  | EmptyString => EmptyString
  end.

Definition int_strip (s : string) : string := int_rstrip (int_lstrip s).

(** The decimal digits of [int(s)], after the sign: digits, single
    underscores allowed between two digits. *)
Fixpoint int_digits (s : string) (acc : Z) (after_digit : bool) : option Z :=
  match s with
  | EmptyString => if after_digit then Some acc else None
  | String c s' =>
      if is_digit c
      then int_digits s' (10 * acc + Z.of_nat (nat_of_ascii c - 48)) true
      else if Ascii.eqb c "_" && after_digit
           then match s' with
                | String d _ => if is_digit d then int_digits s' acc false else None
                | EmptyString => None
                end
           else None
  end.

(** [int(s)] on text: surrounding white space is ignored, one sign is
    allowed; anything else is a [ValueError]. *)
Definition int_of_str (s : string) : result Z :=
  let body :=
    match int_strip s with
    | String "-" s' => option_map Z.opp (int_digits s' 0 false)
    | String "+" s' => int_digits s' 0 false
    | s' => int_digits s' 0 false
    end in
  match body with
  | Some z => Ok z
  | None => Raise PyValueError
  end.

(** [sorted(names)] for a list of [str]: ascending in the order of the
    character codes. *)
Definition sorted (names : list string) : list string :=
  merge_sort String.le names.

(** [os.path.join(a, b)] on POSIX paths. *)
Definition path_join (a b : string) : string :=
  if startswith "/" b then b
  else if String.eqb a EmptyString || endswith_char "/" a then a ++ b
  else a ++ "/" ++ b.

(** ** Bytes and hexadecimal text *)

Definition hex_digit (n : N) : ascii :=
  match n with
  | 0 => "0" | 1 => "1" | 2 => "2" | 3 => "3" | 4 => "4" | 5 => "5" | 6 => "6"
  | 7 => "7" | 8 => "8" | 9 => "9" | 10 => "a" | 11 => "b" | 12 => "c"
  | 13 => "d" | 14 => "e" | _ => "f"
  end%N%char.

(** [bytes.hex()] *)
Fixpoint hex (bs : list byte) : string :=
  match bs with
  | b :: bs' =>
      let n := Byte.to_N b in
      String (hex_digit (n / 16)) (String (hex_digit (n mod 16)) (hex bs'))
  | [] => EmptyString
  end.

Definition hex_value (c : ascii) : option N :=
  let n := N_of_ascii c in
  if (48 <=? n)%N && (n <=? 57)%N then Some (n - 48)%N
  else if (97 <=? n)%N && (n <=? 102)%N then Some (n - 87)%N
  else if (65 <=? n)%N && (n <=? 70)%N then Some (n - 55)%N
  else None.

(** The white space [bytes.fromhex] skips between bytes. *)
Definition is_ascii_space (c : ascii) : bool :=
  let n := nat_of_ascii c in
  ((9 <=? n)%nat && (n <=? 13)%nat) || (n =? 32)%nat.

(** [bytes.fromhex(s)]: two hexadecimal digits per byte, [ValueError]
    otherwise. *)
Fixpoint fromhex (s : string) : result (list byte) :=
  match s with
  | EmptyString => Ok []
  | String c s' =>
      if is_ascii_space c then fromhex s'
      else match s' with
           | String d s'' =>
               match hex_value c, hex_value d with
               | Some h, Some l =>
                   match Byte.of_N (16 * h + l) with
                   | Some b => rest <- fromhex s'' ;; Ok (b :: rest)
                   | None => Raise PyValueError
                   end
               | _, _ => Raise PyValueError
               end
           | EmptyString => Raise PyValueError
           end
  end.

(** [secrets.token_hex(n)], given the [n] random bytes it draws. *)
Definition token_hex (random_bytes : list byte) : string := hex random_bytes.

(** [s.encode("utf-8")] *)
Definition encode_utf8 (s : string) : list byte := list_byte_of_string s.

(** ** JSON values and Python dictionaries *)

(** The values [json.load] returns.  The numbers the stores write are
    integers (clock readings and counters).  A dictionary keeps its
    insertion order. *)
Inductive json : Type :=
  | JNull
  | JBool (b : bool)
  | JInt (n : Z)
  | JStr (s : string)
  | JArr (l : list json)
  | JObj (kv : list (string * json)).

Abbreviation dict := (list (string * json)).

(** Python truthiness, as used by [x or y], [x and y] and [not x]. *)
Definition truthy (v : json) : bool :=
  match v with
  | JNull => false
  | JBool b => b
  | JInt n => negb (n =? 0)
  | JStr s => negb (String.eqb s EmptyString)
  | JArr l => match l with [] => false | _ => true end
  | JObj kv => match kv with [] => false | _ => true end
  end.

(** [x or y] *)
Definition py_or (x y : json) : json := if truthy x then x else y.

Fixpoint dict_get (k : string) (d : dict) : option json :=
  match d with
  | (k', v) :: d' => if String.eqb k k' then Some v else dict_get k d'
  | [] => None
  end.

(** [d[k] = v] *)
Fixpoint dict_set (k : string) (v : json) (d : dict) : dict :=
  match d with
  | (k', v') :: d' =>
      if String.eqb k k' then (k', v) :: d' else (k', v') :: dict_set k v d'
  | [] => [(k, v)]
  end.

(** [d.pop(k, None)] *)
Fixpoint dict_pop (k : string) (d : dict) : dict :=
  match d with
  | (k', v') :: d' =>
      if String.eqb k k' then dict_pop k d' else (k', v') :: dict_pop k d'
  | [] => []
  end.

(** [d.update(other)] *)
Fixpoint dict_update (other : dict) (d : dict) : dict :=
  match other with
  | (k, v) :: other' => dict_update other' (dict_set k v d)
  | [] => d
  end.

(** [d.setdefault(k, v)] *)
Definition dict_setdefault (k : string) (v : json) (d : dict) : dict :=
  match dict_get k d with
  | Some _ => d
  | None => dict_set k v d
  end.

(** Attribute access [u.get], [u.update], [u.setdefault], [u.pop] on a value
    that is not a dictionary raises [AttributeError]. *)
Definition as_dict (u : json) : result dict :=
  match u with
  | JObj d => Ok d
  | _ => Raise PyAttributeError
  end.

(** [u.get(k, default)] *)
Definition get (u : json) (k : string) (default : json) : result json :=
  d <- as_dict u ;;
  Ok (match dict_get k d with Some v => v | None => default end).

(** [int(v)] *)
Definition py_int (v : json) : result Z :=
  match v with
  | JInt n => Ok n
  | JBool b => Ok (if b then 1 else 0)
  | JStr s => int_of_str s
  | _ => Raise PyTypeError
  end.

(** [hmac.compare_digest(a, b)] with [a] a [str]: both must be ASCII
    strings, [TypeError] otherwise. *)
Definition compare_digest (a : string) (b : json) : result bool :=
  match b with
  | JStr s => if is_ascii a && is_ascii s then Ok (String.eqb a s)
              else Raise PyTypeError
  | _ => Raise PyTypeError
  end.

(** ** Files *)

(** A regular file, as [json.load] sees it: [Unparsable] is a text the
    parser rejects, which includes the empty file and every file cut short
    while a document was being written to it.  [Doc j] is the text
    [json.dump] writes for [j]: on the values of [json], loading what was
    dumped gives the value back. *)
Inductive file : Type :=
  | Unparsable
  | Doc (j : json).

(** The named files, and the temporary file of a write in progress.
    [tempfile.mkstemp] returns a name no other file has and no operation
    reads a temporary file by name, so it is kept apart from the named
    files. *)
Record fsys : Type := FS {
  files : gmap string file;
  tmp : option file
}.

Inductive fs_step : Type :=
  | Mkstemp                               (* a new, empty temporary file *)
  | DumpTmp (data : json)                 (* json.dump into it, and close *)
  | Replace (path : string)               (* os.replace(tmp, path), atomic *)
  | RemoveTmp                             (* remove tmp if it exists *)
  | OpenW (path : string)                 (* open(path, "w"): create or truncate *)
  | Dump (path : string) (data : json)    (* json.dump into path, and close *)
  | Remove (path : string).               (* os.remove(path) *)

Definition step (fs : fsys) (s : fs_step) : fsys :=
  match s with
  | Mkstemp => FS (files fs) (Some Unparsable)
  | DumpTmp data => FS (files fs) (Some (Doc data))
  | Replace path =>
      match tmp fs with
      | Some f => FS (<[path := f]> (files fs)) None
      | None => fs
      end
  | RemoveTmp => FS (files fs) None
  | OpenW path => FS (<[path := Unparsable]> (files fs)) (tmp fs)
  | Dump path data => FS (<[path := Doc data]> (files fs)) (tmp fs)
  | Remove path => FS (delete path (files fs)) (tmp fs)
  end.

Definition run (steps : list fs_step) (fs : fsys) : fsys :=
  fold_left step steps fs.

(** The process is killed after [k] steps. *)
Definition killed_after (k : nat) (steps : list fs_step) (fs : fsys) : fsys :=
  run (firstn k steps) fs.

Definition json_load (f : file) : result json :=
  match f with
  | Doc j => Ok j
  | Unparsable => Raise JSONDecodeError
  end.

(** ** Operations: the steps performed and the outcome *)

(** An operation reads the files it needs before it writes any, so it is
    given the file system it starts from and returns the steps it performs,
    in order, with its outcome.  An exception ends the operation; the steps
    performed before it remain. *)
Definition prog (A : Type) : Type := (list fs_step * result A)%type.

Definition ret {A : Type} (a : A) : prog A := ([], Ok a).
Definition raise {A : Type} (e : exn) : prog A := ([], Raise e).
Definition lift {A : Type} (r : result A) : prog A := ([], r).
Definition perform (steps : list fs_step) : prog unit := (steps, Ok tt).

Definition pbind {A B : Type} (p : prog A) (k : A -> prog B) : prog B :=
  match p with
  | (s1, Ok a) => let '(s2, r) := k a in ((s1 ++ s2)%list, r)
  | (s1, Raise e) => (s1, Raise e)
  end.

Notation "x <~ p ;; k" := (pbind p (fun x => k))
  (at level 100, p at next level, right associativity).

(** [try: body except Exception: pass] around steps. *)
Definition try_pass {A : Type} (p : prog A) : prog unit := (fst p, Ok tt).

(** The file system after the operation, and its outcome. *)
Definition exec {A : Type} (p : prog A) (fs : fsys) : fsys * result A :=
  (run (fst p) fs, snd p).

(** [_atomic_write_json(path, data)]: the document goes to a temporary file
    in the directory of [path], which then replaces [path]; the [finally]
    block removes the temporary file if it is still there. *)
Definition _atomic_write_json (path : string) (data : json) : prog unit :=
  perform [Mkstemp; DumpTmp data; Replace path; RemoveTmp].

(** [with open(p, "w") as f: json.dump(data, f)] *)
Definition open_w_dump (path : string) (data : json) : prog unit :=
  perform [OpenW path; Dump path data].

(** ** auth_store.py *)

Module AuthStore.

(** [_normalize_mobile(mobile)] *)
Definition _normalize_mobile (mobile : string) : result string :=
  let x := sub_non_digits (strip mobile) in
  if negb (MOBILE_RE_fullmatch x) then Raise ValidationError else Ok x.

(** [_normalize_mobile] applied to a value read from a file:
    [(mobile or empty).strip()] needs a [str]. *)
Definition _normalize_mobile_value (v : json) : result string :=
  match py_or v (JStr EmptyString) with
  | JStr s => _normalize_mobile s
  | _ => Raise PyAttributeError
  end.

Section WithKDF.

(** [hashlib.pbkdf2_hmac("sha256", password, salt, iterations)] *)
Variable pbkdf2_hmac_sha256 : list byte -> list byte -> N -> list byte.

(** [_hash_pin(pin, salt=salt)]; [token] is what [secrets.token_hex(16)]
    returns when it is called, that is when [salt] is [None] or empty. *)
Definition _hash_pin (pin : string) (salt : json) (token : string)
  : result (string * string) :=
  if negb (PIN_RE_fullmatch pin) then Raise ValidationError
  else
    match py_or salt (JStr token) with
    | JStr salt =>
        raw <- fromhex salt ;;
        let dk := pbkdf2_hmac_sha256 (encode_utf8 pin) raw 120000%N in
        Ok (salt, hex dk)
    | _ => Raise PyTypeError
    end.

(** The store is created on [base_dir]. *)
Variable base_dir : string.

Definition users_root : string := path_join base_dir "users".
Definition session_path : string := path_join base_dir "session.json".

Definition _user_dir (mobile : string) : result string :=
  mob <- _normalize_mobile mobile ;;
  Ok (path_join users_root mob).

Definition _auth_path (mobile : string) : result string :=
  d <- _user_dir mobile ;;
  Ok (path_join d "auth.json").

(** [with open(path) as f: u = json.load(f) or {}] *)
Definition load_or_empty (f : file) : result json :=
  j <- json_load f ;;
  Ok (py_or j (JObj [])).

Definition identity (mob : string) : json := JObj [("mobile", JStr mob)].

(** [register(mobile, pin)] at clock reading [now], with [random_bytes] the
    16 bytes drawn for the salt. *)
Definition register (fs : fsys) (now : Z) (random_bytes : list byte)
    (mobile pin : string) : prog json :=
  mob <~ lift (_normalize_mobile mobile) ;;
  udir <~ lift (_user_dir mob) ;;
  ap <~ lift (_auth_path mob) ;;
  let u :=
    match files fs !! ap with
    | Some f => match load_or_empty f with Ok u => u | Raise _ => JObj [] end
    | None => JObj [("mobile", JStr mob); ("created_at", JInt now)]
    end in
  sh <~ lift (_hash_pin pin JNull (token_hex random_bytes)) ;;
  let '(salt, pin_hash) := sh in
  d <~ lift (as_dict u) ;;
  let d := dict_update [("mobile", JStr mob); ("pin_salt", JStr salt);
                        ("pin_hash", JStr pin_hash); ("updated_at", JInt now)] d in
  let d := dict_pop "failed_attempts" d in
  let d := dict_pop "last_failed_at" d in
  _ <~ _atomic_write_json ap (JObj d) ;;
  ret (identity mob).

(** [login(mobile, pin)] at clock reading [now]. *)
Definition login (fs : fsys) (now : Z) (mobile pin : string) : prog json :=
  mob <~ lift (_normalize_mobile mobile) ;;
  ap <~ lift (_auth_path mob) ;;
  match files fs !! ap with
  | None => raise NotFoundError
  | Some f =>
      u <~ lift (try_except (load_or_empty f) (Raise CorruptedError)) ;;
      fails <~ lift (v <- get u "failed_attempts" (JInt 0) ;; py_int v) ;;
      last <~ lift (v <- get u "last_failed_at" (JInt 0) ;; py_int v) ;;
      if (5 <=? fails) && (now - last <? 300) then raise ThrottledError
      else
        salt <~ lift (get u "pin_salt" (JStr EmptyString)) ;;
        expect <~ lift (get u "pin_hash" (JStr EmptyString)) ;;
        if negb (truthy salt && truthy expect) then raise UninitializedError
        else
          sh <~ lift (_hash_pin pin salt EmptyString) ;;
          let '(_, got) := sh in
          same <~ lift (compare_digest got expect) ;;
          d <~ lift (as_dict u) ;;
          if negb same then
            let d := dict_set "failed_attempts" (JInt (fails + 1)) d in
            let d := dict_set "last_failed_at" (JInt now) d in
            _ <~ _atomic_write_json ap (JObj d) ;;
            raise InvalidCredentialsError
          else
            let d := dict_pop "failed_attempts" d in
            let d := dict_pop "last_failed_at" d in
            let d := dict_set "updated_at" (JInt now) d in
            _ <~ _atomic_write_json ap (JObj d) ;;
            _ <~ _atomic_write_json session_path
                   (JObj [("mobile", JStr mob); ("login_at", JInt now)]) ;;
            ret (identity mob)
  end.

(** [logout()] *)
Definition logout (fs : fsys) : prog unit :=
  match files fs !! session_path with
  | Some _ => perform [Remove session_path]
  | None => ret tt
  end.

(** [current_user()]: [None] or the identity. *)
Definition current_user (fs : fsys) : prog (option json) :=
  match files fs !! session_path with
  | None => ret None
  | Some f =>
      lift (try_except
              (sess <- load_or_empty f ;;
               v <- get sess "mobile" (JStr EmptyString) ;;
               mob <- _normalize_mobile_value v ;;
               Ok (Some (identity mob)))
              (Ok None))
  end.

(** [user_exists(mobile)] *)
Definition user_exists (fs : fsys) (mobile : string) : prog bool :=
  lift (try_except
          (ap <- _auth_path mobile ;;
           Ok (bool_decide (is_Some (files fs !! ap))))
          (Ok false)).

(** [list_users()], with [listing] what [os.listdir(users_root)] returns,
    or the exception it raises. *)
Definition list_users (fs : fsys) (listing : result (list string))
  : prog (list string) :=
  let out :=
    match listing with
    | Ok names =>
        List.filter
          (fun name =>
             MOBILE_RE_fullmatch name &&
             bool_decide
               (is_Some (files fs !! path_join (path_join users_root name) "auth.json")))
          names
    | Raise _ => []
    end in
  ret (sorted out).

(** [verify_pin(mobile, pin)] *)
Definition verify_pin (fs : fsys) (mobile pin : string) : prog bool :=
  mob <~ lift (_normalize_mobile mobile) ;;
  ap <~ lift (_auth_path mob) ;;
  match files fs !! ap with
  | None => ret false
  | Some f =>
      u <~ lift (load_or_empty f) ;;
      salt <~ lift (get u "pin_salt" (JStr EmptyString)) ;;
      expect <~ lift (get u "pin_hash" (JStr EmptyString)) ;;
      if negb (truthy salt && truthy expect) then ret false
      else
        sh <~ lift (_hash_pin pin salt EmptyString) ;;
        let '(_, got) := sh in
        lift (compare_digest got expect)
  end.

(** [change_pin(mobile, old_pin, new_pin)] at clock reading [now], with
    [random_bytes] the 16 bytes drawn for the new salt. *)
Definition change_pin (fs : fsys) (now : Z) (random_bytes : list byte)
    (mobile old_pin new_pin : string) : prog unit :=
  ok <~ verify_pin fs mobile old_pin ;;
  if negb ok then raise InvalidCredentialsError
  else
    mob <~ lift (_normalize_mobile mobile) ;;
    ap <~ lift (_auth_path mob) ;;
    match files fs !! ap with
    | None => raise FileNotFoundError
    | Some f =>
        u <~ lift (load_or_empty f) ;;
        sh <~ lift (_hash_pin new_pin JNull (token_hex random_bytes)) ;;
        let '(salt, pin_hash) := sh in
        d <~ lift (as_dict u) ;;
        let d := dict_update [("pin_salt", JStr salt); ("pin_hash", JStr pin_hash);
                              ("updated_at", JInt now)] d in
        _atomic_write_json ap (JObj d)
    end.

(** [set_current_user(mobile)] at clock reading [now]. *)
Definition set_current_user (fs : fsys) (now : Z) (mobile : string) : prog json :=
  mob <~ lift (_normalize_mobile mobile) ;;
  ex <~ user_exists fs mob ;;
  if negb ex then raise NotFoundError
  else
    _ <~ _atomic_write_json session_path
           (JObj [("mobile", JStr mob); ("login_at", JInt now)]) ;;
    ret (identity mob).

(** One turn of the migration loop of [__init__], for the legacy entry
    [mob: rec]. *)
Definition migrate_entry (now : Z) (entry : string * json) : prog unit :=
  let '(mob, rec) := entry in
  let mobn := sub_non_digits mob in
  if negb (MOBILE_RE_fullmatch mobn) then ret tt
  else
    let udir := path_join users_root mobn in
    pin_salt <~ lift (get rec "pin_salt" (JStr EmptyString)) ;;
    pin_hash <~ lift (get rec "pin_hash" (JStr EmptyString)) ;;
    created_at <~ lift (get rec "created_at" (JInt now)) ;;
    updated_at <~ lift (get rec "updated_at" (JInt now)) ;;
    let payload := JObj [("mobile", JStr mobn); ("pin_salt", pin_salt);
                         ("pin_hash", pin_hash); ("created_at", created_at);
                         ("updated_at", updated_at)] in
    _atomic_write_json (path_join udir "auth.json") payload.

Fixpoint migrate_entries (now : Z) (entries : dict) : prog unit :=
  match entries with
  | e :: entries' => _ <~ migrate_entry now e ;; migrate_entries now entries'
  | [] => ret tt
  end.

Definition legacy_map : string := path_join (path_join base_dir "auth") "users.json".

(** [AuthStore(base_dir)]: the migration of the legacy credential map,
    at clock reading [now]. *)
Definition __init__ (fs : fsys) (now : Z) : prog unit :=
  match files fs !! legacy_map with
  | None => ret tt
  | Some f =>
      try_pass
        (db <~ lift (load_or_empty f) ;;
         users_map <~ lift (v <- get db "users_by_mobile" JNull ;;
                            Ok (py_or v (JObj []))) ;;
         match users_map with
         | JObj entries => migrate_entries now entries
         | _ => ret tt
         end)
  end.

End WithKDF.

End AuthStore.

(** ** local_store.py *)

(** [os.path.splitext]: the text up to and including the last "/", and the
    text after it. *)
Fixpoint split_sep (p : string) : string * string :=
  match p with
  | EmptyString => (EmptyString, EmptyString)
  | String c p' =>
      let '(h, t) := split_sep p' in
      match h with
      | EmptyString =>
          if Ascii.eqb c "/" then (String c EmptyString, t)
          else (EmptyString, String c t)
      | _ => (String c h, t)
      end
  end.

Fixpoint span_dots (s : string) : string * string :=
  match s with
  | String c s' =>
      if Ascii.eqb c "." then let '(d, r) := span_dots s' in (String c d, r)
      else (EmptyString, s)
  | EmptyString => (EmptyString, EmptyString)
  end.

Fixpoint split_last_dot (s : string) : option (string * string) :=
  match s with
  | EmptyString => None
  | String c s' =>
      match split_last_dot s' with
      | Some (b, e) => Some (String c b, e)
      | None => if Ascii.eqb c "." then Some (EmptyString, s) else None
      end
  end.

(** [os.path.splitext(p)]: the extension starts at the last dot of the
    last path component, leading dots of that component not counted. *)
Definition splitext (p : string) : string * string :=
  let '(h, t) := split_sep p in
  let '(dots, rest) := span_dots t in
  match split_last_dot rest with
  | Some (b, e) => (h ++ dots ++ b, e)
  | None => (p, EmptyString)
  end.

(** The text after the first occurrence of [c], if there is one. *)
Fixpoint after_first (c : ascii) (s : string) : option string :=
  match s with
  | String a s' => if Ascii.eqb a c then Some s' else after_first c s'
  | EmptyString => None
  end.

(** [base.split("_", 2)[2]]; [None] is the [IndexError]. *)
Definition split_2_third (base : string) : option string :=
  match after_first "_" base with
  | Some r => after_first "_" r
  | None => None
  end.

(** [glob.has_magic(s)]: [s] has one of the pattern characters of [glob]. *)
Fixpoint has_magic (s : string) : bool :=
  match s with
  | String c s' =>
      Ascii.eqb c "*" || Ascii.eqb c "?" || Ascii.eqb c "[" || has_magic s'
  | EmptyString => false
  end.

Record UploadRow : Type := {
  path : string;
  filename : string;
  media_type : string;
  created_at : Z
}.

Module LocalStore.

Definition ALLOWED_VIDEO_EXTS : list string :=
  [".mp4"; ".avi"; ".mov"; ".mkv"; ".webm"; ".3gp"].

(** [_norm_mobile(mobile)] *)
Definition _norm_mobile (mobile : string) : result string :=
  let m := sub_non_digits (strip mobile) in
  if negb (len m =? 10)%nat then Raise ValidationError else Ok m.

Section WithBase.

Variable base_dir : string.

Definition users_root : string := path_join base_dir "users".

Definition _user_dir (mobile : string) : result string :=
  mob <- _norm_mobile mobile ;;
  Ok (path_join users_root mob).

Definition _profile_path (mobile : string) : result string :=
  d <- _user_dir mobile ;;
  Ok (path_join d "profile.json").

Definition _uploads_dir (mobile : string) : result string :=
  d <- _user_dir mobile ;;
  Ok (path_join d "uploads").

(** [load_profile(mobile)] *)
Definition load_profile (fs : fsys) (mobile : string) : prog json :=
  mob <~ lift (_norm_mobile mobile) ;;
  p <~ lift (_profile_path mob) ;;
  let data :=
    match files fs !! p with
    | Some f => match json_load f with Ok j => j | Raise _ => JObj [] end
    | None => JObj []
    end in
  d <~ lift (as_dict data) ;;
  let d := dict_setdefault "mobile" (JStr mob) d in
  let d := dict_setdefault "name" (JStr EmptyString) d in
  let d := dict_setdefault "email" (JStr EmptyString) d in
  let d := dict_setdefault "state" (JStr EmptyString) d in
  let d := dict_setdefault "district" (JStr EmptyString) d in
  let d := dict_setdefault "address" (JStr EmptyString) d in
  _ <~ try_pass (open_w_dump p (JObj d)) ;;
  ret (JObj d).

(** [save_profile(mobile, data)] *)
Definition save_profile (mobile : string) (data : json) : prog unit :=
  mob <~ lift (_norm_mobile mobile) ;;
  p <~ lift (_profile_path mob) ;;
  open_w_dump p data.

(** [_detect_media_type(ext)] *)
Definition _detect_media_type (ext : string) : string :=
  let ext := lower ext in
  if existsb (String.eqb ext) ALLOWED_VIDEO_EXTS then "video" else "image".

(** The number a file name carries, as the loop body of
    [_next_digit_for_day] reads it; [None] when the body raises and the
    name is skipped. *)
Definition day_number (base : string) : option Z :=
  match split_2_third base with
  | Some part =>
      match int_of_str (fst (splitext part)) with
      | Ok d => Some d
      | Raise _ => None
      end
  | None => None
  end.

(** [glob.glob(os.path.join(udir, prefix + "*"))], with [entries] the names
    in [udir]: the names that start with [prefix].  This is what [glob]
    returns when neither [udir] nor [prefix] has a pattern character
    ([has_magic]) and [prefix] has no path separator; otherwise [glob]
    matches a pattern, or lists another directory, and this definition does
    not apply.  The statements about numbering carry these conditions. *)
Definition glob_prefix (prefix : string) (entries : list string) : list string :=
  List.filter (startswith prefix) entries.

(** [max(digits)] of a non-empty list, [+ 1]; [1] for the empty list. *)
Definition next_of (digits : list Z) : Z :=
  match digits with
  | d :: ds => fold_left Z.max ds d + 1
  | [] => 1
  end.

(** [_next_digit_for_day(mobile, date_key)], with [entries] the names in the
    user's uploads directory. *)
Definition _next_digit_for_day (entries : list string) (mobile date_key : string)
  : result Z :=
  mob <- _norm_mobile mobile ;;
  udir <- _uploads_dir mob ;;
  let digits := omap day_number (glob_prefix (mob ++ "_" ++ date_key ++ "_") entries) in
  Ok (next_of digits).

(** [add_upload(owner_mobile, src_fullpath, date_key=date_key)]: the row
    returned and the names in the uploads directory afterwards.
    [src_is_file] is [os.path.isfile(src_fullpath)], [today] is
    [_date_key()] and [clock] is [time.time()]. *)
Definition add_upload (entries : list string) (src_is_file : bool)
    (today : string) (clock : Z)
    (owner_mobile src_fullpath : string) (date_key : option string)
  : result (UploadRow * list string) :=
  mob <- _norm_mobile owner_mobile ;;
  if negb src_is_file then Raise FileNotFoundError
  else
    udir <- _uploads_dir mob ;;
    let ext := lower (snd (splitext src_fullpath)) in
    let date_key :=
      match date_key with
      | Some k => if String.eqb k EmptyString then today else k
      | None => today
      end in
    digit <- _next_digit_for_day entries mob date_key ;;
    let dest_name := mob ++ "_" ++ date_key ++ "_" ++ str_of_int digit ++ ext in
    let dst := path_join udir dest_name in
    let entries' :=
      if existsb (String.eqb dest_name) entries then entries
      else (entries ++ [dest_name])%list in
    Ok ({| path := dst; filename := dest_name;
           media_type := _detect_media_type ext; created_at := clock |},
        entries').

(** [list_uploads_for_mobile(owner_mobile)], the definition that is in
    effect (the second one in the class).  [listing] is [None] when the
    uploads directory is not a directory, and the names [os.listdir] returns
    otherwise; [isfile] and [getmtime] are [os.path.isfile] and
    [os.path.getmtime] on a path, and [clock] is [time.time()]. *)
Definition list_uploads_for_mobile (listing : option (list string))
    (isfile : string -> bool) (getmtime : string -> result Z) (clock : Z)
    (owner_mobile : string) : result (list UploadRow) :=
  mob <- _norm_mobile owner_mobile ;;
  udir <- _uploads_dir mob ;;
  match listing with
  | None => Ok []
  | Some names =>
      let prefix := mob ++ "_" in
      Ok (omap
            (fun base =>
               if negb (startswith prefix base) then None
               else
                 let p := path_join udir base in
                 if negb (isfile p) then None
                 else
                   let ext := lower (snd (splitext base)) in
                   let created :=
                     match getmtime p with Ok t => t | Raise _ => clock end in
                   Some {| path := p; filename := base;
                           media_type := _detect_media_type ext;
                           created_at := created |})
            (sorted names))
  end.

(** [user_uploads_dir(mobile)] *)
Definition user_uploads_dir (mobile : string) : result string :=
  _uploads_dir mobile.

End WithBase.

End LocalStore.

(** ** main.py: the checks made before the stores are called *)

Module PhotoApp.

(** [_as_text(v)] for a [str]: [str(v).strip()]. *)
Definition _as_text (v : string) : string := strip v.

(** [_is_valid_identifier(s)]: [(ok, 'mobile', digits or error_msg)]. *)
Definition _is_valid_identifier (s : string) : bool * string * string :=
  let s := _as_text s in
  let digits := sub_non_digits s in
  if negb (len digits =? 10)%nat then (false, "mobile", "Mobile must be 10 digits")
  else (true, "mobile", digits).

(** [_is_valid_pin(pin)]: [re.fullmatch(r"\d{4,6}", ...)], on ASCII text. *)
Definition _is_valid_pin (pin : string) : bool :=
  PIN_RE_fullmatch (_as_text pin).

End PhotoApp.

(** ** A key derivation to run the operations on

    The theorems hold for every derivation function that returns 32 bytes,
    as PBKDF2-HMAC-SHA256 does.  To evaluate the operations on concrete
    inputs, this one returns the first 32 bytes of password, salt and
    padding. *)
Definition sample_kdf (password salt : list byte) (iterations : N) : list byte :=
  firstn 32 (password ++ salt ++ repeat x00 32)%list.

Definition sample_random : list byte :=
  [x01; x23; x45; x67; x89; xab; xcd; xef; x10; x32; x54; x76; x98; xba; xdc; xfe].

Definition empty_fs : fsys := FS ∅ None.

(** ** Notions used to state the properties *)

(** The key [_hash_pin] derives from [pin] under the salt bytes [raw], as
    hexadecimal text. *)
Definition derived_key (kdf : list byte -> list byte -> N -> list byte)
    (pin : string) (raw : list byte) : string :=
  hex (kdf (encode_utf8 pin) raw 120000%N).

(** [int(u.get(k, 0))] on a dictionary. *)
Definition counter (d : dict) (k : string) : result Z :=
  py_int (match dict_get k d with Some v => v | None => JInt 0 end).

(** The dictionary [d] carries credential material: a non-empty salt in
    hexadecimal, standing for the bytes [raw], and the non-empty hash
    [hash]. *)
Definition has_credential (d : dict) (salt : string) (raw : list byte)
    (hash : string) : Prop :=
  dict_get "pin_salt" d = Some (JStr salt) /\
  truthy (JStr salt) = true /\
  fromhex salt = Ok raw /\
  dict_get "pin_hash" d = Some (JStr hash) /\
  truthy (JStr hash) = true /\
  is_ascii hash = true.

(** The user [mob] is registered with PIN [pin]: the credential file holds
    the record [d], whose hash is the key derived from [pin] under its salt,
    and whose failure counter reads [fails >= 0], last stamped at [last]. *)
Definition registered (kdf : list byte -> list byte -> N -> list byte)
    (base_dir : string) (fs : fsys) (mob pin : string)
    (d : dict) (fails last : Z) : Prop :=
  exists ap salt raw,
    AuthStore._auth_path base_dir mob = Ok ap /\
    files fs !! ap = Some (Doc (JObj d)) /\
    has_credential d salt raw (derived_key kdf pin raw) /\
    PIN_RE_fullmatch pin = true /\
    counter d "failed_attempts" = Ok fails /\ 0 <= fails /\
    counter d "last_failed_at" = Ok last.

(** The account is throttled at clock reading [now]. *)
Definition throttled (fails last now : Z) : Prop := 5 <= fails /\ now - last < 300.

(** What [register] finds at the credential path lets it proceed: no file,
    a file the parser rejects, or a document that is a dictionary or is
    replaced by the empty one. *)
Definition absent_or_record (f : option file) : bool :=
  match f with
  | Some (Doc j) => match py_or j (JObj []) with JObj _ => true | _ => false end
  | _ => true
  end.

(** The file system after the login attempts [attempts], each a clock
    reading and the PIN supplied, made one after the other. *)
Fixpoint after_logins (kdf : list byte -> list byte -> N -> list byte)
    (base_dir : string) (fs : fsys) (mobile : string)
    (attempts : list (Z * string)) : fsys :=
  match attempts with
  | (now, pin) :: rest =>
      after_logins kdf base_dir
        (fst (exec (AuthStore.login kdf base_dir fs now mobile pin) fs))
        mobile rest
  | [] => fs
  end.

(** [wrong] is a well-formed PIN whose derived key, under the salt of the
    record [d], is not the hash stored in [d]. *)
Definition wrong_pin (kdf : list byte -> list byte -> N -> list byte)
    (d : dict) (wrong : string) : Prop :=
  PIN_RE_fullmatch wrong = true /\
  forall salt raw,
    dict_get "pin_salt" d = Some (JStr salt) ->
    fromhex salt = Ok raw ->
    dict_get "pin_hash" d <> Some (JStr (derived_key kdf wrong raw)).

(** The clock reading of the most recent of [attempts], [t0] if there is
    none. *)
Fixpoint last_time (attempts : list (Z * string)) (t0 : Z) : Z :=
  match attempts with
  | (t, _) :: rest => last_time rest t
  | [] => t0
  end.

(** The record [register] writes: the record [d0] it starts from, updated. *)
Definition registered_record (kdf : list byte -> list byte -> N -> list byte)
    (now : Z) (random_bytes : list byte) (mob pin : string) (d0 : dict) : dict :=
  dict_pop "last_failed_at"
    (dict_pop "failed_attempts"
       (dict_update [("mobile", JStr mob); ("pin_salt", JStr (hex random_bytes));
                     ("pin_hash", JStr (derived_key kdf pin random_bytes));
                     ("updated_at", JInt now)] d0)).

(** Step lists made of calls of the atomic writer only. *)
Inductive atomic_writes : list fs_step -> Prop :=
  | atomic_writes_nil : atomic_writes []
  | atomic_writes_cons path data rest :
      atomic_writes rest ->
      atomic_writes (fst (_atomic_write_json path data) ++ rest)%list.

(** No file that could be parsed, or did not exist, in [fs] is unparsable in
    [fs']. *)
Definition no_new_unparsable (fs fs' : fsys) : Prop :=
  forall p, files fs' !! p = Some Unparsable -> files fs !! p = Some Unparsable.

(** The paths the steps write to, replace or remove. *)
Definition targets (steps : list fs_step) : list string :=
  omap (fun s =>
          match s with
          | Replace p | OpenW p | Dump p _ | Remove p => Some p
          | _ => None
          end) steps.

(** Every document the steps dump is a dictionary. *)
Definition dumps_records (steps : list fs_step) : Prop :=
  Forall (fun s =>
            match s with
            | DumpTmp data | Dump _ data => exists kv, data = JObj kv
            | _ => True
            end) steps.

(** The test [salt and expect] of [login] and [verify_pin] on the record
    [d]: both values are present and not empty. *)
Definition credential_present (d : dict) : bool :=
  truthy (match dict_get "pin_salt" d with Some v => v | None => JStr EmptyString end) &&
  truthy (match dict_get "pin_hash" d with Some v => v | None => JStr EmptyString end).

(** A legacy credential map with one entry that has no salt and no hash. *)
Definition sample_legacy_fs : fsys :=
  FS {[ "/data/auth/users.json" :=
          Doc (JObj [("users_by_mobile",
                      JObj [("9876543210", JObj [("created_at", JInt 7)])])]) ]}
     None.

(** The record [register] writes for the mobile 9876543210 and the PIN 1234
    at clock reading 1000, with [sample_random] and [sample_kdf], and the
    file system that holds it. *)
Definition sample_record : dict :=
  [("mobile", JStr "9876543210"); ("created_at", JInt 1000);
   ("pin_salt", JStr "0123456789abcdef1032547698badcfe");
   ("pin_hash",
    JStr "313233340123456789abcdef1032547698badcfe000000000000000000000000");
   ("updated_at", JInt 1000)].

Definition sample_fs : fsys :=
  FS {[ "/data/users/9876543210/auth.json" := Doc (JObj sample_record) ]} None.

(** The same account after five failed logins, the last at 1990. *)
Definition sample_throttled_record : dict :=
  (sample_record ++ [("failed_attempts", JInt 5); ("last_failed_at", JInt 1990)])%list.

Definition sample_throttled_fs : fsys :=
  FS {[ "/data/users/9876543210/auth.json" := Doc (JObj sample_throttled_record) ]}
     None.

Definition sample_attempts : list (Z * string) :=
  [(1010, "0000"); (1020, "1111"); (1030, "2222"); (1040, "3333"); (1050, "4444")].

(** The fixed keys of a profile record other than [mobile]. *)
Definition PROFILE_TEXT_KEYS : list string :=
  ["name"; "email"; "state"; "district"; "address"].

(** A store in which the profile of 9876543210 has been saved. *)
Definition sample_profile : dict :=
  [("mobile", JStr "9876543210"); ("name", JStr "Asha"); ("nickname", JStr "ash")].

Definition sample_profile_fs : fsys :=
  FS {[ "/data/users/9876543210/profile.json" := Doc (JObj sample_profile) ]} None.


(** The throttled account, beside a legacy map that lists its mobile with
    the same salt and hash. *)
Definition sample_throttled_legacy_fs : fsys :=
  FS (<[ "/data/auth/users.json" :=
           Doc (JObj [("users_by_mobile",
                       JObj [("9876543210",
                              JObj [("pin_salt",
                                     JStr "0123456789abcdef1032547698badcfe");
                                    ("pin_hash",
                                     JStr "313233340123456789abcdef1032547698badcfe000000000000000000000000")])])]) ]>
        (files sample_throttled_fs))
     None.

(** The names in an uploads directory from which the second upload of the
    day has been deleted. *)
Definition sample_uploads : list string :=
  ["9876543210_20240101_1.jpg"; "9876543210_20240101_3.jpg";
   "9876543210_20240102_7.jpg"; "9876543210_20240101_1.jpg.json"].

(** * Properties *)

(** ** Text *)

Lemma is_digit_not_space c : is_digit c = true -> is_space c = false.
Proof.
  unfold is_digit, is_space. intros H.
  apply andb_true_iff in H as [H1 H2].
  apply Nat.leb_le in H1. apply Nat.leb_le in H2.
  apply orb_false_iff. split; apply andb_false_iff.
  - right. apply Nat.leb_gt. lia.
  - right. apply Nat.leb_gt. lia.
Qed.

Lemma is_space_not_digit c : is_space c = true -> is_digit c = false.
Proof.
  intros H. destruct (is_digit c) eqn:E; [|reflexivity].
  apply is_digit_not_space in E. congruence.
Qed.

Lemma sub_non_digits_lstrip s : sub_non_digits (lstrip s) = sub_non_digits s.
Proof.
  induction s as [|c s IH]; simpl; [reflexivity|].
  destruct (is_space c) eqn:E; [|reflexivity].
  rewrite (is_space_not_digit _ E). exact IH.
Qed.

Lemma sub_non_digits_rstrip s : sub_non_digits (rstrip s) = sub_non_digits s.
Proof.
  induction s as [|c s IH]; simpl; [reflexivity|].
  destruct (rstrip s) as [|c' r] eqn:E.
  - simpl in IH. rewrite <- IH.
    destruct (is_space c) eqn:Ec.
    + rewrite (is_space_not_digit _ Ec). reflexivity.
    + simpl. destruct (is_digit c); reflexivity.
  - change (sub_non_digits (String c (String c' r)))
      with (if is_digit c then String c (sub_non_digits (String c' r))
            else sub_non_digits (String c' r)).
    rewrite IH. reflexivity.
Qed.

Lemma sub_non_digits_strip s : sub_non_digits (strip s) = sub_non_digits s.
Proof. unfold strip. rewrite sub_non_digits_rstrip. apply sub_non_digits_lstrip. Qed.

Lemma all_digits_sub_non_digits s : all_digits (sub_non_digits s) = true.
Proof.
  induction s as [|c s IH]; simpl; [reflexivity|].
  destruct (is_digit c) eqn:E; [|exact IH].
  simpl. rewrite E, IH. reflexivity.
Qed.

Lemma sub_non_digits_all_digits s : all_digits s = true -> sub_non_digits s = s.
Proof.
  induction s as [|c s IH]; simpl; [reflexivity|].
  intros H. apply andb_true_iff in H as [H1 H2].
  rewrite H1, (IH H2). reflexivity.
Qed.

Lemma all_digits_is_ascii s : all_digits s = true -> is_ascii s = true.
Proof.
  induction s as [|c s IH]; simpl; [reflexivity|].
  intros H. apply andb_true_iff in H as [H1 H2].
  rewrite (IH H2), andb_true_r.
  unfold is_digit in H1. apply andb_true_iff in H1 as [_ H1].
  apply Nat.leb_le in H1. apply Nat.ltb_lt. lia.
Qed.

Lemma all_digits_no_leading_sep s :
  all_digits s = true -> startswith "/" s = false.
Proof.
  destruct s as [|c s]; [reflexivity|]. intros H.
  cbn [all_digits] in H. apply andb_true_iff in H as [H _].
  cbn [startswith]. destruct (Ascii.eqb_spec "/" c) as [<-|]; [discriminate H|reflexivity].
Qed.

(** ** Hexadecimal text *)

Lemma fromhex_hex_cons b bs :
  fromhex (hex (b :: bs)) = (rest <- fromhex (hex bs) ;; Ok (b :: rest)).
Proof. destruct b; reflexivity. Qed.

Lemma fromhex_hex bs : fromhex (hex bs) = Ok bs.
Proof.
  induction bs as [|b bs IH]; [reflexivity|].
  rewrite fromhex_hex_cons, IH. reflexivity.
Qed.

Lemma is_ascii_hex bs : is_ascii (hex bs) = true.
Proof.
  induction bs as [|b bs IH]; [reflexivity|].
  change (hex (b :: bs))
    with (String (hex_digit (Byte.to_N b / 16))
            (String (hex_digit (Byte.to_N b mod 16)) (hex bs))).
  cbn [is_ascii]. rewrite IH.
  destruct b; reflexivity.
Qed.

Lemma hex_nonempty bs : bs <> [] -> hex bs <> EmptyString.
Proof. destruct bs; [congruence|discriminate]. Qed.

Lemma truthy_hex bs : (0 < List.length bs)%nat -> truthy (JStr (hex bs)) = true.
Proof. destruct bs; simpl; [lia|reflexivity]. Qed.

(** ** Dictionaries *)

Lemma dict_get_set k k' v d :
  dict_get k (dict_set k' v d) = if String.eqb k k' then Some v else dict_get k d.
Proof.
  induction d as [|[k0 v0] d IH]; cbn [dict_set dict_get].
  - destruct (String.eqb k k'); reflexivity.
  - destruct (String.eqb_spec k' k0) as [->|Hne]; cbn [dict_get].
    + destruct (String.eqb k k0); reflexivity.
    + rewrite IH. destruct (String.eqb_spec k k0) as [->|]; [|reflexivity].
      apply String.eqb_neq in Hne. rewrite String.eqb_sym, Hne. reflexivity.
Qed.

Lemma dict_get_pop k k' d :
  dict_get k (dict_pop k' d) = if String.eqb k k' then None else dict_get k d.
Proof.
  induction d as [|[k0 v0] d IH]; cbn [dict_pop dict_get].
  - destruct (String.eqb k k'); reflexivity.
  - destruct (String.eqb_spec k' k0) as [->|Hne]; cbn [dict_get].
    + rewrite IH. destruct (String.eqb k k0); reflexivity.
    + rewrite IH. destruct (String.eqb_spec k k0) as [->|]; [|reflexivity].
      apply String.eqb_neq in Hne. rewrite String.eqb_sym, Hne. reflexivity.
Qed.

Lemma dict_get_setdefault k k' v d :
  dict_get k (dict_setdefault k' v d) =
  match dict_get k d with
  | Some w => Some w
  | None => if String.eqb k k' then Some v else None
  end.
Proof.
  unfold dict_setdefault. destruct (dict_get k' d) as [w|] eqn:E.
  - destruct (String.eqb_spec k k') as [->|].
    + rewrite E. reflexivity.
    + destruct (dict_get k d); reflexivity.
  - rewrite dict_get_set. destruct (String.eqb_spec k k') as [->|].
    + rewrite E. reflexivity.
    + destruct (dict_get k d); reflexivity.
Qed.

Lemma dict_pop_absent k d : dict_get k d = None -> dict_pop k d = d.
Proof.
  induction d as [|[k0 v0] d IH]; cbn [dict_pop dict_get]; [reflexivity|].
  destruct (String.eqb k k0); [discriminate|].
  intros H. rewrite (IH H). reflexivity.
Qed.

(** ** Paths *)

Lemma path_join_relative a b :
  startswith "/" b = false -> exists y, path_join a b = a ++ y.
Proof.
  intros H. unfold path_join. rewrite H.
  destruct (String.eqb a EmptyString || endswith_char "/" a); eauto.
Qed.

Lemma string_app_cons x (a b : string) : String x a ++ b = String x (a ++ b).
Proof. reflexivity. Qed.

Lemma string_app_nil (b : string) : EmptyString ++ b = b.
Proof. reflexivity. Qed.

Lemma string_app_assoc (a b c : string) : (a ++ b) ++ c = a ++ (b ++ c).
Proof.
  induction a as [|x a IH]; [reflexivity|].
  rewrite !string_app_cons, IH. reflexivity.
Qed.

Lemma string_app_inv_head (a b c : string) : a ++ b = a ++ c -> b = c.
Proof.
  induction a as [|x a IH]; [tauto|].
  rewrite !string_app_cons. intros [= H]. exact (IH H).
Qed.

Lemma auth_path_not_session base mob ap :
  AuthStore._auth_path base mob = Ok ap -> ap <> AuthStore.session_path base.
Proof.
  unfold AuthStore._auth_path, AuthStore._user_dir, AuthStore._normalize_mobile.
  destruct (MOBILE_RE_fullmatch (sub_non_digits (strip mob))) eqn:E;
    cbn [negb bind]; [|discriminate].
  intros [= <-]. unfold MOBILE_RE_fullmatch in E.
  apply andb_true_iff in E as [E _]. apply all_digits_no_leading_sep in E.
  unfold AuthStore.users_root, AuthStore.session_path.
  set (m := sub_non_digits (strip mob)) in *. intros H.
  destruct (path_join_relative (path_join (path_join base "users") m)
              "auth.json" eq_refl) as [y4 H4].
  destruct (path_join_relative (path_join base "users") m E) as [y3 H3].
  rewrite H4, H3 in H. revert H. unfold path_join.
  cbn [startswith Ascii.eqb Bool.eqb andb].
  destruct (String.eqb base EmptyString || endswith_char "/" base);
    rewrite !string_app_assoc; intros H; apply string_app_inv_head in H;
    vm_compute in H; discriminate H.
Qed.

(** ** Normalisation *)

Lemma normalize_mobile_eq m :
  AuthStore._normalize_mobile m =
  if (len (sub_non_digits m) =? 10)%nat then Ok (sub_non_digits m)
  else Raise ValidationError.
Proof.
  unfold AuthStore._normalize_mobile, MOBILE_RE_fullmatch.
  rewrite sub_non_digits_strip, all_digits_sub_non_digits. cbn [andb].
  destruct (len (sub_non_digits m) =? 10)%nat; reflexivity.
Qed.

Lemma norm_mobile_eq m :
  LocalStore._norm_mobile m =
  if (len (sub_non_digits m) =? 10)%nat then Ok (sub_non_digits m)
  else Raise ValidationError.
Proof.
  unfold LocalStore._norm_mobile. rewrite sub_non_digits_strip.
  destruct (len (sub_non_digits m) =? 10)%nat; reflexivity.
Qed.

Lemma normalize_mobile_digits m mob :
  AuthStore._normalize_mobile m = Ok mob ->
  mob = sub_non_digits m /\ all_digits mob = true /\ len mob = 10%nat.
Proof.
  rewrite normalize_mobile_eq.
  destruct (Nat.eqb_spec (len (sub_non_digits m)) 10) as [E|]; [|discriminate].
  intros [= <-]. auto using all_digits_sub_non_digits.
Qed.

Lemma normalize_mobile_idem m mob :
  AuthStore._normalize_mobile m = Ok mob -> AuthStore._normalize_mobile mob = Ok mob.
Proof.
  intros H. apply normalize_mobile_digits in H as (_ & Hd & Hl).
  rewrite normalize_mobile_eq, (sub_non_digits_all_digits _ Hd), Hl. reflexivity.
Qed.

Lemma norm_mobile_idem m mob :
  LocalStore._norm_mobile m = Ok mob -> LocalStore._norm_mobile mob = Ok mob.
Proof.
  rewrite !norm_mobile_eq.
  destruct (Nat.eqb_spec (len (sub_non_digits m)) 10) as [E|]; [|discriminate].
  intros [= <-].
  rewrite (sub_non_digits_all_digits _ (all_digits_sub_non_digits m)), E.
  reflexivity.
Qed.

Lemma auth_path_normalized base m mob :
  AuthStore._normalize_mobile m = Ok mob ->
  AuthStore._user_dir base mob = Ok (path_join (AuthStore.users_root base) mob) /\
  AuthStore._auth_path base mob =
    Ok (path_join (path_join (AuthStore.users_root base) mob) "auth.json").
Proof.
  intros H. apply normalize_mobile_idem in H.
  unfold AuthStore._auth_path, AuthStore._user_dir. rewrite H. split; reflexivity.
Qed.

(** ** The writers *)

Lemma run_app s1 s2 fs : run (s1 ++ s2)%list fs = run s2 (run s1 fs).
Proof. unfold run. apply fold_left_app. Qed.

Lemma run_atomic_write path data fs :
  run (fst (_atomic_write_json path data)) fs =
  FS (<[path := Doc data]> (files fs)) None.
Proof. reflexivity. Qed.


(** ** Stepping through an operation *)

Lemma pbind_ok {A B} (a : A) (k : A -> prog B) : pbind (lift (Ok a)) k = k a.
Proof. unfold pbind, lift. destruct (k a); reflexivity. Qed.

Lemma pbind_raise {A B} (e : exn) (k : A -> prog B) :
  pbind (lift (Raise e)) k = raise e.
Proof. reflexivity. Qed.

Lemma pbind_ret {A B} (a : A) (k : A -> prog B) : pbind (ret a) k = k a.
Proof. apply pbind_ok. Qed.

Lemma pbind_write_ret {A} path data (a : A) :
  pbind (_atomic_write_json path data) (fun _ => ret a) =
  (fst (_atomic_write_json path data), Ok a).
Proof. reflexivity. Qed.

Lemma pbind_write_raise {A} path data (e : exn) :
  pbind (_atomic_write_json path data) (fun _ => @raise A e) =
  (fst (_atomic_write_json path data), Raise e).
Proof. reflexivity. Qed.

Lemma get_obj d k default :
  get (JObj d) k default =
  Ok (match dict_get k d with Some v => v | None => default end).
Proof. reflexivity. Qed.

Lemma counter_get d k :
  (v <- get (JObj d) k (JInt 0) ;; py_int v) = counter d k.
Proof. reflexivity. Qed.

Lemma load_or_empty_record d :
  AuthStore.load_or_empty (Doc (JObj d)) = Ok (JObj d).
Proof. destruct d; reflexivity. Qed.

Ltac prog_step :=
  repeat first
    [ rewrite pbind_ok | rewrite pbind_raise | rewrite pbind_ret
    | rewrite get_obj | rewrite counter_get ].

Section AuthProperties.

Variable kdf : list byte -> list byte -> N -> list byte.
Variable base : string.

(** PBKDF2-HMAC-SHA256 returns a key of 32 bytes. *)
Hypothesis kdf_length : forall pw salt n, List.length (kdf pw salt n) = 32%nat.

Lemma is_ascii_derived_key pin raw : is_ascii (derived_key kdf pin raw) = true.
Proof. apply is_ascii_hex. Qed.

Lemma hash_pin_stored pin salt raw :
  PIN_RE_fullmatch pin = true ->
  truthy (JStr salt) = true ->
  fromhex salt = Ok raw ->
  AuthStore._hash_pin kdf pin (JStr salt) EmptyString =
  Ok (salt, derived_key kdf pin raw).
Proof.
  intros Hp Ht Hr. unfold AuthStore._hash_pin, py_or. rewrite Hp, Ht.
  cbn [negb]. rewrite Hr. reflexivity.
Qed.

Lemma hash_pin_fresh pin rnd :
  PIN_RE_fullmatch pin = true ->
  AuthStore._hash_pin kdf pin JNull (token_hex rnd) =
  Ok (hex rnd, derived_key kdf pin rnd).
Proof.
  intros Hp. unfold AuthStore._hash_pin, py_or, token_hex. rewrite Hp.
  cbn [negb truthy]. rewrite fromhex_hex. reflexivity.
Qed.

(** [login] up to the throttle check, on a stored record. *)
Lemma login_stored fs now m pin mob ap d :
  AuthStore._normalize_mobile m = Ok mob ->
  AuthStore._auth_path base mob = Ok ap ->
  files fs !! ap = Some (Doc (JObj d)) ->
  AuthStore.login kdf base fs now m pin =
  (fails <~ lift (counter d "failed_attempts") ;;
   last <~ lift (counter d "last_failed_at") ;;
   if (5 <=? fails) && (now - last <? 300) then raise ThrottledError
   else
     salt <~ lift (get (JObj d) "pin_salt" (JStr EmptyString)) ;;
     expect <~ lift (get (JObj d) "pin_hash" (JStr EmptyString)) ;;
     if negb (truthy salt && truthy expect) then raise UninitializedError
     else
       sh <~ lift (AuthStore._hash_pin kdf pin salt EmptyString) ;;
       let '(_, got) := sh in
       same <~ lift (compare_digest got expect) ;;
       d <~ lift (as_dict (JObj d)) ;;
       if negb same then
         let d := dict_set "failed_attempts" (JInt (fails + 1)) d in
         let d := dict_set "last_failed_at" (JInt now) d in
         _ <~ _atomic_write_json ap (JObj d) ;;
         raise InvalidCredentialsError
       else
         let d := dict_pop "failed_attempts" d in
         let d := dict_pop "last_failed_at" d in
         let d := dict_set "updated_at" (JInt now) d in
         _ <~ _atomic_write_json ap (JObj d) ;;
         _ <~ _atomic_write_json (AuthStore.session_path base)
                (JObj [("mobile", JStr mob); ("login_at", JInt now)]) ;;
         ret (AuthStore.identity mob)).
Proof.
  intros Hm Hap Hf. unfold AuthStore.login.
  rewrite Hm, pbind_ok, Hap, pbind_ok, Hf, load_or_empty_record.
  cbn [try_except]. rewrite pbind_ok. reflexivity.
Qed.

Lemma login_throttled fs now m pin mob ap d fails last :
  AuthStore._normalize_mobile m = Ok mob ->
  AuthStore._auth_path base mob = Ok ap ->
  files fs !! ap = Some (Doc (JObj d)) ->
  counter d "failed_attempts" = Ok fails ->
  counter d "last_failed_at" = Ok last ->
  throttled fails last now ->
  AuthStore.login kdf base fs now m pin = ([], Raise ThrottledError).
Proof.
  intros Hm Hap Hf Hc1 Hc2 [H5 H300].
  rewrite (login_stored _ _ _ _ _ _ _ Hm Hap Hf), Hc1, pbind_ok, Hc2, pbind_ok.
  replace (5 <=? fails) with true by (symmetry; apply Z.leb_le; lia).
  replace (now - last <? 300) with true by (symmetry; apply Z.ltb_lt; lia).
  reflexivity.
Qed.

Lemma not_throttled_test fails last now :
  ~ throttled fails last now -> (5 <=? fails) && (now - last <? 300) = false.
Proof.
  unfold throttled. intros H.
  destruct (Z.leb_spec 5 fails), (Z.ltb_spec (now - last) 300); try reflexivity.
  exfalso. apply H. lia.
Qed.

Lemma login_wrong_pin fs now m pin mob ap d salt raw hash fails last :
  AuthStore._normalize_mobile m = Ok mob ->
  AuthStore._auth_path base mob = Ok ap ->
  files fs !! ap = Some (Doc (JObj d)) ->
  has_credential d salt raw hash ->
  counter d "failed_attempts" = Ok fails ->
  counter d "last_failed_at" = Ok last ->
  ~ throttled fails last now ->
  PIN_RE_fullmatch pin = true ->
  derived_key kdf pin raw <> hash ->
  AuthStore.login kdf base fs now m pin =
  (fst (_atomic_write_json ap
          (JObj (dict_set "last_failed_at" (JInt now)
                   (dict_set "failed_attempts" (JInt (fails + 1)) d)))),
   Raise InvalidCredentialsError).
Proof.
  intros Hm Hap Hf (Hs & Hst & Hr & Hh & Hht & Ha) Hc1 Hc2 Hnt Hp Hne.
  rewrite (login_stored _ _ _ _ _ _ _ Hm Hap Hf).
  rewrite Hc1, pbind_ok, Hc2, pbind_ok, (not_throttled_test _ _ _ Hnt).
  rewrite !get_obj, Hs, Hh, !pbind_ok, Hst, Hht. cbn [andb negb].
  rewrite (hash_pin_stored _ _ _ Hp Hst Hr), pbind_ok.
  unfold compare_digest. rewrite is_ascii_derived_key, Ha. cbn [andb].
  rewrite pbind_ok. apply String.eqb_neq in Hne.
  rewrite Hne. cbn [as_dict negb]. rewrite pbind_ok.
  apply pbind_write_raise.
Qed.

Lemma login_right_pin fs now m pin mob ap d salt raw fails last :
  AuthStore._normalize_mobile m = Ok mob ->
  AuthStore._auth_path base mob = Ok ap ->
  files fs !! ap = Some (Doc (JObj d)) ->
  has_credential d salt raw (derived_key kdf pin raw) ->
  counter d "failed_attempts" = Ok fails ->
  counter d "last_failed_at" = Ok last ->
  ~ throttled fails last now ->
  PIN_RE_fullmatch pin = true ->
  AuthStore.login kdf base fs now m pin =
  ((fst (_atomic_write_json ap
           (JObj (dict_set "updated_at" (JInt now)
                    (dict_pop "last_failed_at" (dict_pop "failed_attempts" d))))) ++
    fst (_atomic_write_json (AuthStore.session_path base)
           (JObj [("mobile", JStr mob); ("login_at", JInt now)])))%list,
   Ok (AuthStore.identity mob)).
Proof.
  intros Hm Hap Hf (Hs & Hst & Hr & Hh & Hht & Ha) Hc1 Hc2 Hnt Hp.
  rewrite (login_stored _ _ _ _ _ _ _ Hm Hap Hf).
  rewrite Hc1, pbind_ok, Hc2, pbind_ok, (not_throttled_test _ _ _ Hnt).
  rewrite !get_obj, Hs, Hh, !pbind_ok, Hst, Hht. cbn [andb negb].
  rewrite (hash_pin_stored _ _ _ Hp Hst Hr), pbind_ok.
  unfold compare_digest. rewrite Ha. cbn [andb].
  rewrite String.eqb_refl, pbind_ok. cbn [as_dict negb]. rewrite pbind_ok.
  reflexivity.
Qed.

Lemma truthy_derived_key pin raw : truthy (JStr (derived_key kdf pin raw)) = true.
Proof. apply truthy_hex. rewrite kdf_length. lia. Qed.

Ltac dict_lookup :=
  cbn [dict_update];
  repeat first [ rewrite dict_get_pop | rewrite dict_get_set ];
  cbn [String.eqb Ascii.eqb Bool.eqb].

Lemma registered_record_credential now rnd mob pin d0 :
  (0 < List.length rnd)%nat ->
  has_credential (registered_record kdf now rnd mob pin d0) (hex rnd) rnd
    (derived_key kdf pin rnd) /\
  counter (registered_record kdf now rnd mob pin d0) "failed_attempts" = Ok 0 /\
  counter (registered_record kdf now rnd mob pin d0) "last_failed_at" = Ok 0.
Proof.
  intros Hl. unfold has_credential, counter, registered_record.
  repeat split; dict_lookup; auto using truthy_hex, fromhex_hex,
    truthy_derived_key, is_ascii_derived_key.
Qed.

Lemma register_writes fs now rnd m pin mob ap :
  AuthStore._normalize_mobile m = Ok mob ->
  AuthStore._auth_path base mob = Ok ap ->
  PIN_RE_fullmatch pin = true ->
  absent_or_record (files fs !! ap) = true ->
  exists d0,
    AuthStore.register kdf base fs now rnd m pin =
    (fst (_atomic_write_json ap (JObj (registered_record kdf now rnd mob pin d0))),
     Ok (AuthStore.identity mob)).
Proof.
  intros Hm Hap Hp Hf. unfold AuthStore.register.
  destruct (auth_path_normalized base _ _ Hm) as [Hud _].
  rewrite Hm, pbind_ok, Hud, pbind_ok, Hap, pbind_ok.
  rewrite (hash_pin_fresh _ _ Hp).
  destruct (files fs !! ap) as [[|j]|] eqn:E; cbn [AuthStore.load_or_empty json_load bind].
  - exists []. reflexivity.
  - cbn [absent_or_record] in Hf.
    destruct (py_or j (JObj [])) as [| | | | |d0]; try discriminate Hf.
    exists d0. reflexivity.
  - eexists. reflexivity.
Qed.

Lemma register_registers fs now rnd m pin mob :
  AuthStore._normalize_mobile m = Ok mob ->
  PIN_RE_fullmatch pin = true ->
  (0 < List.length rnd)%nat ->
  absent_or_record
    (files fs !! path_join (path_join (AuthStore.users_root base) mob) "auth.json")
    = true ->
  snd (exec (AuthStore.register kdf base fs now rnd m pin) fs)
    = Ok (AuthStore.identity mob) /\
  exists d,
    registered kdf base
      (fst (exec (AuthStore.register kdf base fs now rnd m pin) fs)) mob pin d 0 0.
Proof.
  intros Hm Hp Hl Hf.
  destruct (auth_path_normalized base _ _ Hm) as [_ Hap].
  destruct (register_writes fs now rnd m pin mob _ Hm Hap Hp Hf) as [d0 ->].
  split; [reflexivity|].
  destruct (registered_record_credential now rnd mob pin d0 Hl) as (Hc & Hf0 & Hl0).
  exists (registered_record kdf now rnd mob pin d0).
  eexists _, (hex rnd), rnd.
  split; [exact Hap|]. split.
  { unfold exec. cbn [fst]. rewrite run_atomic_write. cbn [files].
    apply lookup_insert_eq. }
  split; [exact Hc|]. split; [exact Hp|]. split; [exact Hf0|].
  split; [lia|exact Hl0].
Qed.


(** ** Failed attempts and the throttle *)

Lemma wrong_pin_mismatch d salt raw hash w :
  has_credential d salt raw hash ->
  wrong_pin kdf d w ->
  PIN_RE_fullmatch w = true /\ derived_key kdf w raw <> hash.
Proof.
  intros (Hs & _ & Hr & Hh & _) [Hp Hw]. split; [exact Hp|].
  intros E. apply (Hw salt raw Hs Hr). rewrite Hh, E. reflexivity.
Qed.

Lemma wrong_pin_same_credential d d' w :
  dict_get "pin_salt" d' = dict_get "pin_salt" d ->
  dict_get "pin_hash" d' = dict_get "pin_hash" d ->
  wrong_pin kdf d w -> wrong_pin kdf d' w.
Proof.
  intros Es Eh [Hp Hw]. split; [exact Hp|].
  intros salt raw Hs Hr. rewrite Eh.
  apply (Hw salt raw); [rewrite <- Es|]; assumption.
Qed.

Lemma throttled_dec fails last now :
  throttled fails last now \/ ~ throttled fails last now.
Proof. unfold throttled. lia. Qed.

(** One login with a wrong PIN, from a registered state: it is refused by
    the throttle and changes nothing, or it is counted and stamped. *)
Lemma login_wrong_step fs m mob pin d fails last now w :
  registered kdf base fs mob pin d fails last ->
  AuthStore._normalize_mobile m = Ok mob ->
  wrong_pin kdf d w ->
  let r := exec (AuthStore.login kdf base fs now m w) fs in
  (throttled fails last now /\ r = (fs, Raise ThrottledError)) \/
  (~ throttled fails last now /\
   snd r = Raise InvalidCredentialsError /\
   registered kdf base (fst r) mob pin
     (dict_set "last_failed_at" (JInt now)
        (dict_set "failed_attempts" (JInt (fails + 1)) d))
     (fails + 1) now).
Proof.
  intros (ap & salt & raw & Hap & Hst & Hc & Hp & Hc1 & H0 & Hc2) Hm Hw r.
  destruct (wrong_pin_mismatch _ _ _ _ _ Hc Hw) as [Hwp Hne].
  pose proof Hc as (Hs & Hst' & Hr & Hh & Hht & Ha).
  destruct (throttled_dec fails last now) as [Ht|Hnt].
  - left. split; [exact Ht|]. subst r.
    rewrite (login_throttled fs now m w mob ap d fails last Hm Hap Hst
               Hc1 Hc2 Ht).
    reflexivity.
  - right. split; [exact Hnt|]. subst r.
    rewrite (login_wrong_pin fs now m w mob ap d salt raw _ fails last
               Hm Hap Hst Hc Hc1 Hc2 Hnt Hwp Hne).
    split; [reflexivity|].
    exists ap, salt, raw. split; [exact Hap|]. split.
    { unfold exec. cbn [fst]. rewrite run_atomic_write. cbn [files].
      apply lookup_insert_eq. }
    split.
    { unfold has_credential. dict_lookup. repeat split; assumption. }
    split; [exact Hp|].
    unfold counter. dict_lookup.
    split; [reflexivity|]. split; [lia|reflexivity].
Qed.

Lemma after_logins_app fs m a1 a2 :
  after_logins kdf base fs m (a1 ++ a2) =
  after_logins kdf base (after_logins kdf base fs m a1) m a2.
Proof.
  revert fs. induction a1 as [|[t w] a1 IH]; intros fs; [reflexivity|].
  cbn [after_logins app]. apply IH.
Qed.

Lemma last_time_snoc attempts t w t0 : last_time (attempts ++ [(t, w)]) t0 = t.
Proof.
  revert t0. induction attempts as [|[t' w'] a IH]; intros t0; [reflexivity|].
  cbn [last_time app]. apply IH.
Qed.

(** The state after any number of logins with wrong PINs. *)
Lemma after_wrong_logins fs m mob pin d fails last t0 attempts :
  registered kdf base fs mob pin d fails last ->
  AuthStore._normalize_mobile m = Ok mob ->
  Forall (fun a => wrong_pin kdf d (snd a)) attempts ->
  exists d' fails' last',
    registered kdf base (after_logins kdf base fs m attempts) mob pin d' fails' last' /\
    dict_get "pin_salt" d' = dict_get "pin_salt" d /\
    dict_get "pin_hash" d' = dict_get "pin_hash" d /\
    (fails + Z.of_nat (List.length attempts) <= fails' \/ 5 <= fails') /\
    (fails + Z.of_nat (List.length attempts) <= 5 ->
     fails' = fails + Z.of_nat (List.length attempts)) /\
    (attempts <> [] ->
     last_time attempts t0 - last' < 300 /\
     (fails + Z.of_nat (List.length attempts) <= 5 ->
      last' = last_time attempts t0)).
Proof.
  intros Hreg Hm. induction attempts as [|[t w] attempts IH] using rev_ind; intros Hall.
  - exists d, fails, last. cbn [after_logins List.length].
    split; [exact Hreg|]. split; [reflexivity|]. split; [reflexivity|].
    split; [lia|]. split; [lia|]. intros H. congruence.
  - apply Forall_app in Hall as [Hall Hw]. apply Forall_inv in Hw. cbn [snd] in Hw.
    destruct (IH Hall) as (d1 & f1 & l1 & Hreg1 & Es & Eh & Hge & Heq & _).
    rewrite after_logins_app, last_time_snoc, length_app.
    cbn [after_logins List.length]. rewrite Nat2Z.inj_add. change (Z.of_nat 1) with 1.
    pose proof (wrong_pin_same_credential _ _ _ Es Eh Hw) as Hw1.
    destruct (login_wrong_step _ m mob pin d1 f1 l1 t w Hreg1 Hm Hw1)
      as [[[H5 Ht] Hr]|(Hnt & _ & Hreg2)].
    + rewrite Hr. cbn [fst]. exists d1, f1, l1.
      split; [exact Hreg1|]. split; [exact Es|]. split; [exact Eh|].
      split; [right; exact H5|]. split; [lia|].
      intros _. split; [exact Ht|lia].
    + eexists _, (f1 + 1), t. split; [exact Hreg2|].
      split; [dict_lookup; exact Es|]. split; [dict_lookup; exact Eh|].
      split; [lia|]. split; [lia|]. intros _. split; [lia|reflexivity].
Qed.

(** The login that follows the cool-off, with the registered PIN. *)
Lemma login_after_cool_off fs m mob pin d fails last now :
  registered kdf base fs mob pin d fails last ->
  AuthStore._normalize_mobile m = Ok mob ->
  ~ throttled fails last now ->
  let r := exec (AuthStore.login kdf base fs now m pin) fs in
  snd r = Ok (AuthStore.identity mob) /\
  exists d',
    registered kdf base (fst r) mob pin d' 0 0 /\
    dict_get "failed_attempts" d' = None /\
    dict_get "last_failed_at" d' = None /\
    files (fst r) !! AuthStore.session_path base =
      Some (Doc (JObj [("mobile", JStr mob); ("login_at", JInt now)])).
Proof.
  intros (ap & salt & raw & Hap & Hst & Hc & Hp & Hc1 & H0 & Hc2) Hm Hnt r.
  pose proof Hc as (Hs & Hst' & Hr & Hh & Hht & Ha).
  subst r.
  rewrite (login_right_pin fs now m pin mob ap d salt raw fails last
             Hm Hap Hst Hc Hc1 Hc2 Hnt Hp).
  split; [reflexivity|].
  eexists. split; [|split; [|split]].
  - exists ap, salt, raw. split; [exact Hap|]. split.
    { unfold exec. cbn [fst]. rewrite run_app, !run_atomic_write. cbn [files].
      rewrite lookup_insert_ne.
      - apply lookup_insert_eq.
      - intros E. symmetry in E. revert E. apply (auth_path_not_session _ _ _ Hap). }
    split.
    { unfold has_credential. dict_lookup. repeat split; assumption. }
    split; [exact Hp|].
    unfold counter. dict_lookup.
    split; [reflexivity|]. split; [lia|reflexivity].
  - dict_lookup. reflexivity.
  - dict_lookup. reflexivity.
  - unfold exec. cbn [fst]. rewrite run_app, !run_atomic_write. cbn [files].
    apply lookup_insert_eq.
Qed.

Lemma login_refused_while_throttled fs m mob pin d fails last now any_pin :
  registered kdf base fs mob pin d fails last ->
  AuthStore._normalize_mobile m = Ok mob ->
  throttled fails last now ->
  exec (AuthStore.login kdf base fs now m any_pin) fs = (fs, Raise ThrottledError).
Proof.
  intros (ap & salt & raw & Hap & Hst & Hc & Hp & Hc1 & H0 & Hc2) Hm Ht.
  rewrite (login_throttled fs now m any_pin mob ap d fails last Hm Hap Hst
             Hc1 Hc2 Ht).
  reflexivity.
Qed.

(** C3.  For a registered user, five (or more) consecutive logins with wrong
    PINs leave the account throttled at the time of the last of them.  While
    less than 300 seconds have passed since the failure last stamped, a
    login fails with [ThrottledError] whatever PIN is supplied, the
    registered one included, and changes nothing.  Once 300 seconds have
    passed, a login with the registered PIN succeeds and the record it
    persists has neither throttle field.  For an account whose counter was
    zero, the failure last stamped is the fifth attempt. *)
Theorem five_wrong_pins_throttle fs m mob pin d fails last attempts :
  registered kdf base fs mob pin d fails last ->
  AuthStore._normalize_mobile m = Ok mob ->
  (5 <= List.length attempts)%nat ->
  Forall (fun a => wrong_pin kdf d (snd a)) attempts ->
  let fs5 := after_logins kdf base fs m attempts in
  let t5 := last_time attempts 0 in
  exists d5 fails5 last5,
    registered kdf base fs5 mob pin d5 fails5 last5 /\
    throttled fails5 last5 t5 /\
    (fails = 0 -> List.length attempts = 5%nat -> last5 = t5) /\
    (forall now any_pin,
       now - last5 < 300 ->
       exec (AuthStore.login kdf base fs5 now m any_pin) fs5 =
       (fs5, Raise ThrottledError)) /\
    (forall now,
       300 <= now - last5 ->
       let r := exec (AuthStore.login kdf base fs5 now m pin) fs5 in
       snd r = Ok (AuthStore.identity mob) /\
       exists d',
         registered kdf base (fst r) mob pin d' 0 0 /\
         dict_get "failed_attempts" d' = None /\
         dict_get "last_failed_at" d' = None).
Proof.
  intros Hreg Hm Hlen Hall fs5 t5.
  pose proof Hreg as (_ & _ & _ & _ & _ & _ & _ & _ & H0 & _).
  destruct (after_wrong_logins fs m mob pin d fails last 0 attempts Hreg Hm Hall)
    as (d5 & f5 & l5 & Hreg5 & _ & _ & Hge & Heq & Hlast).
  assert (Hne : attempts <> []) by (destruct attempts; [cbn in Hlen; lia|discriminate]).
  destruct (Hlast Hne) as [Ht Hl]. fold t5 in Ht, Hl. fold fs5 in Hreg5.
  assert (H5 : 5 <= f5) by lia.
  exists d5, f5, l5. split; [exact Hreg5|]. split; [split; assumption|].
  split; [intros -> E; apply Hl; rewrite E; lia|]. split.
  - intros now any_pin Hnow.
    apply (login_refused_while_throttled fs5 m mob pin d5 f5 l5 now any_pin Hreg5 Hm).
    split; assumption.
  - intros now Hnow r.
    destruct (login_after_cool_off fs5 m mob pin d5 f5 l5 now Hreg5 Hm)
      as (Hok & d' & Hreg' & Hf & Hl' & _).
    { unfold throttled. lia. }
    split; [exact Hok|]. exists d'. auto.
Qed.

(** ** Verifying and changing the PIN *)

Lemma verify_pin_stored fs m pin mob ap d salt raw hash :
  AuthStore._normalize_mobile m = Ok mob ->
  AuthStore._auth_path base mob = Ok ap ->
  files fs !! ap = Some (Doc (JObj d)) ->
  has_credential d salt raw hash ->
  PIN_RE_fullmatch pin = true ->
  AuthStore.verify_pin kdf base fs m pin =
  ([], Ok (String.eqb (derived_key kdf pin raw) hash)).
Proof.
  intros Hm Hap Hf (Hs & Hst & Hr & Hh & Hht & Ha) Hp.
  unfold AuthStore.verify_pin.
  rewrite Hm, pbind_ok, Hap, pbind_ok, Hf, load_or_empty_record, pbind_ok.
  rewrite !get_obj, Hs, Hh, !pbind_ok, Hst, Hht. cbn [andb negb].
  rewrite (hash_pin_stored _ _ _ Hp Hst Hr), pbind_ok.
  unfold compare_digest. rewrite is_ascii_derived_key, Ha. reflexivity.
Qed.

Lemma change_pin_wrong_old fs now rnd m mob pin d fails last old new :
  registered kdf base fs mob pin d fails last ->
  AuthStore._normalize_mobile m = Ok mob ->
  wrong_pin kdf d old ->
  AuthStore.change_pin kdf base fs now rnd m old new =
  ([], Raise InvalidCredentialsError).
Proof.
  intros (ap & salt & raw & Hap & Hst & Hc & Hp & _) Hm Hw.
  destruct (wrong_pin_mismatch _ _ _ _ _ Hc Hw) as [Hwp Hne].
  unfold AuthStore.change_pin.
  rewrite (verify_pin_stored fs m old mob ap d salt raw _ Hm Hap Hst Hc Hwp).
  apply String.eqb_neq in Hne. rewrite Hne. reflexivity.
Qed.

Lemma change_pin_right_old fs now rnd m mob pin d fails last new ap :
  registered kdf base fs mob pin d fails last ->
  AuthStore._normalize_mobile m = Ok mob ->
  AuthStore._auth_path base mob = Ok ap ->
  PIN_RE_fullmatch new = true ->
  AuthStore.change_pin kdf base fs now rnd m pin new =
  (fst (_atomic_write_json ap
          (JObj (dict_update [("pin_salt", JStr (hex rnd));
                              ("pin_hash", JStr (derived_key kdf new rnd));
                              ("updated_at", JInt now)] d))),
   Ok tt).
Proof.
  intros (ap' & salt & raw & Hap' & Hst & Hc & Hp & _) Hm Hap Hn.
  rewrite Hap in Hap'. injection Hap' as <-.
  unfold AuthStore.change_pin.
  rewrite (verify_pin_stored fs m pin mob ap d salt raw _ Hm Hap Hst Hc Hp).
  rewrite String.eqb_refl.
  change (pbind ([], Ok true) ?k) with (pbind (lift (Ok true)) k).
  rewrite pbind_ok. cbn [negb].
  rewrite Hm, pbind_ok, Hap, pbind_ok, Hst, load_or_empty_record, pbind_ok.
  rewrite (hash_pin_fresh _ _ Hn), pbind_ok. cbn [as_dict]. rewrite pbind_ok.
  reflexivity.
Qed.

Lemma changed_record_registered fs now rnd mob pin d fails last new ap :
  registered kdf base fs mob pin d fails last ->
  AuthStore._auth_path base mob = Ok ap ->
  PIN_RE_fullmatch new = true ->
  (0 < List.length rnd)%nat ->
  registered kdf base
    (FS (<[ap := Doc (JObj (dict_update
                              [("pin_salt", JStr (hex rnd));
                               ("pin_hash", JStr (derived_key kdf new rnd));
                               ("updated_at", JInt now)] d))]> (files fs)) None)
    mob new
    (dict_update [("pin_salt", JStr (hex rnd));
                  ("pin_hash", JStr (derived_key kdf new rnd));
                  ("updated_at", JInt now)] d)
    fails last.
Proof.
  intros (ap' & salt & raw & Hap' & Hst & Hc & Hp & Hc1 & H0 & Hc2) Hap Hn Hl.
  exists ap, (hex rnd), rnd. split; [exact Hap|].
  split; [apply lookup_insert_eq|]. split.
  { unfold has_credential. dict_lookup.
    repeat split; auto using truthy_hex, fromhex_hex, truthy_derived_key,
      is_ascii_derived_key. }
  split; [exact Hn|]. unfold counter in *. dict_lookup. auto.
Qed.

(** C7, as amended.  For a registered user, [change_pin] with an old PIN that
    is wrong fails with [InvalidCredentialsError] and performs no write, so
    the stored record is unchanged.  With the registered PIN as old PIN and a
    well-formed new PIN it succeeds and rewrites salt and hash, leaving the
    throttle fields as they are.  Afterwards [verify_pin] accepts the new
    PIN, and accepts any other well-formed PIN, the old one included, exactly
    when its derived key under the new salt is that of the new PIN; [login]
    with the new PIN succeeds when the account is not throttled, is refused
    with [ThrottledError] when it is, and fails with
    [InvalidCredentialsError] for a PIN whose derived key differs. *)
Theorem change_pin_replaces_credential fs m mob pin d fails last now rnd new :
  registered kdf base fs mob pin d fails last ->
  AuthStore._normalize_mobile m = Ok mob ->
  (forall old,
     wrong_pin kdf d old ->
     exec (AuthStore.change_pin kdf base fs now rnd m old new) fs =
     (fs, Raise InvalidCredentialsError)) /\
  (PIN_RE_fullmatch new = true ->
   List.length rnd = 16%nat ->
   let r := exec (AuthStore.change_pin kdf base fs now rnd m pin new) fs in
   snd r = Ok tt /\
   exists d',
     registered kdf base (fst r) mob new d' fails last /\
     dict_get "failed_attempts" d' = dict_get "failed_attempts" d /\
     dict_get "last_failed_at" d' = dict_get "last_failed_at" d /\
     AuthStore.verify_pin kdf base (fst r) m new = ([], Ok true) /\
     (forall p,
        PIN_RE_fullmatch p = true ->
        AuthStore.verify_pin kdf base (fst r) m p =
        ([], Ok (String.eqb (derived_key kdf p rnd) (derived_key kdf new rnd)))) /\
     (forall now',
        ~ throttled fails last now' ->
        snd (exec (AuthStore.login kdf base (fst r) now' m new) (fst r)) =
        Ok (AuthStore.identity mob)) /\
     (forall now' p,
        ~ throttled fails last now' ->
        PIN_RE_fullmatch p = true ->
        derived_key kdf p rnd <> derived_key kdf new rnd ->
        snd (exec (AuthStore.login kdf base (fst r) now' m p) (fst r)) =
        Raise InvalidCredentialsError) /\
     (forall now' p,
        throttled fails last now' ->
        exec (AuthStore.login kdf base (fst r) now' m p) (fst r) =
        (fst r, Raise ThrottledError))).
Proof.
  intros Hreg Hm. split.
  - intros old Hw.
    rewrite (change_pin_wrong_old fs now rnd m mob pin d fails last old new Hreg Hm Hw).
    reflexivity.
  - intros Hn Hl r.
    destruct (auth_path_normalized base _ _ Hm) as [_ Hap].
    assert (Hl' : (0 < List.length rnd)%nat) by lia.
    pose proof (changed_record_registered fs now rnd mob pin d fails last new _
                  Hreg Hap Hn Hl') as Hreg'.
    assert (Hr : r = (FS (<[path_join (path_join (AuthStore.users_root base) mob)
                              "auth.json" :=
                            Doc (JObj (dict_update
                              [("pin_salt", JStr (hex rnd));
                               ("pin_hash", JStr (derived_key kdf new rnd));
                               ("updated_at", JInt now)] d))]> (files fs)) None,
                      Ok tt)).
    { subst r.
      rewrite (change_pin_right_old fs now rnd m mob pin d fails last new _
                 Hreg Hm Hap Hn).
      reflexivity. }
    rewrite Hr. cbn [fst snd]. split; [reflexivity|].
    eexists. split; [exact Hreg'|].
    split; [dict_lookup; reflexivity|]. split; [dict_lookup; reflexivity|].
    destruct Hreg' as (ap & salt & raw & Hap' & Hst & Hc & _ & Hc1 & _ & Hc2).
    assert (Hraw : raw = rnd).
    { destruct Hc as (Hs & _ & Hfr & _). revert Hs. dict_lookup.
      intros [= <-]. rewrite fromhex_hex in Hfr. congruence. }
    subst raw.
    assert (Hv : forall p, PIN_RE_fullmatch p = true ->
                 AuthStore.verify_pin kdf base
                   (FS (<[path_join (path_join (AuthStore.users_root base) mob)
                            "auth.json" :=
                          Doc (JObj (dict_update
                            [("pin_salt", JStr (hex rnd));
                             ("pin_hash", JStr (derived_key kdf new rnd));
                             ("updated_at", JInt now)] d))]> (files fs)) None) m p =
                 ([], Ok (String.eqb (derived_key kdf p rnd) (derived_key kdf new rnd)))).
    { intros p Hp. apply (verify_pin_stored _ m p mob ap _ salt rnd _ Hm Hap' Hst Hc Hp). }
    split; [rewrite (Hv new Hn), String.eqb_refl; reflexivity|].
    split; [exact Hv|]. split; [|split].
    + intros now' Hnt.
      rewrite (login_right_pin _ now' m new mob ap _ salt rnd fails last
                 Hm Hap' Hst Hc Hc1 Hc2 Hnt Hn).
      reflexivity.
    + intros now' p Hnt Hp Hne.
      rewrite (login_wrong_pin _ now' m p mob ap _ salt rnd _ fails last
                 Hm Hap' Hst Hc Hc1 Hc2 Hnt Hp Hne).
      reflexivity.
    + intros now' p Ht.
      rewrite (login_throttled _ now' m p mob ap _ fails last Hm Hap' Hst Hc1 Hc2 Ht).
      reflexivity.
Qed.

(** ** What changes the failure counter *)

Lemma login_malformed_pin fs m mob pin d fails last now any_pin :
  registered kdf base fs mob pin d fails last ->
  AuthStore._normalize_mobile m = Ok mob ->
  ~ throttled fails last now ->
  PIN_RE_fullmatch any_pin = false ->
  exec (AuthStore.login kdf base fs now m any_pin) fs = (fs, Raise ValidationError).
Proof.
  intros (ap & salt & raw & Hap & Hst & Hc & _ & Hc1 & _ & Hc2) Hm Hnt Hp.
  destruct Hc as (Hs & Hst' & Hr & Hh & Hht & Ha).
  rewrite (login_stored _ _ _ _ _ _ _ Hm Hap Hst).
  rewrite Hc1, pbind_ok, Hc2, pbind_ok, (not_throttled_test _ _ _ Hnt).
  rewrite !get_obj, Hs, Hh, !pbind_ok, Hst', Hht. cbn [andb negb].
  unfold AuthStore._hash_pin. rewrite Hp. reflexivity.
Qed.

(** What a login does to a registered account, whatever text is supplied
    as the PIN: it is refused and the files stay as they are, or it counts
    as one more failure, or it succeeds with a PIN that derives the stored
    hash. *)
Lemma login_on_registered fs m mob pin d fails last now any_pin :
  registered kdf base fs mob pin d fails last ->
  AuthStore._normalize_mobile m = Ok mob ->
  let r := exec (AuthStore.login kdf base fs now m any_pin) fs in
  (exists e, r = (fs, Raise e)) \/
  (snd r = Raise InvalidCredentialsError /\
   exists d', registered kdf base (fst r) mob pin d' (fails + 1) now) \/
  (~ throttled fails last now /\ registered kdf base fs mob any_pin d fails last).
Proof.
  intros Hreg Hm r.
  pose proof Hreg as (ap & salt & raw & Hap & Hst & Hc & Hp & Hc1 & H0 & Hc2).
  destruct (throttled_dec fails last now) as [Ht|Hnt].
  { left. exists ThrottledError.
    apply (login_refused_while_throttled fs m mob pin d fails last now any_pin
             Hreg Hm Ht). }
  destruct (PIN_RE_fullmatch any_pin) eqn:Hpa.
  2:{ left. exists ValidationError.
      apply (login_malformed_pin fs m mob pin d fails last now any_pin Hreg Hm Hnt Hpa). }
  destruct (String.eqb_spec (derived_key kdf any_pin raw) (derived_key kdf pin raw))
    as [E|Hne].
  - right. right. split; [exact Hnt|].
    exists ap, salt, raw. rewrite E. auto 10.
  - right. left.
    assert (Hw : wrong_pin kdf d any_pin).
    { split; [exact Hpa|]. intros salt0 raw0 Hs0 Hr0.
      destruct Hc as (Hs & _ & Hr & Hh & _).
      rewrite Hs in Hs0. injection Hs0 as <-.
      rewrite Hr in Hr0. injection Hr0 as <-.
      rewrite Hh. intros [= E]. apply Hne. symmetry. exact E. }
    destruct (login_wrong_step fs m mob pin d fails last now any_pin Hreg Hm Hw)
      as [[Ht _]|(_ & Hr & Hreg')]; [contradiction|].
    split; [exact Hr|]. eexists. exact Hreg'.
Qed.

(** C10, as amended.  The failure counter of a registered account is not
    reset by the passing of time: at any clock reading a login that fails
    leaves the counter as it is or adds one to it, and [change_pin] keeps
    it.  A login that succeeds and [register] reset it.  So for a stored
    record with [failed_attempts >= 5] whose last failure is at least 300
    seconds old, a login with a wrong PIN is not throttled: it fails with
    [InvalidCredentialsError] and persists the counter incremented (to 6 at
    least) and [last_failed_at] set to the current time.  Any login in the
    300 seconds that follow, with the registered PIN too, fails with
    [ThrottledError]. *)
Theorem failure_counter_survives_cool_off fs m mob pin d fails last now wrong :
  registered kdf base fs mob pin d fails last ->
  AuthStore._normalize_mobile m = Ok mob ->
  (forall t any_pin e,
     let r := exec (AuthStore.login kdf base fs t m any_pin) fs in
     snd r = Raise e ->
     exists d' fails' last',
       registered kdf base (fst r) mob pin d' fails' last' /\
       (fails' = fails \/ fails' = fails + 1)) /\
  (forall t any_pin u,
     let r := exec (AuthStore.login kdf base fs t m any_pin) fs in
     snd r = Ok u ->
     exists d',
       registered kdf base (fst r) mob any_pin d' 0 0 /\
       dict_get "failed_attempts" d' = None /\
       dict_get "last_failed_at" d' = None) /\
  (forall t rnd new,
     PIN_RE_fullmatch new = true ->
     List.length rnd = 16%nat ->
     let r := exec (AuthStore.register kdf base fs t rnd m new) fs in
     snd r = Ok (AuthStore.identity mob) /\
     exists d', registered kdf base (fst r) mob new d' 0 0) /\
  (forall t rnd new,
     PIN_RE_fullmatch new = true ->
     List.length rnd = 16%nat ->
     let r := exec (AuthStore.change_pin kdf base fs t rnd m pin new) fs in
     snd r = Ok tt /\
     exists d',
       registered kdf base (fst r) mob new d' fails last /\
       dict_get "failed_attempts" d' = dict_get "failed_attempts" d /\
       dict_get "last_failed_at" d' = dict_get "last_failed_at" d) /\
  (5 <= fails ->
   300 <= now - last ->
   wrong_pin kdf d wrong ->
   let r := exec (AuthStore.login kdf base fs now m wrong) fs in
   snd r = Raise InvalidCredentialsError /\
   exists d',
     registered kdf base (fst r) mob pin d' (fails + 1) now /\
     dict_get "failed_attempts" d' = Some (JInt (fails + 1)) /\
     6 <= fails + 1 /\
     dict_get "last_failed_at" d' = Some (JInt now) /\
     forall now' any_pin,
       now' - now < 300 ->
       exec (AuthStore.login kdf base (fst r) now' m any_pin) (fst r) =
       (fst r, Raise ThrottledError)).
Proof.
  intros Hreg Hm.
  destruct (auth_path_normalized base _ _ Hm) as [_ Hap].
  split; [|split; [|split; [|split]]].
  - intros t any_pin e r Hr.
    destruct (login_on_registered fs m mob pin d fails last t any_pin Hreg Hm)
      as [[e' He]|[(_ & d' & Hreg')|[Hnt Hreg']]]; fold r in He || fold r in Hreg' || idtac.
    + exists d, fails, last. rewrite He. split; [exact Hreg|left; reflexivity].
    + exists d', (fails + 1), t. split; [exact Hreg'|right; reflexivity].
    + destruct (login_after_cool_off fs m mob any_pin d fails last t Hreg' Hm Hnt)
        as [Hok _].
      fold r in Hok. rewrite Hok in Hr. discriminate Hr.
  - intros t any_pin u r Hr.
    destruct (login_on_registered fs m mob pin d fails last t any_pin Hreg Hm)
      as [[e' He]|[(He & _)|[Hnt Hreg']]].
    + fold r in He. rewrite He in Hr. discriminate Hr.
    + fold r in He. rewrite He in Hr. discriminate Hr.
    + destruct (login_after_cool_off fs m mob any_pin d fails last t Hreg' Hm Hnt)
        as (_ & d' & H1 & H2 & H3 & _).
      exists d'. auto.
  - intros t rnd new Hn Hl r.
    assert (Hl' : (0 < List.length rnd)%nat) by lia.
    apply (register_registers fs t rnd m new mob Hm Hn Hl').
    destruct Hreg as (ap & _ & _ & Hap' & Hst & _).
    rewrite Hap in Hap'. injection Hap' as <-. rewrite Hst.
    destruct d; reflexivity.
  - intros t rnd new Hn Hl r.
    assert (Hl' : (0 < List.length rnd)%nat) by lia.
    pose proof (changed_record_registered fs t rnd mob pin d fails last new _
                  Hreg Hap Hn Hl') as Hreg'.
    subst r.
    rewrite (change_pin_right_old fs t rnd m mob pin d fails last new _
               Hreg Hm Hap Hn).
    split; [reflexivity|].
    eexists. split; [exact Hreg'|].
    split; dict_lookup; reflexivity.
  - intros H5 Hold Hw r.
    destruct (login_wrong_step fs m mob pin d fails last now wrong Hreg Hm Hw)
      as [[[_ Ht] _]|(_ & Hr & Hreg')]; [lia|].
    fold r in Hr, Hreg'. split; [exact Hr|].
    eexists. split; [exact Hreg'|]. split; [dict_lookup; reflexivity|].
    split; [lia|]. split; [dict_lookup; reflexivity|].
    intros now' any_pin Hnow.
    apply (login_refused_while_throttled (fst r) m mob pin _ _ _ now' any_pin Hreg' Hm).
    split; lia.
Qed.

(** ** Credential material *)

Lemma has_credential_present d salt raw hash :
  has_credential d salt raw hash -> credential_present d = true.
Proof.
  intros (Hs & Hst & _ & Hh & Hht & _). unfold credential_present.
  rewrite Hs, Hh, Hst, Hht. reflexivity.
Qed.

Lemma login_lacking_credential fs now m pin mob ap d :
  AuthStore._normalize_mobile m = Ok mob ->
  AuthStore._auth_path base mob = Ok ap ->
  files fs !! ap = Some (Doc (JObj d)) ->
  credential_present d = false ->
  (exists e, AuthStore.login kdf base fs now m pin = ([], Raise e)) /\
  (forall fails last,
     counter d "failed_attempts" = Ok fails ->
     counter d "last_failed_at" = Ok last ->
     ~ throttled fails last now ->
     AuthStore.login kdf base fs now m pin = ([], Raise UninitializedError)).
Proof.
  intros Hm Hap Hf Hc. rewrite (login_stored _ _ _ _ _ _ _ Hm Hap Hf).
  unfold credential_present in Hc. split.
  - destruct (counter d "failed_attempts") as [f|e]; [|eexists; reflexivity].
    rewrite pbind_ok.
    destruct (counter d "last_failed_at") as [l|e]; [|eexists; reflexivity].
    rewrite pbind_ok.
    destruct ((5 <=? f) && (now - l <? 300)); [eexists; reflexivity|].
    rewrite !get_obj, !pbind_ok, Hc. eexists; reflexivity.
  - intros fails last -> -> Hnt.
    rewrite !pbind_ok, (not_throttled_test _ _ _ Hnt), !get_obj, !pbind_ok, Hc.
    reflexivity.
Qed.

(** Whatever [login] writes to the credential file is a record that had
    salt and hash, with both left as they were. *)
Lemma login_writes_credentialed fs now m pin :
  fst (AuthStore.login kdf base fs now m pin) = [] \/
  exists mob ap d d' rest,
    AuthStore._normalize_mobile m = Ok mob /\
    AuthStore._auth_path base mob = Ok ap /\
    files fs !! ap = Some (Doc (JObj d)) /\
    credential_present d = true /\
    dict_get "pin_salt" d' = dict_get "pin_salt" d /\
    dict_get "pin_hash" d' = dict_get "pin_hash" d /\
    fst (AuthStore.login kdf base fs now m pin) =
      (fst (_atomic_write_json ap (JObj d')) ++ rest)%list /\
    (rest = [] \/
     rest = fst (_atomic_write_json (AuthStore.session_path base)
                   (JObj [("mobile", JStr mob); ("login_at", JInt now)]))).
Proof.
  destruct (AuthStore._normalize_mobile m) as [mob|e] eqn:Hm;
    [|left; unfold AuthStore.login; rewrite Hm; reflexivity].
  destruct (auth_path_normalized base _ _ Hm) as [_ Hap].
  destruct (files fs !! path_join (path_join (AuthStore.users_root base) mob)
                          "auth.json") as [[|j]|] eqn:Hf.
  - left. unfold AuthStore.login. rewrite Hm, pbind_ok, Hap, pbind_ok, Hf. reflexivity.
  - assert (Hnd : (forall d, j <> JObj d) ->
                  fst (AuthStore.login kdf base fs now m pin) = []).
    { intros Hj. unfold AuthStore.login. rewrite Hm, pbind_ok, Hap, pbind_ok, Hf.
      destruct j as [|[|]|n|s|[|x l]|d]; try reflexivity.
      - unfold AuthStore.load_or_empty, py_or. cbn [json_load bind truthy].
        destruct (n =? 0); reflexivity.
      - unfold AuthStore.load_or_empty, py_or. cbn [json_load bind truthy].
        destruct (String.eqb s EmptyString); reflexivity.
      - exfalso. apply (Hj d). reflexivity. }
    destruct j as [| | | | |d]; try (left; apply Hnd; discriminate).
    clear Hnd. rewrite (login_stored _ _ _ _ _ _ _ Hm Hap Hf).
    destruct (counter d "failed_attempts") as [f|e]; [|left; reflexivity].
    rewrite pbind_ok.
    destruct (counter d "last_failed_at") as [l|e]; [|left; reflexivity].
    rewrite pbind_ok.
    destruct ((5 <=? f) && (now - l <? 300)); [left; reflexivity|].
    rewrite !get_obj, !pbind_ok.
    destruct (credential_present d) eqn:Hc; unfold credential_present in Hc;
      rewrite Hc; [|left; reflexivity].
    cbn [negb].
    destruct (AuthStore._hash_pin kdf pin _ EmptyString) as [[s got]|e];
      [|left; reflexivity].
    rewrite pbind_ok.
    destruct (compare_digest got _) as [same|e]; [|left; reflexivity].
    rewrite pbind_ok. cbn [as_dict]. rewrite pbind_ok.
    right. destruct same; cbn [negb].
    + eexists mob, _, d, _, _. split; [reflexivity|]. split; [exact Hap|].
      split; [exact Hf|]. split; [exact Hc|].
      split; [|split; [|split; [reflexivity|right; reflexivity]]];
        dict_lookup; reflexivity.
    + eexists mob, _, d, _, []. split; [reflexivity|]. split; [exact Hap|].
      split; [exact Hf|]. split; [exact Hc|].
      split; [|split; [|split; [reflexivity|left; reflexivity]]];
        dict_lookup; reflexivity.
  - left. unfold AuthStore.login. rewrite Hm, pbind_ok, Hap, pbind_ok, Hf. reflexivity.
Qed.

Lemma migrate_entry_writes now mob rec :
  MOBILE_RE_fullmatch (sub_non_digits mob) = true ->
  exists payload,
    AuthStore.migrate_entry base now (mob, JObj rec) =
    (fst (_atomic_write_json
            (path_join (path_join (AuthStore.users_root base) (sub_non_digits mob))
               "auth.json")
            (JObj payload)), Ok tt) /\
    dict_get "pin_salt" payload =
      Some (match dict_get "pin_salt" rec with
            | Some v => v | None => JStr EmptyString end) /\
    dict_get "pin_hash" payload =
      Some (match dict_get "pin_hash" rec with
            | Some v => v | None => JStr EmptyString end).
Proof.
  intros H. unfold AuthStore.migrate_entry. rewrite H. cbn [negb].
  rewrite !get_obj, !pbind_ok. eexists. split; [reflexivity|].
  split; reflexivity.
Qed.

(** C8, as amended.  [register] and [change_pin] write [pin_salt] and
    [pin_hash] together, both non-empty.  [login] writes the credential
    file only from a record that has both, and leaves them as they are.  The
    migration of a legacy entry writes both keys, each with the legacy value
    or, when the entry lacks it, the empty string.  [login] on a record in
    which either is missing or empty never succeeds and writes nothing; it
    fails with [UninitializedError] whenever the throttle counters can be
    read and the throttle is not active. *)
Theorem credential_material_written_and_required :
  (forall fs now rnd m pin mob,
     AuthStore._normalize_mobile m = Ok mob ->
     PIN_RE_fullmatch pin = true ->
     List.length rnd = 16%nat ->
     absent_or_record
       (files fs !! path_join (path_join (AuthStore.users_root base) mob) "auth.json")
       = true ->
     exists d',
       AuthStore.register kdf base fs now rnd m pin =
       (fst (_atomic_write_json
               (path_join (path_join (AuthStore.users_root base) mob) "auth.json")
               (JObj d')), Ok (AuthStore.identity mob)) /\
       credential_present d' = true) /\
  (forall fs now rnd m mob pin d fails last new,
     registered kdf base fs mob pin d fails last ->
     AuthStore._normalize_mobile m = Ok mob ->
     PIN_RE_fullmatch new = true ->
     List.length rnd = 16%nat ->
     exists d',
       AuthStore.change_pin kdf base fs now rnd m pin new =
       (fst (_atomic_write_json
               (path_join (path_join (AuthStore.users_root base) mob) "auth.json")
               (JObj d')), Ok tt) /\
       credential_present d' = true) /\
  (forall fs now m pin,
     fst (AuthStore.login kdf base fs now m pin) = [] \/
     exists mob ap d d' rest,
       AuthStore._normalize_mobile m = Ok mob /\
       AuthStore._auth_path base mob = Ok ap /\
       files fs !! ap = Some (Doc (JObj d)) /\
       credential_present d = true /\
       dict_get "pin_salt" d' = dict_get "pin_salt" d /\
       dict_get "pin_hash" d' = dict_get "pin_hash" d /\
       fst (AuthStore.login kdf base fs now m pin) =
         (fst (_atomic_write_json ap (JObj d')) ++ rest)%list /\
       (rest = [] \/
        rest = fst (_atomic_write_json (AuthStore.session_path base)
                      (JObj [("mobile", JStr mob); ("login_at", JInt now)])))) /\
  (forall now mob rec,
     MOBILE_RE_fullmatch (sub_non_digits mob) = true ->
     exists payload,
       AuthStore.migrate_entry base now (mob, JObj rec) =
       (fst (_atomic_write_json
               (path_join (path_join (AuthStore.users_root base) (sub_non_digits mob))
                  "auth.json")
               (JObj payload)), Ok tt) /\
       dict_get "pin_salt" payload =
         Some (match dict_get "pin_salt" rec with
               | Some v => v | None => JStr EmptyString end) /\
       dict_get "pin_hash" payload =
         Some (match dict_get "pin_hash" rec with
               | Some v => v | None => JStr EmptyString end)) /\
  (forall fs now m pin mob ap d,
     AuthStore._normalize_mobile m = Ok mob ->
     AuthStore._auth_path base mob = Ok ap ->
     files fs !! ap = Some (Doc (JObj d)) ->
     credential_present d = false ->
     (exists e, AuthStore.login kdf base fs now m pin = ([], Raise e)) /\
     (forall fails last,
        counter d "failed_attempts" = Ok fails ->
        counter d "last_failed_at" = Ok last ->
        ~ throttled fails last now ->
        AuthStore.login kdf base fs now m pin = ([], Raise UninitializedError))).
Proof.
  split; [|split; [|split; [|split]]].
  - intros fs now rnd m pin mob Hm Hp Hl Hf.
    destruct (auth_path_normalized base _ _ Hm) as [_ Hap].
    destruct (register_writes fs now rnd m pin mob _ Hm Hap Hp Hf) as [d0 ->].
    eexists. split; [reflexivity|].
    destruct (registered_record_credential now rnd mob pin d0) as [Hc _]; [lia|].
    exact (has_credential_present _ _ _ _ Hc).
  - intros fs now rnd m mob pin d fails last new Hreg Hm Hn Hl.
    destruct (auth_path_normalized base _ _ Hm) as [_ Hap].
    rewrite (change_pin_right_old fs now rnd m mob pin d fails last new _
               Hreg Hm Hap Hn).
    eexists. split; [reflexivity|].
    assert (Hl' : (0 < List.length rnd)%nat) by lia.
    destruct (changed_record_registered fs now rnd mob pin d fails last new _
                Hreg Hap Hn Hl') as (ap & salt & raw & _ & _ & Hc & _).
    exact (has_credential_present _ _ _ _ Hc).
  - apply login_writes_credentialed.
  - apply migrate_entry_writes.
  - apply login_lacking_credential.
Qed.

(** ** The probing operations *)

Lemma user_exists_total fs m : exists b, AuthStore.user_exists base fs m = ([], Ok b).
Proof.
  unfold AuthStore.user_exists.
  destruct (AuthStore._auth_path base m) as [ap|e]; eexists; reflexivity.
Qed.

Lemma current_user_total fs :
  exists r,
    AuthStore.current_user base fs = ([], Ok r) /\
    (r = None \/
     exists mob, r = Some (AuthStore.identity mob) /\ MOBILE_RE_fullmatch mob = true).
Proof.
  unfold AuthStore.current_user.
  destruct (files fs !! AuthStore.session_path base) as [f|];
    [|exists None; split; [reflexivity|left; reflexivity]].
  destruct (AuthStore.load_or_empty f) as [sess|e];
    [|exists None; split; [reflexivity|left; reflexivity]].
  cbn [bind].
  destruct (get sess "mobile" (JStr EmptyString)) as [v|e];
    [|exists None; split; [reflexivity|left; reflexivity]].
  cbn [bind].
  destruct (AuthStore._normalize_mobile_value v) as [mob|e] eqn:E;
    [|exists None; split; [reflexivity|left; reflexivity]].
  exists (Some (AuthStore.identity mob)). split; [reflexivity|].
  right. exists mob. split; [reflexivity|].
  unfold AuthStore._normalize_mobile_value in E.
  destruct (py_or v (JStr EmptyString)); try discriminate E.
  apply normalize_mobile_digits in E as (_ & Hd & Hl).
  unfold MOBILE_RE_fullmatch. rewrite Hd, Hl. reflexivity.
Qed.

Lemma verify_pin_cases :
  (forall fs m pin mob,
     AuthStore._normalize_mobile m = Ok mob ->
     files fs !! path_join (path_join (AuthStore.users_root base) mob) "auth.json"
       = None ->
     AuthStore.verify_pin kdf base fs m pin = ([], Ok false)) /\
  (forall fs m pin mob d,
     AuthStore._normalize_mobile m = Ok mob ->
     files fs !! path_join (path_join (AuthStore.users_root base) mob) "auth.json"
       = Some (Doc (JObj d)) ->
     credential_present d = false ->
     AuthStore.verify_pin kdf base fs m pin = ([], Ok false)) /\
  (forall fs m pin,
     AuthStore._normalize_mobile m = Raise ValidationError ->
     AuthStore.verify_pin kdf base fs m pin = ([], Raise ValidationError)) /\
  (forall fs m pin mob,
     AuthStore._normalize_mobile m = Ok mob ->
     files fs !! path_join (path_join (AuthStore.users_root base) mob) "auth.json"
       = Some Unparsable ->
     AuthStore.verify_pin kdf base fs m pin = ([], Raise JSONDecodeError)) /\
  (forall fs m pin mob d,
     AuthStore._normalize_mobile m = Ok mob ->
     files fs !! path_join (path_join (AuthStore.users_root base) mob) "auth.json"
       = Some (Doc (JObj d)) ->
     credential_present d = true ->
     PIN_RE_fullmatch pin = false ->
     AuthStore.verify_pin kdf base fs m pin = ([], Raise ValidationError)).
Proof.
  split; [|split; [|split; [|split]]].
  - intros fs m pin mob Hm Hf.
    destruct (auth_path_normalized base _ _ Hm) as [_ Hap].
    unfold AuthStore.verify_pin. rewrite Hm, pbind_ok, Hap, pbind_ok, Hf. reflexivity.
  - intros fs m pin mob d Hm Hf Hc.
    destruct (auth_path_normalized base _ _ Hm) as [_ Hap].
    unfold AuthStore.verify_pin.
    rewrite Hm, pbind_ok, Hap, pbind_ok, Hf, load_or_empty_record, pbind_ok.
    rewrite !get_obj, !pbind_ok. unfold credential_present in Hc. rewrite Hc.
    reflexivity.
  - intros fs m pin Hm. unfold AuthStore.verify_pin. rewrite Hm. reflexivity.
  - intros fs m pin mob Hm Hf.
    destruct (auth_path_normalized base _ _ Hm) as [_ Hap].
    unfold AuthStore.verify_pin. rewrite Hm, pbind_ok, Hap, pbind_ok, Hf. reflexivity.
  - intros fs m pin mob d Hm Hf Hc Hp.
    destruct (auth_path_normalized base _ _ Hm) as [_ Hap].
    unfold AuthStore.verify_pin.
    rewrite Hm, pbind_ok, Hap, pbind_ok, Hf, load_or_empty_record, pbind_ok.
    rewrite !get_obj, !pbind_ok. unfold credential_present in Hc. rewrite Hc.
    cbn [negb]. unfold AuthStore._hash_pin. rewrite Hp. reflexivity.
Qed.

(** C9, as amended.  [user_exists] and [current_user] never raise: the first
    returns a boolean, the second [None] or the identity of a ten-digit
    mobile.  [verify_pin] returns [False] when the credential file is
    missing and when the record lacks salt or hash; it raises
    [ValidationError] for a mobile that does not normalise and, on a record
    with salt and hash, for a malformed PIN, and it lets the parser's error
    through when the credential file cannot be parsed. *)
Theorem probes_fail_soft_except_verify_pin :
  (forall fs m, exists b, AuthStore.user_exists base fs m = ([], Ok b)) /\
  (forall fs,
     exists r,
       AuthStore.current_user base fs = ([], Ok r) /\
       (r = None \/
        exists mob,
          r = Some (AuthStore.identity mob) /\ MOBILE_RE_fullmatch mob = true)) /\
  (forall fs m pin mob,
     AuthStore._normalize_mobile m = Ok mob ->
     files fs !! path_join (path_join (AuthStore.users_root base) mob) "auth.json"
       = None ->
     AuthStore.verify_pin kdf base fs m pin = ([], Ok false)) /\
  (forall fs m pin mob d,
     AuthStore._normalize_mobile m = Ok mob ->
     files fs !! path_join (path_join (AuthStore.users_root base) mob) "auth.json"
       = Some (Doc (JObj d)) ->
     credential_present d = false ->
     AuthStore.verify_pin kdf base fs m pin = ([], Ok false)) /\
  (forall fs m pin,
     AuthStore._normalize_mobile m = Raise ValidationError ->
     AuthStore.verify_pin kdf base fs m pin = ([], Raise ValidationError)) /\
  (forall fs m pin mob,
     AuthStore._normalize_mobile m = Ok mob ->
     files fs !! path_join (path_join (AuthStore.users_root base) mob) "auth.json"
       = Some Unparsable ->
     AuthStore.verify_pin kdf base fs m pin = ([], Raise JSONDecodeError)) /\
  (forall fs m pin mob d,
     AuthStore._normalize_mobile m = Ok mob ->
     files fs !! path_join (path_join (AuthStore.users_root base) mob) "auth.json"
       = Some (Doc (JObj d)) ->
     credential_present d = true ->
     PIN_RE_fullmatch pin = false ->
     AuthStore.verify_pin kdf base fs m pin = ([], Raise ValidationError)).
Proof.
  split; [exact user_exists_total|]. split; [exact current_user_total|].
  exact verify_pin_cases.
Qed.

End AuthProperties.

(** ** The theorems on a concrete store *)

Lemma sample_kdf_length pw salt n : List.length (sample_kdf pw salt n) = 32%nat.
Proof.
  unfold sample_kdf. rewrite List.length_firstn, !List.length_app, List.repeat_length.
  lia.
Qed.

Lemma sample_register :
  exec (AuthStore.register sample_kdf "/data" empty_fs 1000 sample_random
          "98765 43210" "1234") empty_fs =
  (sample_fs, Ok (AuthStore.identity "9876543210")).
Proof. vm_compute. reflexivity. Qed.

Lemma sample_registered :
  registered sample_kdf "/data" sample_fs "9876543210" "1234" sample_record 0 0.
Proof.
  exists "/data/users/9876543210/auth.json", "0123456789abcdef1032547698badcfe",
    sample_random.
  split; [reflexivity|]. split; [vm_compute; reflexivity|].
  split; [repeat split; vm_compute; reflexivity|].
  split; [reflexivity|]. split; [reflexivity|]. split; [lia|reflexivity].
Qed.

Lemma sample_throttled_registered :
  registered sample_kdf "/data" sample_throttled_fs "9876543210" "1234"
    sample_throttled_record 5 1990.
Proof.
  exists "/data/users/9876543210/auth.json", "0123456789abcdef1032547698badcfe",
    sample_random.
  split; [reflexivity|]. split; [vm_compute; reflexivity|].
  split; [repeat split; vm_compute; reflexivity|].
  split; [reflexivity|]. split; [reflexivity|]. split; [lia|reflexivity].
Qed.

Lemma sample_wrong_pin d w :
  dict_get "pin_salt" d = Some (JStr "0123456789abcdef1032547698badcfe") ->
  dict_get "pin_hash" d =
    Some (JStr "313233340123456789abcdef1032547698badcfe000000000000000000000000") ->
  PIN_RE_fullmatch w = true ->
  String.eqb (derived_key sample_kdf w sample_random)
    "313233340123456789abcdef1032547698badcfe000000000000000000000000" = false ->
  wrong_pin sample_kdf d w.
Proof.
  intros Hs Hh Hp Hne. split; [exact Hp|].
  intros salt raw Hs' Hr. rewrite Hs in Hs'. injection Hs' as <-.
  vm_compute in Hr. injection Hr as <-.
  rewrite Hh. intros [= E]. apply String.eqb_neq in Hne. apply Hne. symmetry. exact E.
Qed.



Lemma sample_attempts_wrong :
  Forall (fun a => wrong_pin sample_kdf sample_record (snd a)) sample_attempts.
Proof. repeat constructor; apply sample_wrong_pin; reflexivity. Qed.

Lemma five_wrong_pins_throttle_witness :
  let fs5 := after_logins sample_kdf "/data" sample_fs "9876543210" sample_attempts in
  let t5 := last_time sample_attempts 0 in
  exists d5 fails5 last5,
    registered sample_kdf "/data" fs5 "9876543210" "1234" d5 fails5 last5 /\
    throttled fails5 last5 t5 /\
    (0 = 0 -> List.length sample_attempts = 5%nat -> last5 = t5) /\
    (forall now any_pin,
       now - last5 < 300 ->
       exec (AuthStore.login sample_kdf "/data" fs5 now "9876543210" any_pin) fs5 =
       (fs5, Raise ThrottledError)) /\
    (forall now,
       300 <= now - last5 ->
       let r := exec (AuthStore.login sample_kdf "/data" fs5 now "9876543210" "1234")
                  fs5 in
       snd r = Ok (AuthStore.identity "9876543210") /\
       exists d',
         registered sample_kdf "/data" (fst r) "9876543210" "1234" d' 0 0 /\
         dict_get "failed_attempts" d' = None /\
         dict_get "last_failed_at" d' = None).
Proof.
  apply (five_wrong_pins_throttle sample_kdf "/data" sample_fs
           "9876543210" "9876543210" "1234" sample_record 0 0 sample_attempts
           sample_registered).
  - reflexivity.
  - simpl. lia.
  - exact sample_attempts_wrong.
Defined.

Lemma failure_counter_survives_cool_off_witness :
  let r := exec (AuthStore.login sample_kdf "/data" sample_throttled_fs 2300
                   "9876543210" "0000") sample_throttled_fs in
  snd r = Raise InvalidCredentialsError /\
  exists d',
    registered sample_kdf "/data" (fst r) "9876543210" "1234" d' (5 + 1) 2300 /\
    dict_get "failed_attempts" d' = Some (JInt (5 + 1)) /\
    6 <= 5 + 1 /\
    dict_get "last_failed_at" d' = Some (JInt 2300) /\
    forall now' any_pin,
      now' - 2300 < 300 ->
      exec (AuthStore.login sample_kdf "/data" (fst r) now' "9876543210" any_pin)
        (fst r) = (fst r, Raise ThrottledError).
Proof.
  apply (proj2 (proj2 (proj2 (proj2
           (failure_counter_survives_cool_off sample_kdf "/data" sample_kdf_length
              sample_throttled_fs "9876543210" "9876543210" "1234"
              sample_throttled_record 5 1990 2300 "0000"
              sample_throttled_registered eq_refl))))).
  - lia.
  - lia.
  - apply sample_wrong_pin; reflexivity.
Defined.

(** C10: the start-up migration resets the counter too.  The account is
    throttled and a login with the registered PIN is refused; after the
    store is started on a legacy map that lists the mobile, the record has
    no failure counter and the same login succeeds, within the 300 seconds
    of the last failure, no login having succeeded and [register] not
    having been called. *)
Lemma migration_resets_failure_counter :
  let fs := sample_throttled_legacy_fs in
  let ap := "/data/users/9876543210/auth.json" in
  files fs !! ap = Some (Doc (JObj sample_throttled_record)) /\
  counter sample_throttled_record "failed_attempts" = Ok 5 /\
  exec (AuthStore.login sample_kdf "/data" fs 2000 "9876543210" "1234") fs =
    (fs, Raise ThrottledError) /\
  let fs' := fst (exec (AuthStore.__init__ "/data" fs 2000) fs) in
  (exists d', files fs' !! ap = Some (Doc (JObj d')) /\
              dict_get "failed_attempts" d' = None /\
              counter d' "failed_attempts" = Ok 0) /\
  snd (exec (AuthStore.login sample_kdf "/data" fs' 2000 "9876543210" "1234") fs') =
    Ok (AuthStore.identity "9876543210").
Proof.
  vm_compute. split; [reflexivity|]. split; [reflexivity|]. split; [reflexivity|].
  split; [|reflexivity]. eexists. split; [reflexivity|]. split; reflexivity.
Qed.

Lemma change_pin_replaces_credential_witness :
  (forall old,
     wrong_pin sample_kdf sample_record old ->
     exec (AuthStore.change_pin sample_kdf "/data" sample_fs 2000 sample_random
             "9876543210" old "4321") sample_fs =
     (sample_fs, Raise InvalidCredentialsError)) /\
  let r := exec (AuthStore.change_pin sample_kdf "/data" sample_fs 2000 sample_random
                   "9876543210" "1234" "4321") sample_fs in
  snd r = Ok tt /\
  AuthStore.verify_pin sample_kdf "/data" (fst r) "9876543210" "4321" = ([], Ok true) /\
  AuthStore.verify_pin sample_kdf "/data" (fst r) "9876543210" "1234" = ([], Ok false).
Proof.
  destruct (change_pin_replaces_credential sample_kdf "/data" sample_kdf_length
              sample_fs "9876543210" "9876543210" "1234" sample_record 0 0 2000
              sample_random "4321" sample_registered eq_refl) as [H1 H2].
  split; [exact H1|].
  destruct (H2 eq_refl eq_refl) as (Hok & d' & _ & _ & _ & Hnew & Hany & _).
  split; [exact Hok|]. split; [exact Hnew|].
  exact (Hany "1234" eq_refl).
Defined.

Lemma credential_material_witness :
  exists d',
    AuthStore.register sample_kdf "/data" empty_fs 1000 sample_random
      "98765 43210" "1234" =
    (fst (_atomic_write_json "/data/users/9876543210/auth.json" (JObj d')),
     Ok (AuthStore.identity "9876543210")) /\
    credential_present d' = true.
Proof.
  apply (proj1 (credential_material_written_and_required sample_kdf "/data"
                  sample_kdf_length)
           empty_fs 1000 sample_random "98765 43210" "1234" "9876543210");
    vm_compute; reflexivity.
Defined.

Lemma probes_witness :
  AuthStore.verify_pin sample_kdf "/data" empty_fs "9876543210" "1234" = ([], Ok false).
Proof.
  apply (proj1 (proj2 (proj2 (probes_fail_soft_except_verify_pin sample_kdf "/data")))
           empty_fs "9876543210" "1234" "9876543210");
    vm_compute; reflexivity.
Defined.

(** ** Where the specification and the code differ *)

(** C7: after a successful change from a PIN to the same PIN, the old PIN
    still authenticates, with [verify_pin] and with [login]; and after a
    successful change on a throttled account, [login] with the new PIN is
    refused. *)
Lemma change_pin_old_pin_may_still_authenticate :
  (let r := exec (AuthStore.change_pin sample_kdf "/data" sample_fs 2000
                    sample_random "9876543210" "1234" "1234") sample_fs in
   snd r = Ok tt /\
   AuthStore.verify_pin sample_kdf "/data" (fst r) "9876543210" "1234" =
     ([], Ok true) /\
   snd (exec (AuthStore.login sample_kdf "/data" (fst r) 2001 "9876543210" "1234")
          (fst r)) = Ok (AuthStore.identity "9876543210")) /\
  (let r := exec (AuthStore.change_pin sample_kdf "/data" sample_throttled_fs 2000
                    sample_random "9876543210" "1234" "4321") sample_throttled_fs in
   snd r = Ok tt /\
   snd (exec (AuthStore.login sample_kdf "/data" (fst r) 2001 "9876543210" "4321")
          (fst r)) = Raise ThrottledError).
Proof. vm_compute. repeat split; reflexivity. Qed.

(** C8: the migration of a legacy entry without salt and hash writes a
    credential record in which both are empty. *)
Lemma migration_writes_empty_credential :
  files (fst (exec (AuthStore.__init__ "/data" sample_legacy_fs 100) sample_legacy_fs))
    !! "/data/users/9876543210/auth.json" =
  Some (Doc (JObj [("mobile", JStr "9876543210"); ("pin_salt", JStr EmptyString);
                   ("pin_hash", JStr EmptyString); ("created_at", JInt 7);
                   ("updated_at", JInt 100)])).
Proof. vm_compute. reflexivity. Qed.

(** C9: [verify_pin] raises on a malformed mobile, on a credential file that
    cannot be parsed, and on a malformed PIN. *)
Lemma verify_pin_raises :
  AuthStore.verify_pin sample_kdf "/data" empty_fs "12345" "1234" =
    ([], Raise ValidationError) /\
  AuthStore.verify_pin sample_kdf "/data"
    (FS {[ "/data/users/9876543210/auth.json" := Unparsable ]} None)
    "9876543210" "1234" = ([], Raise JSONDecodeError) /\
  AuthStore.verify_pin sample_kdf "/data" sample_fs "9876543210" "12" =
    ([], Raise ValidationError).
Proof. vm_compute. repeat split; reflexivity. Qed.

(** ** Mobile normalisation *)

(** C5, as amended.  On ASCII input both normalisers drop every character
    that is not a digit and then require exactly ten digits; nothing else
    is removed, a country code in particular.  So "98765-43210" yields
    "9876543210", "+91 98765-43210" has twelve digits and fails with
    [ValidationError], and "12345" fails with [ValidationError]. *)
Theorem normalize_strips_then_requires_ten_digits :
  (forall m,
     is_ascii m = true ->
     AuthStore._normalize_mobile m =
     if (len (sub_non_digits m) =? 10)%nat then Ok (sub_non_digits m)
     else Raise ValidationError) /\
  (forall m,
     is_ascii m = true ->
     LocalStore._norm_mobile m =
     if (len (sub_non_digits m) =? 10)%nat then Ok (sub_non_digits m)
     else Raise ValidationError) /\
  AuthStore._normalize_mobile "98765-43210" = Ok "9876543210" /\
  LocalStore._norm_mobile "98765-43210" = Ok "9876543210" /\
  sub_non_digits "+91 98765-43210" = "919876543210" /\
  AuthStore._normalize_mobile "+91 98765-43210" = Raise ValidationError /\
  LocalStore._norm_mobile "+91 98765-43210" = Raise ValidationError /\
  AuthStore._normalize_mobile "12345" = Raise ValidationError /\
  LocalStore._norm_mobile "12345" = Raise ValidationError.
Proof.
  split; [intros m _; apply normalize_mobile_eq|].
  split; [intros m _; apply norm_mobile_eq|].
  repeat split; reflexivity.
Qed.

(** C5: the input "+91 98765-43210" does not normalise to "9876543210". *)
Lemma country_code_is_not_stripped :
  AuthStore._normalize_mobile "+91 98765-43210" <> Ok "9876543210" /\
  LocalStore._norm_mobile "+91 98765-43210" <> Ok "9876543210".
Proof. split; discriminate. Qed.

(** ** Profiles *)

Lemma profile_path_normalized base m mob :
  LocalStore._norm_mobile m = Ok mob ->
  LocalStore._profile_path base mob =
  Ok (path_join (path_join (LocalStore.users_root base) mob) "profile.json").
Proof.
  intros H. apply norm_mobile_idem in H.
  unfold LocalStore._profile_path, LocalStore._user_dir. rewrite H. reflexivity.
Qed.

Lemma norm_mobile_ten_digits m :
  all_digits m = true -> len m = 10%nat -> LocalStore._norm_mobile m = Ok m.
Proof.
  intros Hd Hl. rewrite norm_mobile_eq, (sub_non_digits_all_digits _ Hd), Hl.
  reflexivity.
Qed.

(** C6.  For every mobile that normalises (to [mob]; a ten-digit [m] is its
    own normal form) and every record [data] with string keys,
    [save_profile(m, data)] followed by [load_profile(m)] returns a record
    that has every key of [data] with its value, has [mobile] set to [mob]
    and each other fixed key set to the empty string when [data] lacks it,
    and has no other key. *)
Theorem save_then_load_profile base fs m mob (data : dict) :
  LocalStore._norm_mobile m = Ok mob ->
  let fs1 := fst (exec (LocalStore.save_profile base m (JObj data)) fs) in
  exists r,
    snd (exec (LocalStore.load_profile base fs1 m) fs1) = Ok (JObj r) /\
    (forall k v, dict_get k data = Some v -> dict_get k r = Some v) /\
    (dict_get "mobile" data = None -> dict_get "mobile" r = Some (JStr mob)) /\
    (forall k, In k PROFILE_TEXT_KEYS -> dict_get k data = None ->
               dict_get k r = Some (JStr EmptyString)) /\
    (forall k, dict_get k data = None -> k <> "mobile" ->
               ~ In k PROFILE_TEXT_KEYS -> dict_get k r = None) /\
    (all_digits m = true -> len m = 10%nat -> mob = m).
Proof.
  intros Hm fs1.
  pose proof (profile_path_normalized base m mob Hm) as Hp.
  assert (Hf : files fs1 !! path_join (path_join (LocalStore.users_root base) mob)
                             "profile.json" = Some (Doc (JObj data))).
  { subst fs1. unfold LocalStore.save_profile.
    rewrite Hm, pbind_ok, Hp, pbind_ok. unfold exec, open_w_dump, perform.
    cbn [fst run fold_left step files]. apply lookup_insert_eq. }
  unfold LocalStore.load_profile. rewrite Hm, pbind_ok, Hp, pbind_ok, Hf.
  cbn [json_load as_dict]. rewrite pbind_ok.
  eexists. split; [reflexivity|]. split; [|split; [|split; [|split]]].
  - intros k v H. rewrite !dict_get_setdefault, H. reflexivity.
  - intros H. rewrite !dict_get_setdefault, H. reflexivity.
  - intros k Hk H. rewrite !dict_get_setdefault, H.
    cbn [PROFILE_TEXT_KEYS In] in Hk.
    destruct Hk as [<-|[<-|[<-|[<-|[<-|[]]]]]]; reflexivity.
  - intros k H Hmob Hk. rewrite !dict_get_setdefault, H.
    cbn [PROFILE_TEXT_KEYS In] in Hk.
    repeat match goal with
           | |- context [String.eqb k ?s] =>
               destruct (String.eqb_spec k s) as [->|_];
               [exfalso; first [apply Hmob; reflexivity | apply Hk; tauto]|]
           end.
    reflexivity.
  - intros Hd Hl. rewrite (norm_mobile_ten_digits m Hd Hl) in Hm. congruence.
Qed.

Lemma save_then_load_profile_witness :
  let fs1 := fst (exec (LocalStore.save_profile "/data" "98765 43210"
                          (JObj [("nickname", JStr "ash"); ("name", JNull)]))
                    empty_fs) in
  exists r,
    snd (exec (LocalStore.load_profile "/data" fs1 "98765 43210") fs1) = Ok (JObj r) /\
    dict_get "nickname" r = Some (JStr "ash") /\
    dict_get "name" r = Some JNull /\
    dict_get "mobile" r = Some (JStr "9876543210") /\
    dict_get "email" r = Some (JStr EmptyString).
Proof.
  destruct (save_then_load_profile "/data" empty_fs "98765 43210" "9876543210"
              [("nickname", JStr "ash"); ("name", JNull)] eq_refl)
    as (r & Hr & Hk & Hmob & Hfix & _).
  exists r. split; [exact Hr|].
  split; [apply Hk; reflexivity|]. split; [apply Hk; reflexivity|].
  split; [apply Hmob; reflexivity|].
  apply Hfix; [simpl; tauto|reflexivity].
Defined.

(** ** Upload names *)

Lemma fold_max_spec ds d :
  d <= fold_left Z.max ds d /\
  (forall n, In n ds -> n <= fold_left Z.max ds d) /\
  (fold_left Z.max ds d = d \/ In (fold_left Z.max ds d) ds).
Proof.
  revert d. induction ds as [|x ds IH]; intros d; cbn [fold_left In].
  - split; [lia|]. split; [tauto|]. left; reflexivity.
  - destruct (IH (Z.max d x)) as (H1 & H2 & H3). split; [lia|]. split.
    + intros n [<-|Hn]; [lia|]. apply H2, Hn.
    + destruct H3 as [H3|H3]; [|right; right; exact H3].
      rewrite H3. destruct (Z.max_spec d x) as [[_ ->]|[_ ->]]; [right|]; tauto.
Qed.

Lemma next_of_spec digits :
  (digits = [] -> LocalStore.next_of digits = 1) /\
  (forall n, In n digits -> n < LocalStore.next_of digits) /\
  (digits <> [] -> exists n, In n digits /\ LocalStore.next_of digits = n + 1) /\
  ((forall n, In n digits -> 0 <= n) -> 1 <= LocalStore.next_of digits).
Proof.
  destruct digits as [|d ds]; cbn [LocalStore.next_of].
  - split; [reflexivity|]. split; [intros n []|]. split; [congruence|lia].
  - destruct (fold_max_spec ds d) as (H1 & H2 & H3).
    split; [discriminate|]. split; [|split].
    + intros n [<-|Hn]; [lia|]. specialize (H2 n Hn). lia.
    + intros _. exists (fold_left Z.max ds d). split; [|reflexivity].
      destruct H3 as [->|H3]; [left; reflexivity|right; exact H3].
    + intros Hpos. specialize (Hpos d (or_introl eq_refl)). lia.
Qed.

Lemma uploads_dir_normalized base m mob :
  LocalStore._norm_mobile m = Ok mob ->
  LocalStore._uploads_dir base mob =
  Ok (path_join (path_join (LocalStore.users_root base) mob) "uploads").
Proof.
  intros H. apply norm_mobile_idem in H.
  unfold LocalStore._uploads_dir, LocalStore._user_dir. rewrite H. reflexivity.
Qed.




(** Three uploads on one day are numbered 1, 2, 3; after the second is
    deleted the next one is numbered 4. *)
Example uploads_sequence :
  let add entries :=
    match LocalStore.add_upload "/data" entries true "20240101" 5 "9876543210"
            "/photos/a.png" None with
    | Ok (row, entries') => (filename row, entries')
    | Raise _ => (EmptyString, entries)
    end in
  let '(n1, e1) := add [] in
  let '(n2, e2) := add e1 in
  let '(n3, e3) := add e2 in
  let e4 := List.filter (fun n => negb (String.eqb n n2)) e3 in
  let '(n4, _) := add e4 in
  [n1; n2; n3; n4] =
  ["9876543210_20240101_1.png"; "9876543210_20240101_2.png";
   "9876543210_20240101_3.png"; "9876543210_20240101_4.png"].
Proof. vm_compute. reflexivity. Qed.

(** ** Writes and crashes *)

Lemma killed_after_atomic_write path data fs k :
  killed_after k (fst (_atomic_write_json path data)) fs =
  match k with
  | 0%nat => fs
  | 1%nat => FS (files fs) (Some Unparsable)
  | 2%nat => FS (files fs) (Some (Doc data))
  | _ => FS (<[path := Doc data]> (files fs)) None
  end.
Proof. destruct k as [|[|[|[|[|k]]]]]; reflexivity. Qed.

Lemma no_new_unparsable_refl fs : no_new_unparsable fs fs.
Proof. intros p H. exact H. Qed.

Lemma no_new_unparsable_trans fs1 fs2 fs3 :
  no_new_unparsable fs1 fs2 -> no_new_unparsable fs2 fs3 -> no_new_unparsable fs1 fs3.
Proof. intros H12 H23 p H. apply H12, H23, H. Qed.

Lemma no_new_unparsable_insert_doc fs path data t :
  no_new_unparsable fs (FS (<[path := Doc data]> (files fs)) t).
Proof.
  intros p. cbn [files]. destruct (decide (path = p)) as [->|Hne].
  - rewrite lookup_insert_eq. discriminate.
  - rewrite lookup_insert_ne by exact Hne. tauto.
Qed.

Lemma no_new_unparsable_same_files fs fs' :
  files fs' = files fs -> no_new_unparsable fs fs'.
Proof. intros E p. rewrite E. tauto. Qed.

Lemma atomic_writes_crash_safe steps :
  atomic_writes steps ->
  forall fs k, no_new_unparsable fs (killed_after k steps fs).
Proof.
  induction 1 as [|path data rest _ IH]; intros fs k.
  - unfold killed_after. rewrite firstn_nil. apply no_new_unparsable_refl.
  - unfold killed_after. rewrite firstn_app, run_app.
    change (run (firstn k (fst (_atomic_write_json path data))) fs)
      with (killed_after k (fst (_atomic_write_json path data)) fs).
    rewrite killed_after_atomic_write.
    change (List.length (fst (_atomic_write_json path data))) with 4%nat.
    destruct k as [|[|[|k]]]; cbn [Nat.sub firstn run fold_left].
    + apply no_new_unparsable_refl.
    + apply no_new_unparsable_same_files. reflexivity.
    + apply no_new_unparsable_same_files. reflexivity.
    + eapply no_new_unparsable_trans; [apply no_new_unparsable_insert_doc|].
      destruct k as [|k]; [apply no_new_unparsable_refl|].
      cbn [Nat.sub]. rewrite Nat.sub_0_r. apply (IH _ k).
Qed.

(** The steps of a composed operation. *)

Lemma aw_lift {A} (r : result A) : atomic_writes (fst (lift r)).
Proof. constructor. Qed.

Lemma aw_write path data : atomic_writes (fst (_atomic_write_json path data)).
Proof. apply (atomic_writes_cons path data [] atomic_writes_nil). Qed.

Lemma aw_app s1 s2 : atomic_writes s1 -> atomic_writes s2 -> atomic_writes (s1 ++ s2).
Proof.
  induction 1 as [|path data rest _ IH]; intros H2; [exact H2|].
  rewrite <- app_assoc. constructor. apply IH, H2.
Qed.

Lemma aw_pbind {A B} (p : prog A) (k : A -> prog B) :
  atomic_writes (fst p) ->
  (forall a, atomic_writes (fst (k a))) ->
  atomic_writes (fst (pbind p k)).
Proof.
  intros Hp Hk. destruct p as [s1 [a|e]]; cbn [pbind fst] in *; [|exact Hp].
  specialize (Hk a). destruct (k a) as [s2 r]. cbn [fst] in *.
  apply aw_app; assumption.
Qed.

Ltac aw :=
  repeat first
    [ apply aw_lift
    | apply aw_write
    | apply atomic_writes_nil
    | apply aw_pbind; [|intros ?]
    | match goal with
      | |- atomic_writes (fst (match ?x with _ => _ end)) => destruct x
      | |- atomic_writes (fst (if ?x then _ else _)) => destruct x
      end ].

Lemma register_atomic kdf base fs now rnd m pin :
  atomic_writes (fst (AuthStore.register kdf base fs now rnd m pin)).
Proof. unfold AuthStore.register, ret, raise. aw. Qed.

Lemma login_atomic kdf base fs now m pin :
  atomic_writes (fst (AuthStore.login kdf base fs now m pin)).
Proof. unfold AuthStore.login, ret, raise. aw. Qed.

Lemma verify_pin_atomic kdf base fs m pin :
  atomic_writes (fst (AuthStore.verify_pin kdf base fs m pin)).
Proof. unfold AuthStore.verify_pin, ret, raise. aw. Qed.

Lemma change_pin_atomic kdf base fs now rnd m old new :
  atomic_writes (fst (AuthStore.change_pin kdf base fs now rnd m old new)).
Proof.
  unfold AuthStore.change_pin, ret, raise.
  apply aw_pbind; [apply verify_pin_atomic|]. intros ok. aw.
Qed.

Lemma set_current_user_atomic base fs now m :
  atomic_writes (fst (AuthStore.set_current_user base fs now m)).
Proof. unfold AuthStore.set_current_user, AuthStore.user_exists, ret, raise. aw. Qed.

Lemma migrate_entries_atomic base now entries :
  atomic_writes (fst (AuthStore.migrate_entries base now entries)).
Proof.
  induction entries as [|e entries IH]; cbn [AuthStore.migrate_entries].
  - constructor.
  - apply aw_pbind; [|intros _; exact IH].
    unfold AuthStore.migrate_entry, ret, raise. aw.
Qed.

Lemma init_atomic base fs now :
  atomic_writes (fst (AuthStore.__init__ base fs now)).
Proof.
  unfold AuthStore.__init__, try_pass, ret, raise.
  destruct (files fs !! AuthStore.legacy_map base); [|constructor].
  cbn [fst]. apply aw_pbind; [apply aw_lift|]. intros db.
  apply aw_pbind; [apply aw_lift|]. intros users_map.
  destruct users_map; try constructor. apply migrate_entries_atomic.
Qed.

Lemma save_profile_steps base m mob data :
  LocalStore._norm_mobile m = Ok mob ->
  LocalStore.save_profile base m data =
  ([OpenW (path_join (path_join (LocalStore.users_root base) mob) "profile.json");
    Dump (path_join (path_join (LocalStore.users_root base) mob) "profile.json") data],
   Ok tt).
Proof.
  intros Hm. unfold LocalStore.save_profile.
  rewrite Hm, pbind_ok, (profile_path_normalized base m mob Hm), pbind_ok.
  reflexivity.
Qed.

(** C2, as amended.  The credential records and the session record are
    written through the atomic writer: the steps of [register], [login],
    [change_pin], [set_current_user] and the migration are calls of it and
    nothing else.  For the atomic writer, wherever the process is killed, a
    reader of the destination finds the complete prior content or the
    complete new document, other files are untouched, and a completed write
    leaves the new document; so no operation of the credential store ever
    makes a file unparsable.  Profile records are not written through it:
    [save_profile] truncates the profile file and then writes the document,
    and a process killed in between leaves a file that cannot be parsed;
    [load_profile] writes the profile back the same way. *)
Theorem credential_writes_are_atomic_profile_writes_are_not :
  (forall path data fs k,
     let fs' := killed_after k (fst (_atomic_write_json path data)) fs in
     (files fs' !! path = files fs !! path \/ files fs' !! path = Some (Doc data)) /\
     (forall p, p <> path -> files fs' !! p = files fs !! p)) /\
  (forall path data fs,
     files (run (fst (_atomic_write_json path data)) fs) !! path = Some (Doc data)) /\
  (forall kdf base fs now rnd m pin,
     atomic_writes (fst (AuthStore.register kdf base fs now rnd m pin))) /\
  (forall kdf base fs now m pin,
     atomic_writes (fst (AuthStore.login kdf base fs now m pin))) /\
  (forall kdf base fs now rnd m old new,
     atomic_writes (fst (AuthStore.change_pin kdf base fs now rnd m old new))) /\
  (forall base fs now m,
     atomic_writes (fst (AuthStore.set_current_user base fs now m))) /\
  (forall base fs now, atomic_writes (fst (AuthStore.__init__ base fs now))) /\
  (forall steps,
     atomic_writes steps ->
     forall fs k, no_new_unparsable fs (killed_after k steps fs)) /\
  (forall base m mob data fs,
     LocalStore._norm_mobile m = Ok mob ->
     let p := path_join (path_join (LocalStore.users_root base) mob) "profile.json" in
     files (killed_after 1 (fst (LocalStore.save_profile base m data)) fs) !! p =
       Some Unparsable /\
     files (run (fst (LocalStore.save_profile base m data)) fs) !! p =
       Some (Doc data)) /\
  (forall base fs m,
     fst (LocalStore.load_profile base fs m) = [] \/
     exists p r,
       fst (LocalStore.load_profile base fs m) = [OpenW p; Dump p (JObj r)]).
Proof.
  split; [|split; [|split; [|split; [|split; [|split; [|split; [|split; [|split]]]]]]]].
  - intros path data fs k fs'. subst fs'. rewrite killed_after_atomic_write.
    destruct k as [|[|[|k]]]; cbn [files].
    + split; [left; reflexivity|reflexivity].
    + split; [left; reflexivity|reflexivity].
    + split; [left; reflexivity|reflexivity].
    + split; [right; apply lookup_insert_eq|].
      intros p Hp. apply lookup_insert_ne. congruence.
  - intros path data fs. rewrite run_atomic_write. apply lookup_insert_eq.
  - exact register_atomic.
  - exact login_atomic.
  - exact change_pin_atomic.
  - exact set_current_user_atomic.
  - exact init_atomic.
  - exact atomic_writes_crash_safe.
  - intros base m mob data fs Hm p. rewrite (save_profile_steps base m mob data Hm).
    subst p. unfold killed_after. cbn [fst firstn run fold_left step files].
    split; apply lookup_insert_eq.
  - intros base fs m. unfold LocalStore.load_profile.
    destruct (LocalStore._norm_mobile m) as [mob|e] eqn:Hm; [|left; reflexivity].
    rewrite pbind_ok, (profile_path_normalized base m mob Hm), pbind_ok.
    destruct (as_dict _) as [d|e]; [|left; reflexivity].
    rewrite pbind_ok. right. eexists _, _. reflexivity.
Qed.

Lemma atomic_and_profile_writes_witness :
  no_new_unparsable sample_fs
    (killed_after 5
       (fst (AuthStore.login sample_kdf "/data" sample_fs 2000 "9876543210" "1234"))
       sample_fs) /\
  files (killed_after 1
           (fst (LocalStore.save_profile "/data" "98765 43210" (JObj sample_profile)))
           empty_fs) !! "/data/users/9876543210/profile.json" = Some Unparsable.
Proof.
  pose proof credential_writes_are_atomic_profile_writes_are_not
    as (_ & _ & _ & Hlogin & _ & _ & _ & Hsafe & Hprofile & _).
  split.
  - apply Hsafe, Hlogin.
  - apply (Hprofile "/data" "98765 43210" "9876543210" (JObj sample_profile) empty_fs).
    reflexivity.
Defined.

(** C2: a process killed after [save_profile] has opened the profile file
    leaves a file that is neither the profile saved before nor the new one. *)
Lemma save_profile_killed_leaves_unparsable_file :
  let new := JObj [("mobile", JStr "9876543210"); ("name", JStr "Bina")] in
  let p := "/data/users/9876543210/profile.json" in
  let fs' := killed_after 1
               (fst (LocalStore.save_profile "/data" "9876543210" new))
               sample_profile_fs in
  files sample_profile_fs !! p = Some (Doc (JObj sample_profile)) /\
  files fs' !! p = Some Unparsable /\
  files fs' !! p <> files sample_profile_fs !! p /\
  files fs' !! p <> Some (Doc new).
Proof.
  vm_compute. split; [reflexivity|]. split; [reflexivity|].
  split; discriminate.
Qed.

(** ** What the credential store leaves in a file *)

Lemma dr_lift {A} (r : result A) : dumps_records (fst (lift r)).
Proof. constructor. Qed.

Lemma dr_write path kv : dumps_records (fst (_atomic_write_json path (JObj kv))).
Proof. repeat constructor. exists kv. reflexivity. Qed.

Lemma dr_pbind {A B} (p : prog A) (k : A -> prog B) :
  dumps_records (fst p) ->
  (forall a, dumps_records (fst (k a))) ->
  dumps_records (fst (pbind p k)).
Proof.
  intros Hp Hk. destruct p as [s1 [a|e]]; cbn [pbind fst] in *; [|exact Hp].
  specialize (Hk a). destruct (k a) as [s2 r]. cbn [fst] in *.
  apply Forall_app. split; assumption.
Qed.

Ltac dr :=
  repeat first
    [ apply dr_lift
    | apply dr_write
    | apply Forall_nil
    | apply dr_pbind; [|intros ?]
    | match goal with
      | |- dumps_records (fst (match ?x with _ => _ end)) => destruct x
      | |- dumps_records (fst (if ?x then _ else _)) => destruct x
      end ].

Lemma register_dumps_records kdf base fs now rnd m pin :
  dumps_records (fst (AuthStore.register kdf base fs now rnd m pin)).
Proof. unfold AuthStore.register, ret, raise. dr. Qed.

Lemma login_dumps_records kdf base fs now m pin :
  dumps_records (fst (AuthStore.login kdf base fs now m pin)).
Proof. unfold AuthStore.login, ret, raise. dr. Qed.

Lemma verify_pin_dumps_records kdf base fs m pin :
  dumps_records (fst (AuthStore.verify_pin kdf base fs m pin)).
Proof. unfold AuthStore.verify_pin, ret, raise. dr. Qed.

Lemma change_pin_dumps_records kdf base fs now rnd m old new :
  dumps_records (fst (AuthStore.change_pin kdf base fs now rnd m old new)).
Proof.
  unfold AuthStore.change_pin, ret, raise.
  apply dr_pbind; [apply verify_pin_dumps_records|]. intros ok. dr.
Qed.

Lemma set_current_user_dumps_records base fs now m :
  dumps_records (fst (AuthStore.set_current_user base fs now m)).
Proof. unfold AuthStore.set_current_user, AuthStore.user_exists, ret, raise. dr. Qed.

Lemma migrate_entries_dumps_records base now entries :
  dumps_records (fst (AuthStore.migrate_entries base now entries)).
Proof.
  induction entries as [|e entries IH]; cbn [AuthStore.migrate_entries].
  - constructor.
  - apply dr_pbind; [|intros _; exact IH].
    unfold AuthStore.migrate_entry, ret, raise. dr.
Qed.

Lemma init_dumps_records base fs now :
  dumps_records (fst (AuthStore.__init__ base fs now)).
Proof.
  unfold AuthStore.__init__, try_pass, ret, raise.
  destruct (files fs !! AuthStore.legacy_map base); [|constructor].
  cbn [fst]. apply dr_pbind; [apply dr_lift|]. intros db.
  apply dr_pbind; [apply dr_lift|]. intros users_map.
  destruct users_map; try constructor. apply migrate_entries_dumps_records.
Qed.

(** After atomic writes of dictionaries, a file is as it was or holds a
    dictionary. *)
Lemma atomic_records_run steps :
  atomic_writes steps ->
  dumps_records steps ->
  forall fs p,
    files (run steps fs) !! p = files fs !! p \/
    exists kv, files (run steps fs) !! p = Some (Doc (JObj kv)).
Proof.
  induction 1 as [|path data rest _ IH]; intros Hd fs p.
  - left. reflexivity.
  - apply Forall_app in Hd as [Hd1 Hd2].
    apply Forall_inv_tail, Forall_inv in Hd1. destruct Hd1 as [kv ->].
    rewrite run_app, run_atomic_write.
    destruct (IH Hd2 (FS (<[path := Doc (JObj kv)]> (files fs)) None) p)
      as [E|E]; [|right; exact E].
    rewrite E. cbn [files]. destruct (decide (path = p)) as [->|Hne].
    + right. exists kv. apply lookup_insert_eq.
    + left. apply lookup_insert_ne, Hne.
Qed.

(** The condition [register] puts on the credential file it finds holds
    of every file once it holds, whatever the credential store does. *)
Lemma auth_store_keeps_records steps :
  atomic_writes steps ->
  dumps_records steps ->
  forall fs p,
    absent_or_record (files fs !! p) = true ->
    absent_or_record (files (run steps fs) !! p) = true.
Proof.
  intros Ha Hd fs p H.
  destruct (atomic_records_run steps Ha Hd fs p) as [->|[kv ->]]; [exact H|].
  destruct kv; reflexivity.
Qed.

(** * Further properties of the stores *)

(** ** Paths of the persisted layout *)

Lemma string_app_eq_len (a b x y : string) :
  len a = len b -> a ++ x = b ++ y -> a = b /\ x = y.
Proof.
  revert b. induction a as [|c a IH]; intros [|c' b] Hl H;
    try discriminate Hl.
  - split; [reflexivity|exact H].
  - rewrite !string_app_cons in H. injection H as -> H.
    injection Hl as Hl. destruct (IH b Hl H) as [-> ->]. split; reflexivity.
Qed.

Lemma endswith_char_app c (a b : string) :
  b <> EmptyString -> endswith_char c (a ++ b) = endswith_char c b.
Proof.
  intros Hb. induction a as [|x a IH]; [reflexivity|].
  rewrite string_app_cons. cbn [endswith_char].
  destruct (a ++ b) as [|y s] eqn:E; [|exact IH].
  destruct a; [rewrite string_app_nil in E; contradiction|discriminate E].
Qed.

Lemma string_app_empty_r (a : string) : a ++ EmptyString = a.
Proof.
  induction a as [|x a IH]; [reflexivity|].
  rewrite string_app_cons, IH. reflexivity.
Qed.

Lemma string_app_not_empty (a b : string) : b <> EmptyString -> a ++ b <> EmptyString.
Proof. intros Hb. destruct a; [exact Hb|discriminate]. Qed.

(** A relative component joined to a directory that does not end in a
    separator. *)
Lemma path_join_plain (a b : string) :
  a <> EmptyString ->
  endswith_char "/" a = false ->
  startswith "/" b = false ->
  path_join a b = a ++ "/" ++ b.
Proof.
  intros Ha He Hb. unfold path_join. rewrite Hb, He.
  destruct (String.eqb_spec a EmptyString) as [->|_]; [contradiction|reflexivity].
Qed.

Lemma users_root_shape base :
  exists P,
    AuthStore.users_root base = P ++ "users" /\
    AuthStore.session_path base = P ++ "session.json" /\
    exists y, AuthStore.legacy_map base = P ++ "auth" ++ y.
Proof.
  unfold AuthStore.users_root, AuthStore.session_path, AuthStore.legacy_map.
  destruct (path_join_relative (path_join base "auth") "users.json" eq_refl) as [y ->].
  unfold path_join. cbn [startswith Ascii.eqb Bool.eqb andb].
  destruct (String.eqb base EmptyString || endswith_char "/" base).
  - exists base. split; [reflexivity|]. split; [reflexivity|].
    exists y. rewrite string_app_assoc. reflexivity.
  - exists (base ++ "/"). rewrite !string_app_assoc. split; [reflexivity|].
    split; [reflexivity|]. exists y. rewrite !string_app_assoc. reflexivity.
Qed.

Lemma users_root_plain base :
  AuthStore.users_root base <> EmptyString /\
  endswith_char "/" (AuthStore.users_root base) = false.
Proof.
  destruct (users_root_shape base) as (P & -> & _). split.
  - apply string_app_not_empty. discriminate.
  - rewrite endswith_char_app by discriminate. reflexivity.
Qed.

Lemma all_digits_no_trailing_sep s :
  all_digits s = true -> endswith_char "/" s = false.
Proof.
  induction s as [|c s IH]; [reflexivity|]. cbn [all_digits]. intros H.
  apply andb_true_iff in H as [Hc Hs]. cbn [endswith_char].
  destruct s as [|c' s']; [|exact (IH Hs)].
  destruct (Ascii.eqb_spec c "/") as [->|]; [discriminate Hc|reflexivity].
Qed.

(** The file of a user, under its directory in [users/]. *)
Lemma user_file_path base mob name :
  all_digits mob = true ->
  len mob = 10%nat ->
  startswith "/" name = false ->
  path_join (path_join (AuthStore.users_root base) mob) name =
  AuthStore.users_root base ++ "/" ++ mob ++ "/" ++ name.
Proof.
  intros Hd Hl Hn. destruct (users_root_plain base) as [Hne He].
  rewrite (path_join_plain (AuthStore.users_root base) mob Hne He
             (all_digits_no_leading_sep _ Hd)).
  rewrite path_join_plain; [|apply string_app_not_empty; discriminate| |exact Hn].
  - rewrite !string_app_assoc. reflexivity.
  - rewrite endswith_char_app.
    + rewrite endswith_char_app.
      * apply all_digits_no_trailing_sep, Hd.
      * destruct mob; [discriminate Hl|discriminate].
    + apply string_app_not_empty. destruct mob; [discriminate Hl|discriminate].
Qed.

Lemma user_files_distinct base mob mob' name name' :
  all_digits mob = true -> len mob = 10%nat ->
  all_digits mob' = true -> len mob' = 10%nat ->
  startswith "/" name = false -> startswith "/" name' = false ->
  path_join (path_join (AuthStore.users_root base) mob) name =
  path_join (path_join (AuthStore.users_root base) mob') name' ->
  mob = mob' /\ name = name'.
Proof.
  intros Hd Hl Hd' Hl' Hn Hn' H.
  rewrite (user_file_path base mob name Hd Hl Hn) in H.
  rewrite (user_file_path base mob' name' Hd' Hl' Hn') in H.
  apply string_app_inv_head, string_app_inv_head in H.
  destruct (string_app_eq_len mob mob' _ _ (eq_trans Hl (eq_sym Hl')) H) as [-> H'].
  split; [reflexivity|]. apply string_app_inv_head in H'. exact H'.
Qed.

Lemma user_file_not_session_or_legacy base mob name :
  startswith "/" mob = false ->
  startswith "/" name = false ->
  path_join (path_join (AuthStore.users_root base) mob) name
    <> AuthStore.session_path base /\
  path_join (path_join (AuthStore.users_root base) mob) name
    <> AuthStore.legacy_map base.
Proof.
  intros Hm Hn.
  destruct (path_join_relative (path_join (AuthStore.users_root base) mob) name Hn)
    as [y1 ->].
  destruct (path_join_relative (AuthStore.users_root base) mob Hm) as [y2 ->].
  destruct (users_root_shape base) as (P & -> & -> & y & ->).
  rewrite !string_app_assoc.
  split; intros H; apply string_app_inv_head in H; vm_compute in H; discriminate H.
Qed.

(** ** Files an operation does not touch *)

Lemma run_untouched steps fs p :
  ~ In p (targets steps) -> files (run steps fs) !! p = files fs !! p.
Proof.
  revert fs. induction steps as [|s steps IH]; intros fs Hp; [reflexivity|].
  change (run (s :: steps) fs) with (run steps (step fs s)).
  assert (Hs : files (step fs s) !! p = files fs !! p /\ ~ In p (targets steps)).
  { destruct s as [|data|q| |q|q data|q]; cbn [step files];
      try (split; [reflexivity|exact Hp]).
    - destruct (tmp fs); cbn [files];
        (split; [|intros H; apply Hp; right; exact H]); [|reflexivity].
      apply lookup_insert_ne. intros ->. apply Hp. left. reflexivity.
    - split; [|intros H; apply Hp; right; exact H].
      apply lookup_insert_ne. intros ->. apply Hp. left. reflexivity.
    - split; [|intros H; apply Hp; right; exact H].
      apply lookup_insert_ne. intros ->. apply Hp. left. reflexivity.
    - split; [|intros H; apply Hp; right; exact H].
      apply lookup_delete_ne. intros ->. apply Hp. left. reflexivity. }
  destruct Hs as [Hs Hp']. rewrite (IH _ Hp'). exact Hs.
Qed.

Lemma targets_app s1 s2 : targets (s1 ++ s2) = (targets s1 ++ targets s2)%list.
Proof. unfold targets. apply omap_app. Qed.

Lemma targets_atomic_write path data :
  targets (fst (_atomic_write_json path data)) = [path].
Proof. reflexivity. Qed.

Ltac dict_find :=
  cbn [dict_update];
  repeat first [ rewrite dict_get_pop | rewrite dict_get_set ];
  cbn [String.eqb Ascii.eqb Bool.eqb].

Section AuthFurther.

Variable kdf : list byte -> list byte -> N -> list byte.
Variable base : string.
Hypothesis kdf_length : forall pw salt n, List.length (kdf pw salt n) = 32%nat.

(** ** How [login], [register] and [change_pin] end *)

Lemma login_outcome fs now m pin :
  (exists e, AuthStore.login kdf base fs now m pin = ([], Raise e)) \/
  (exists mob ap d,
     AuthStore._normalize_mobile m = Ok mob /\
     AuthStore._auth_path base mob = Ok ap /\
     AuthStore.login kdf base fs now m pin =
     (fst (_atomic_write_json ap (JObj d)), Raise InvalidCredentialsError)) \/
  (exists mob ap d,
     AuthStore._normalize_mobile m = Ok mob /\
     AuthStore._auth_path base mob = Ok ap /\
     AuthStore.login kdf base fs now m pin =
     ((fst (_atomic_write_json ap (JObj d)) ++
       fst (_atomic_write_json (AuthStore.session_path base)
              (JObj [("mobile", JStr mob); ("login_at", JInt now)])))%list,
      Ok (AuthStore.identity mob))).
Proof.
  destruct (AuthStore._normalize_mobile m) as [mob|e] eqn:Hm;
    [|left; exists e; unfold AuthStore.login; rewrite Hm; reflexivity].
  destruct (auth_path_normalized base _ _ Hm) as [_ Hap].
  destruct (files fs !! path_join (path_join (AuthStore.users_root base) mob)
                          "auth.json") as [[|j]|] eqn:Hf.
  - left. eexists. unfold AuthStore.login.
    rewrite Hm, pbind_ok, Hap, pbind_ok, Hf. reflexivity.
  - assert (Hnd : (forall d, j <> JObj d) ->
                  exists e, AuthStore.login kdf base fs now m pin = ([], Raise e)).
    { intros Hj. unfold AuthStore.login. rewrite Hm, pbind_ok, Hap, pbind_ok, Hf.
      destruct j as [|[|]|n|s|[|x l]|d]; try (eexists; reflexivity).
      - unfold AuthStore.load_or_empty, py_or. cbn [json_load bind truthy].
        destruct (n =? 0); eexists; reflexivity.
      - unfold AuthStore.load_or_empty, py_or. cbn [json_load bind truthy].
        destruct (String.eqb s EmptyString); eexists; reflexivity.
      - exfalso. apply (Hj d). reflexivity. }
    destruct j as [| | | | |d]; try (left; apply Hnd; discriminate).
    clear Hnd. rewrite (login_stored kdf base _ _ _ _ _ _ _ Hm Hap Hf).
    destruct (counter d "failed_attempts") as [f|e]; [|left; eexists; reflexivity].
    rewrite pbind_ok.
    destruct (counter d "last_failed_at") as [l|e]; [|left; eexists; reflexivity].
    rewrite pbind_ok.
    destruct ((5 <=? f) && (now - l <? 300)); [left; eexists; reflexivity|].
    rewrite !get_obj, !pbind_ok.
    destruct (negb _); [left; eexists; reflexivity|].
    destruct (AuthStore._hash_pin kdf pin _ EmptyString) as [[s got]|e];
      [|left; eexists; reflexivity].
    rewrite pbind_ok.
    destruct (compare_digest got _) as [same|e]; [|left; eexists; reflexivity].
    rewrite pbind_ok. cbn [as_dict]. rewrite pbind_ok.
    right. destruct same; cbn [negb].
    + right. eexists mob, _, _. split; [reflexivity|]. split; [exact Hap|].
      reflexivity.
    + left. eexists mob, _, _. split; [reflexivity|]. split; [exact Hap|].
      reflexivity.
  - left. eexists. unfold AuthStore.login.
    rewrite Hm, pbind_ok, Hap, pbind_ok, Hf. reflexivity.
Qed.

Lemma register_outcome fs now rnd m pin :
  (exists e, AuthStore.register kdf base fs now rnd m pin = ([], Raise e)) \/
  (exists mob ap d,
     AuthStore._normalize_mobile m = Ok mob /\
     AuthStore._auth_path base mob = Ok ap /\
     AuthStore.register kdf base fs now rnd m pin =
     (fst (_atomic_write_json ap (JObj d)), Ok (AuthStore.identity mob))).
Proof.
  unfold AuthStore.register.
  destruct (AuthStore._normalize_mobile m) as [mob|e] eqn:Hm;
    [|left; eexists; reflexivity].
  destruct (auth_path_normalized base _ _ Hm) as [Hud Hap].
  rewrite pbind_ok, Hud, pbind_ok, Hap, pbind_ok.
  destruct (AuthStore._hash_pin kdf pin JNull (token_hex rnd)) as [[salt h]|e];
    [|left; eexists; reflexivity].
  rewrite pbind_ok.
  destruct (as_dict _) as [d|e]; [|left; eexists; reflexivity].
  rewrite pbind_ok. right. eexists mob, _, _.
  split; [reflexivity|]. split; [exact Hap|]. reflexivity.
Qed.

Lemma verify_pin_no_steps fs m pin :
  exists r, AuthStore.verify_pin kdf base fs m pin = ([], r).
Proof.
  unfold AuthStore.verify_pin.
  destruct (AuthStore._normalize_mobile m) as [mob|e]; [|eexists; reflexivity].
  rewrite pbind_ok.
  destruct (AuthStore._auth_path base mob) as [ap|e]; [|eexists; reflexivity].
  rewrite pbind_ok.
  destruct (files fs !! ap) as [f|]; [|eexists; reflexivity].
  destruct (AuthStore.load_or_empty f) as [u|e]; [|eexists; reflexivity].
  rewrite pbind_ok.
  destruct (get u "pin_salt" (JStr EmptyString)) as [salt|e]; [|eexists; reflexivity].
  rewrite pbind_ok.
  destruct (get u "pin_hash" (JStr EmptyString)) as [expect|e];
    [|eexists; reflexivity].
  rewrite pbind_ok.
  destruct (negb _); [eexists; reflexivity|].
  destruct (AuthStore._hash_pin kdf pin salt EmptyString) as [[s got]|e];
    [|eexists; reflexivity].
  rewrite pbind_ok. eexists. reflexivity.
Qed.

Lemma change_pin_outcome fs now rnd m old new :
  (exists e, AuthStore.change_pin kdf base fs now rnd m old new = ([], Raise e)) \/
  (exists mob ap d,
     AuthStore._normalize_mobile m = Ok mob /\
     AuthStore._auth_path base mob = Ok ap /\
     AuthStore.change_pin kdf base fs now rnd m old new =
     (fst (_atomic_write_json ap (JObj d)), Ok tt)).
Proof.
  unfold AuthStore.change_pin.
  destruct (verify_pin_no_steps fs m old) as [[[|]|e] ->];
    [| left; eexists; reflexivity | left; eexists; reflexivity].
  change (pbind ([], Ok true) ?k) with (pbind (lift (Ok true)) k).
  rewrite pbind_ok. cbn [negb].
  destruct (AuthStore._normalize_mobile m) as [mob|e] eqn:Hm;
    [|left; eexists; reflexivity].
  destruct (auth_path_normalized base _ _ Hm) as [_ Hap].
  rewrite pbind_ok, Hap, pbind_ok.
  destruct (files fs !! _) as [f|]; [|left; eexists; reflexivity].
  destruct (AuthStore.load_or_empty f) as [u|e]; [|left; eexists; reflexivity].
  rewrite pbind_ok.
  destruct (AuthStore._hash_pin kdf new JNull (token_hex rnd)) as [[salt h]|e];
    [|left; eexists; reflexivity].
  rewrite pbind_ok.
  destruct (as_dict u) as [d|e]; [|left; eexists; reflexivity].
  rewrite pbind_ok. right. eexists mob, _, _.
  split; [reflexivity|]. split; [exact Hap|]. reflexivity.
Qed.

(** ** The session *)

Lemma current_user_same_session fs fs' :
  files fs' !! AuthStore.session_path base = files fs !! AuthStore.session_path base ->
  AuthStore.current_user base fs' = AuthStore.current_user base fs.
Proof. intros H. unfold AuthStore.current_user. rewrite H. reflexivity. Qed.

Lemma current_user_of_session fs mob now :
  AuthStore._normalize_mobile mob = Ok mob ->
  files fs !! AuthStore.session_path base =
    Some (Doc (JObj [("mobile", JStr mob); ("login_at", JInt now)])) ->
  AuthStore.current_user base fs = ([], Ok (Some (AuthStore.identity mob))).
Proof.
  intros Hm Hs. unfold AuthStore.current_user. rewrite Hs.
  cbn [AuthStore.load_or_empty json_load bind py_or truthy get as_dict dict_get
       String.eqb Ascii.eqb Bool.eqb].
  unfold AuthStore._normalize_mobile_value, py_or. cbn [truthy].
  destruct (String.eqb_spec mob EmptyString) as [->|_]; [discriminate Hm|].
  cbn [negb]. rewrite Hm. reflexivity.
Qed.

(** A login that succeeds makes its user the current user; a login that
    fails, for whatever reason, leaves the session as it was. *)
Theorem login_sets_session_only_on_success fs now m pin :
  let r := exec (AuthStore.login kdf base fs now m pin) fs in
  match snd r with
  | Ok u =>
      exists mob,
        AuthStore._normalize_mobile m = Ok mob /\
        u = AuthStore.identity mob /\
        files (fst r) !! AuthStore.session_path base =
          Some (Doc (JObj [("mobile", JStr mob); ("login_at", JInt now)])) /\
        AuthStore.current_user base (fst r) =
          ([], Ok (Some (AuthStore.identity mob)))
  | Raise _ =>
      files (fst r) !! AuthStore.session_path base =
        files fs !! AuthStore.session_path base /\
      AuthStore.current_user base (fst r) = AuthStore.current_user base fs
  end.
Proof.
  intros r. subst r.
  destruct (login_outcome fs now m pin)
    as [[e ->]|[(mob & ap & d & Hm & Hap & ->)|(mob & ap & d & Hm & Hap & ->)]];
    cbn [exec fst snd].
  - split; reflexivity.
  - assert (H : files (run (fst (_atomic_write_json ap (JObj d))) fs)
                  !! AuthStore.session_path base
                = files fs !! AuthStore.session_path base).
    { rewrite run_atomic_write. cbn [files]. apply lookup_insert_ne.
      apply (auth_path_not_session _ _ _ Hap). }
    split; [exact H|]. apply current_user_same_session, H.
  - assert (H : files (run (fst (_atomic_write_json ap (JObj d)) ++
                            fst (_atomic_write_json (AuthStore.session_path base)
                                   (JObj [("mobile", JStr mob);
                                          ("login_at", JInt now)]))) fs)
                  !! AuthStore.session_path base
                = Some (Doc (JObj [("mobile", JStr mob); ("login_at", JInt now)]))).
    { rewrite run_app, !run_atomic_write. cbn [files]. apply lookup_insert_eq. }
    exists mob. split; [exact Hm|]. split; [reflexivity|]. split; [exact H|].
    apply (current_user_of_session _ mob now (normalize_mobile_idem _ _ Hm) H).
Qed.

Lemma logout_other_files fs p :
  p <> AuthStore.session_path base ->
  files (fst (exec (AuthStore.logout base fs) fs)) !! p = files fs !! p.
Proof.
  intros Hp. unfold AuthStore.logout.
  destruct (files fs !! AuthStore.session_path base) as [f|];
    cbn [exec fst snd perform ret run fold_left step files]; [|reflexivity].
  apply lookup_delete_ne. congruence.
Qed.

(** After [logout] nobody is logged in, whether or not somebody was, and no
    other file has changed. *)
Theorem logout_clears_session_only fs :
  let r := exec (AuthStore.logout base fs) fs in
  snd r = Ok tt /\
  files (fst r) !! AuthStore.session_path base = None /\
  AuthStore.current_user base (fst r) = ([], Ok None) /\
  (forall p, p <> AuthStore.session_path base ->
             files (fst r) !! p = files fs !! p).
Proof.
  intros r. subst r. unfold AuthStore.logout.
  destruct (files fs !! AuthStore.session_path base) as [f|] eqn:Hs;
    cbn [exec fst snd perform ret run fold_left step files].
  - assert (H : delete (AuthStore.session_path base) (files fs)
                  !! AuthStore.session_path base = None)
      by apply lookup_delete_eq.
    split; [reflexivity|]. split; [exact H|]. split.
    + unfold AuthStore.current_user. cbn [files]. rewrite H. reflexivity.
    + intros p Hp. apply lookup_delete_ne. congruence.
  - split; [reflexivity|]. split; [exact Hs|]. split.
    + unfold AuthStore.current_user. rewrite Hs. reflexivity.
    + reflexivity.
Qed.

(** [set_current_user] switches the session to any user that has a
    credential file, whatever that file holds and without any PIN, and does
    not touch the file; for a user without one it fails with
    [NotFoundError] and writes nothing. *)
Theorem set_current_user_trusts_existing_user fs now m mob :
  AuthStore._normalize_mobile m = Ok mob ->
  let ap := path_join (path_join (AuthStore.users_root base) mob) "auth.json" in
  (forall f,
     files fs !! ap = Some f ->
     let r := exec (AuthStore.set_current_user base fs now m) fs in
     snd r = Ok (AuthStore.identity mob) /\
     AuthStore.current_user base (fst r) = ([], Ok (Some (AuthStore.identity mob))) /\
     files (fst r) !! ap = Some f) /\
  (files fs !! ap = None ->
   AuthStore.set_current_user base fs now m = ([], Raise NotFoundError)).
Proof.
  intros Hm ap.
  pose proof (normalize_mobile_idem _ _ Hm) as Hmob.
  destruct (auth_path_normalized base _ _ Hm) as [_ Hap]. fold ap in Hap.
  split.
  - intros f Hf r. subst r. unfold AuthStore.set_current_user, AuthStore.user_exists.
    rewrite Hm, pbind_ok, Hap. cbn [bind try_except]. rewrite Hf.
    rewrite bool_decide_eq_true_2 by eauto. rewrite pbind_ok. cbn [negb].
    rewrite pbind_write_ret. cbn [exec fst snd]. rewrite run_atomic_write.
    cbn [files]. split; [reflexivity|]. split.
    + apply (current_user_of_session _ mob now Hmob). cbn [files].
      apply lookup_insert_eq.
    + rewrite lookup_insert_ne; [exact Hf|].
      intros E. symmetry in E. revert E. apply (auth_path_not_session _ _ _ Hap).
  - intros Hf. unfold AuthStore.set_current_user, AuthStore.user_exists.
    rewrite Hm, pbind_ok, Hap. cbn [bind try_except]. rewrite Hf.
    rewrite bool_decide_eq_false_2 by (intros [x Hx]; discriminate Hx).
    rewrite pbind_ok. reflexivity.
Qed.

(** ** Refusals *)

(** [register] checks the mobile and the PIN before it writes: with a
    mobile that does not normalise or a PIN that is not four to six digits
    it fails with [ValidationError] and no file is written, whatever the
    credential file holds. *)
Theorem register_validates_before_writing fs now rnd m pin :
  (exists e, AuthStore._normalize_mobile m = Raise e) \/
  PIN_RE_fullmatch pin = false ->
  AuthStore.register kdf base fs now rnd m pin = ([], Raise ValidationError).
Proof.
  intros H. unfold AuthStore.register.
  destruct (AuthStore._normalize_mobile m) as [mob|e] eqn:Hm.
  - destruct H as [[e He]|Hp]; [discriminate He|].
    destruct (auth_path_normalized base _ _ Hm) as [Hud Hap].
    rewrite pbind_ok, Hud, pbind_ok, Hap, pbind_ok.
    unfold AuthStore._hash_pin. rewrite Hp. reflexivity.
  - rewrite normalize_mobile_eq in Hm.
    destruct (len (sub_non_digits m) =? 10)%nat; [discriminate Hm|].
    injection Hm as <-. reflexivity.
Qed.

(** The refusals of [login] that come before the PIN is looked at: a
    mobile that does not normalise, a user without credential file, and a
    credential file that cannot be parsed.  None of them writes. *)
Theorem login_refuses_unknown_and_corrupt fs now m pin :
  ((exists e, AuthStore._normalize_mobile m = Raise e) ->
   AuthStore.login kdf base fs now m pin = ([], Raise ValidationError)) /\
  (forall mob,
     AuthStore._normalize_mobile m = Ok mob ->
     let ap := path_join (path_join (AuthStore.users_root base) mob) "auth.json" in
     (files fs !! ap = None ->
      AuthStore.login kdf base fs now m pin = ([], Raise NotFoundError)) /\
     (files fs !! ap = Some Unparsable ->
      AuthStore.login kdf base fs now m pin = ([], Raise CorruptedError))).
Proof.
  split.
  - intros [e Hm]. unfold AuthStore.login. rewrite Hm.
    rewrite normalize_mobile_eq in Hm.
    destruct (len (sub_non_digits m) =? 10)%nat; [discriminate Hm|].
    injection Hm as <-. reflexivity.
  - intros mob Hm ap. destruct (auth_path_normalized base _ _ Hm) as [_ Hap].
    fold ap in Hap.
    split; intros Hf; unfold AuthStore.login;
      rewrite Hm, pbind_ok, Hap, pbind_ok, Hf; reflexivity.
Qed.

(** A login with a malformed PIN on an account that is not throttled fails
    with [ValidationError] and writes nothing: the attempt is not counted as
    a failure. *)
Theorem login_malformed_pin_is_not_counted fs m mob pin0 d fails last now pin :
  registered kdf base fs mob pin0 d fails last ->
  AuthStore._normalize_mobile m = Ok mob ->
  ~ throttled fails last now ->
  PIN_RE_fullmatch pin = false ->
  exec (AuthStore.login kdf base fs now m pin) fs = (fs, Raise ValidationError).
Proof.
  intros (ap & salt & raw & Hap & Hst & Hc & _ & Hc1 & _ & Hc2) Hm Hnt Hp.
  destruct Hc as (Hs & Hst' & Hr & Hh & Hht & Ha).
  rewrite (login_stored kdf base _ _ _ _ _ _ _ Hm Hap Hst).
  rewrite Hc1, pbind_ok, Hc2, pbind_ok, (not_throttled_test _ _ _ Hnt).
  rewrite !get_obj, Hs, Hh, !pbind_ok, Hst', Hht. cbn [andb negb].
  unfold AuthStore._hash_pin. rewrite Hp. reflexivity.
Qed.

(** [change_pin] refuses without writing: a new PIN that is malformed gives
    [ValidationError] even with the right old PIN, and a user without
    credential file gives [InvalidCredentialsError]. *)
Theorem change_pin_refusals fs now rnd m mob old new :
  AuthStore._normalize_mobile m = Ok mob ->
  let ap := path_join (path_join (AuthStore.users_root base) mob) "auth.json" in
  (forall d fails last,
     registered kdf base fs mob old d fails last ->
     PIN_RE_fullmatch new = false ->
     AuthStore.change_pin kdf base fs now rnd m old new =
     ([], Raise ValidationError)) /\
  (files fs !! ap = None ->
   AuthStore.change_pin kdf base fs now rnd m old new =
   ([], Raise InvalidCredentialsError)).
Proof.
  intros Hm ap. destruct (auth_path_normalized base _ _ Hm) as [_ Hap].
  fold ap in Hap. split.
  - intros d fails last (ap' & salt & raw & Hap' & Hst & Hc & Hp & _) Hn.
    rewrite Hap in Hap'. injection Hap' as <-.
    unfold AuthStore.change_pin.
    rewrite (verify_pin_stored kdf base fs m old mob ap d salt raw _ Hm Hap Hst Hc Hp).
    rewrite String.eqb_refl.
    change (pbind ([], Ok true) ?k) with (pbind (lift (Ok true)) k).
    rewrite pbind_ok. cbn [negb].
    rewrite Hm, pbind_ok, Hap, pbind_ok, Hst, load_or_empty_record, pbind_ok.
    unfold AuthStore._hash_pin. rewrite Hn. reflexivity.
  - intros Hf. unfold AuthStore.change_pin, AuthStore.verify_pin.
    rewrite Hm, pbind_ok, Hap, pbind_ok, Hf. reflexivity.
Qed.

(** [verify_pin] never writes, and it does not look at the throttle: for a
    registered user, throttled or not, it answers [True] for the registered
    PIN and [False] for a wrong one. *)
Theorem verify_pin_reads_only_and_ignores_throttle :
  (forall fs m pin, fst (AuthStore.verify_pin kdf base fs m pin) = []) /\
  (forall fs m mob pin d fails last,
     registered kdf base fs mob pin d fails last ->
     AuthStore._normalize_mobile m = Ok mob ->
     AuthStore.verify_pin kdf base fs m pin = ([], Ok true) /\
     (forall wrong,
        wrong_pin kdf d wrong ->
        AuthStore.verify_pin kdf base fs m wrong = ([], Ok false))).
Proof.
  split.
  - intros fs m pin. destruct (verify_pin_no_steps fs m pin) as [r ->]. reflexivity.
  - intros fs m mob pin d fails last (ap & salt & raw & Hap & Hst & Hc & Hp & _) Hm.
    split.
    + rewrite (verify_pin_stored kdf base fs m pin mob ap d salt raw _ Hm Hap Hst Hc Hp).
      rewrite String.eqb_refl. reflexivity.
    + intros wrong Hw.
      destruct (wrong_pin_mismatch kdf _ _ _ _ _ Hc Hw) as [Hwp Hne].
      rewrite (verify_pin_stored kdf base fs m wrong mob ap d salt raw _
                 Hm Hap Hst Hc Hwp).
      apply String.eqb_neq in Hne. rewrite Hne. reflexivity.
Qed.

(** ** Registering again *)

Lemma register_on_record fs now rnd m pin mob ap d :
  AuthStore._normalize_mobile m = Ok mob ->
  AuthStore._auth_path base mob = Ok ap ->
  files fs !! ap = Some (Doc (JObj d)) ->
  PIN_RE_fullmatch pin = true ->
  AuthStore.register kdf base fs now rnd m pin =
  (fst (_atomic_write_json ap (JObj (registered_record kdf now rnd mob pin d))),
   Ok (AuthStore.identity mob)).
Proof.
  intros Hm Hap Hf Hp. unfold AuthStore.register.
  destruct (auth_path_normalized base _ _ Hm) as [Hud _].
  rewrite Hm, pbind_ok, Hud, pbind_ok, Hap, pbind_ok.
  rewrite (hash_pin_fresh kdf _ _ Hp), Hf, load_or_empty_record. reflexivity.
Qed.

(** [register] on an existing account is a PIN reset that asks for no proof
    of the old PIN: it succeeds whatever the state of the throttle, replaces
    salt and hash, removes both throttle fields and keeps every other key of
    the record ([created_at] among them).  A login with the new PIN then
    succeeds at once. *)
Theorem register_resets_existing_account fs m mob pin d fails last now rnd new :
  registered kdf base fs mob pin d fails last ->
  AuthStore._normalize_mobile m = Ok mob ->
  PIN_RE_fullmatch new = true ->
  List.length rnd = 16%nat ->
  let r := exec (AuthStore.register kdf base fs now rnd m new) fs in
  snd r = Ok (AuthStore.identity mob) /\
  exists d',
    registered kdf base (fst r) mob new d' 0 0 /\
    dict_get "failed_attempts" d' = None /\
    dict_get "last_failed_at" d' = None /\
    (forall k,
       ~ In k ["mobile"; "pin_salt"; "pin_hash"; "updated_at";
               "failed_attempts"; "last_failed_at"] ->
       dict_get k d' = dict_get k d) /\
    (forall now',
       snd (exec (AuthStore.login kdf base (fst r) now' m new) (fst r)) =
       Ok (AuthStore.identity mob)).
Proof.
  intros (ap & salt & raw & Hap & Hst & _) Hm Hn Hl r. subst r.
  rewrite (register_on_record fs now rnd m new mob ap d Hm Hap Hst Hn).
  cbn [exec fst snd]. rewrite run_atomic_write.
  split; [reflexivity|].
  assert (Hl' : (0 < List.length rnd)%nat) by lia.
  destruct (registered_record_credential kdf kdf_length now rnd mob new d Hl')
    as (Hc & Hc1 & Hc2).
  assert (Hreg : registered kdf base
                   (FS (<[ap := Doc (JObj (registered_record kdf now rnd mob new d))]>
                          (files fs)) None)
                   mob new (registered_record kdf now rnd mob new d) 0 0).
  { exists ap, (hex rnd), rnd. split; [exact Hap|].
    split; [apply lookup_insert_eq|]. split; [exact Hc|]. split; [exact Hn|].
    split; [exact Hc1|]. split; [lia|exact Hc2]. }
  exists (registered_record kdf now rnd mob new d).
  split; [exact Hreg|]. unfold registered_record.
  split; [dict_find; reflexivity|]. split; [dict_find; reflexivity|]. split.
  - intros k Hk. cbn [dict_update]. rewrite !dict_get_pop, !dict_get_set.
    cbn [In] in Hk.
    repeat match goal with
           | |- context [String.eqb k ?s] =>
               destruct (String.eqb_spec k s) as [->|_]; [exfalso; apply Hk; tauto|]
           end.
    reflexivity.
  - intros now'.
    destruct (login_after_cool_off kdf base _ m mob new _ 0 0 now' Hreg Hm)
      as [Hok _]; [unfold throttled; lia|].
    exact Hok.
Qed.

(** ** Users do not get in each other's way *)

Lemma is_Some_after_atomic_writes steps :
  atomic_writes steps ->
  forall fs p, is_Some (files fs !! p) -> is_Some (files (run steps fs) !! p).
Proof.
  induction 1 as [|path data rest _ IH]; intros fs p H; [exact H|].
  rewrite run_app, run_atomic_write. apply IH. cbn [files].
  destruct (decide (path = p)) as [->|Hne].
  - rewrite lookup_insert_eq. eauto.
  - rewrite lookup_insert_ne by exact Hne. exact H.
Qed.

Lemma user_exists_true fs m :
  AuthStore.user_exists base fs m = ([], Ok true) <->
  exists mob,
    AuthStore._normalize_mobile m = Ok mob /\
    is_Some (files fs !! path_join (path_join (AuthStore.users_root base) mob)
                           "auth.json").
Proof.
  unfold AuthStore.user_exists, AuthStore._auth_path, AuthStore._user_dir.
  destruct (AuthStore._normalize_mobile m) as [mob|e]; cbn [bind try_except].
  - split.
    + intros [= H]. apply bool_decide_eq_true in H. eauto.
    + intros (mob' & [= <-] & H). rewrite bool_decide_eq_true_2 by exact H.
      reflexivity.
  - split; [discriminate|]. intros (mob' & H & _). discriminate H.
Qed.

(** No operation of the credential store modelled here makes a user
    disappear: whoever [user_exists] finds is still found after any
    [register], [login], [change_pin], [set_current_user], [logout] or
    migration, made for any user. *)
Theorem existing_users_stay fs m :
  AuthStore.user_exists base fs m = ([], Ok true) ->
  (forall now rnd m' pin,
     AuthStore.user_exists base
       (fst (exec (AuthStore.register kdf base fs now rnd m' pin) fs)) m
     = ([], Ok true)) /\
  (forall now m' pin,
     AuthStore.user_exists base
       (fst (exec (AuthStore.login kdf base fs now m' pin) fs)) m = ([], Ok true)) /\
  (forall now rnd m' old new,
     AuthStore.user_exists base
       (fst (exec (AuthStore.change_pin kdf base fs now rnd m' old new) fs)) m
     = ([], Ok true)) /\
  (forall now m',
     AuthStore.user_exists base
       (fst (exec (AuthStore.set_current_user base fs now m') fs)) m = ([], Ok true)) /\
  AuthStore.user_exists base (fst (exec (AuthStore.logout base fs) fs)) m
    = ([], Ok true) /\
  (forall now,
     AuthStore.user_exists base (fst (exec (AuthStore.__init__ base fs now) fs)) m
     = ([], Ok true)).
Proof.
  intros H. apply user_exists_true in H as (mob & Hm & Hf).
  assert (Hk : forall steps, atomic_writes steps ->
                 AuthStore.user_exists base (run steps fs) m = ([], Ok true)).
  { intros steps Ha. apply user_exists_true. exists mob. split; [exact Hm|].
    apply is_Some_after_atomic_writes; assumption. }
  split; [intros; apply Hk, register_atomic|].
  split; [intros; apply Hk, login_atomic|].
  split; [intros; apply Hk, change_pin_atomic|].
  split; [intros; apply Hk, set_current_user_atomic|].
  split; [|intros; apply Hk, init_atomic].
  apply user_exists_true. exists mob. split; [exact Hm|].
  rewrite logout_other_files; [exact Hf|].
  destruct (auth_path_normalized base _ _ Hm) as [_ Hap].
  apply (auth_path_not_session _ _ _ Hap).
Qed.

(** [register], [login] and [change_pin] made for one user change no file
    of another user, and of their own user's directory only the credential
    file: any other file under [users/] is left as it was. *)
Theorem operations_touch_only_their_credential fs now rnd m mob pin new mob' name :
  AuthStore._normalize_mobile m = Ok mob ->
  all_digits mob' = true -> len mob' = 10%nat ->
  startswith "/" name = false ->
  mob' <> mob \/ name <> "auth.json" ->
  let q := path_join (path_join (AuthStore.users_root base) mob') name in
  files (fst (exec (AuthStore.register kdf base fs now rnd m pin) fs)) !! q
    = files fs !! q /\
  files (fst (exec (AuthStore.login kdf base fs now m pin) fs)) !! q
    = files fs !! q /\
  files (fst (exec (AuthStore.change_pin kdf base fs now rnd m pin new) fs)) !! q
    = files fs !! q.
Proof.
  intros Hm Hd' Hl' Hn Hne q.
  destruct (normalize_mobile_digits _ _ Hm) as (_ & Hd & Hl).
  destruct (auth_path_normalized base _ _ Hm) as [_ Hap].
  assert (Hq : q <> path_join (path_join (AuthStore.users_root base) mob) "auth.json").
  { intros E. apply (user_files_distinct base mob' mob name "auth.json") in E;
      try assumption; try reflexivity.
    destruct E as [-> ->]. destruct Hne as [Hne|Hne]; apply Hne; reflexivity. }
  assert (Hs : q <> AuthStore.session_path base).
  { apply user_file_not_session_or_legacy; [|exact Hn].
    apply all_digits_no_leading_sep, Hd'. }
  assert (Hw : forall d,
             files (run (fst (_atomic_write_json
                                (path_join (path_join (AuthStore.users_root base) mob)
                                   "auth.json") (JObj d))) fs) !! q
             = files fs !! q).
  { intros d. apply run_untouched. rewrite targets_atomic_write.
    intros [E|[]]. apply Hq. symmetry. exact E. }
  split; [|split].
  - destruct (register_outcome fs now rnd m pin)
      as [[e ->]|(mob0 & ap & d & Hm0 & Hap0 & ->)]; [reflexivity|].
    rewrite Hm in Hm0. injection Hm0 as <-. rewrite Hap in Hap0. injection Hap0 as <-.
    apply Hw.
  - destruct (login_outcome fs now m pin)
      as [[e ->]|[(mob0 & ap & d & Hm0 & Hap0 & ->)|(mob0 & ap & d & Hm0 & Hap0 & ->)]];
      [reflexivity| |];
      rewrite Hm in Hm0; injection Hm0 as <-;
      rewrite Hap in Hap0; injection Hap0 as <-.
    + apply Hw.
    + cbn [exec fst]. apply run_untouched.
      rewrite targets_app, !targets_atomic_write.
      intros [E|[E|[]]]; [apply Hq|apply Hs]; symmetry; exact E.
  - destruct (change_pin_outcome fs now rnd m pin new)
      as [[e ->]|(mob0 & ap & d & Hm0 & Hap0 & ->)]; [reflexivity|].
    rewrite Hm in Hm0. injection Hm0 as <-. rewrite Hap in Hap0. injection Hap0 as <-.
    apply Hw.
Qed.

(** ** The migration of the legacy credential map *)

Lemma migrate_entry_outcome now mob rec :
  (MOBILE_RE_fullmatch (sub_non_digits mob) = false /\
   AuthStore.migrate_entry base now (mob, rec) = ([], Ok tt)) \/
  (MOBILE_RE_fullmatch (sub_non_digits mob) = true /\
   (forall d, rec <> JObj d) /\
   AuthStore.migrate_entry base now (mob, rec) = ([], Raise PyAttributeError)) \/
  (MOBILE_RE_fullmatch (sub_non_digits mob) = true /\
   exists d,
     rec = JObj d /\
     AuthStore.migrate_entry base now (mob, rec) =
     (fst (_atomic_write_json
             (path_join (path_join (AuthStore.users_root base) (sub_non_digits mob))
                "auth.json")
             (JObj [("mobile", JStr (sub_non_digits mob));
                    ("pin_salt", match dict_get "pin_salt" d with
                                 | Some v => v | None => JStr EmptyString end);
                    ("pin_hash", match dict_get "pin_hash" d with
                                 | Some v => v | None => JStr EmptyString end);
                    ("created_at", match dict_get "created_at" d with
                                   | Some v => v | None => JInt now end);
                    ("updated_at", match dict_get "updated_at" d with
                                   | Some v => v | None => JInt now end)])),
      Ok tt)).
Proof.
  unfold AuthStore.migrate_entry.
  destruct (MOBILE_RE_fullmatch (sub_non_digits mob)) eqn:E; cbn [negb].
  - right. destruct rec as [| | | | |d];
      try (left; split; [reflexivity|]; split; [discriminate|reflexivity]).
    right. split; [reflexivity|]. exists d. split; [reflexivity|].
    rewrite !get_obj, !pbind_ok. reflexivity.
  - left. split; reflexivity.
Qed.

(** Every path the migration writes is the credential path of a ten-digit
    mobile. *)
Lemma migrate_entries_targets now entries :
  Forall (fun p =>
            exists mobn,
              MOBILE_RE_fullmatch mobn = true /\
              In mobn (map (fun e => sub_non_digits (fst e)) entries) /\
              p = path_join (path_join (AuthStore.users_root base) mobn) "auth.json")
    (targets (fst (AuthStore.migrate_entries base now entries))).
Proof.
  induction entries as [|[mob rec] entries IH]; [constructor|].
  cbn [AuthStore.migrate_entries].
  assert (IH' : Forall (fun p =>
            exists mobn,
              MOBILE_RE_fullmatch mobn = true /\
              In mobn (map (fun e => sub_non_digits (fst e)) ((mob, rec) :: entries)) /\
              p = path_join (path_join (AuthStore.users_root base) mobn) "auth.json")
            (targets (fst (AuthStore.migrate_entries base now entries)))).
  { eapply Forall_impl; [exact IH|]. cbn beta.
    intros p (mobn & H1 & H2 & H3). exists mobn. split; [exact H1|].
    split; [right; exact H2|exact H3]. }
  destruct (AuthStore.migrate_entries base now entries) as [s r] eqn:Es.
  cbn [fst] in IH'.
  destruct (migrate_entry_outcome now mob rec)
    as [[_ ->]|[(_ & _ & ->)|(E & d & _ & ->)]].
  - cbn [pbind fst app]. exact IH'.
  - constructor.
  - cbn [pbind perform _atomic_write_json fst].
    rewrite targets_app. apply Forall_app. split; [|exact IH'].
    repeat constructor. exists (sub_non_digits mob). split; [exact E|].
    split; [left; reflexivity|reflexivity].
Qed.

Lemma init_targets fs now :
  Forall (fun p =>
            exists mobn,
              MOBILE_RE_fullmatch mobn = true /\
              p = path_join (path_join (AuthStore.users_root base) mobn) "auth.json")
    (targets (fst (AuthStore.__init__ base fs now))).
Proof.
  unfold AuthStore.__init__, try_pass.
  destruct (files fs !! AuthStore.legacy_map base) as [f|]; [|constructor].
  cbn [fst].
  destruct (AuthStore.load_or_empty f) as [db|e]; [|constructor].
  rewrite pbind_ok.
  destruct (get db "users_by_mobile" JNull) as [v|e]; [|constructor].
  cbn [bind]. rewrite pbind_ok.
  destruct (py_or v (JObj [])) as [| | | | |entries]; try constructor.
  eapply Forall_impl; [apply migrate_entries_targets|]. cbn beta.
  intros p (mobn & H1 & _ & H3). eauto.
Qed.

(** The migration writes credential files only: the legacy map itself, the
    session and every other file of a user directory are left as they
    were. *)
Theorem migration_writes_credentials_only fs now :
  let fs' := fst (exec (AuthStore.__init__ base fs now) fs) in
  files fs' !! AuthStore.legacy_map base = files fs !! AuthStore.legacy_map base /\
  files fs' !! AuthStore.session_path base = files fs !! AuthStore.session_path base /\
  (forall mob name,
     all_digits mob = true -> len mob = 10%nat ->
     startswith "/" name = false -> name <> "auth.json" ->
     files fs' !! path_join (path_join (AuthStore.users_root base) mob) name =
     files fs !! path_join (path_join (AuthStore.users_root base) mob) name).
Proof.
  intros fs'. subst fs'. cbn [exec fst].
  pose proof (init_targets fs now) as Ht. rewrite Forall_forall in Ht.
  assert (Hk : forall q,
             (forall mobn, MOBILE_RE_fullmatch mobn = true ->
                q <> path_join (path_join (AuthStore.users_root base) mobn) "auth.json") ->
             files (run (fst (AuthStore.__init__ base fs now)) fs) !! q = files fs !! q).
  { intros q Hq. apply run_untouched. intros Hin.
    apply list_elem_of_In, Ht in Hin. destruct Hin as (mobn & H1 & ->).
    exact (Hq mobn H1 eq_refl). }
  split; [|split].
  - apply Hk. intros mobn H E. unfold MOBILE_RE_fullmatch in H.
    apply andb_true_iff in H as [H _].
    symmetry in E. revert E.
    apply user_file_not_session_or_legacy; [|reflexivity].
    apply all_digits_no_leading_sep, H.
  - apply Hk. intros mobn H E. unfold MOBILE_RE_fullmatch in H.
    apply andb_true_iff in H as [H _].
    symmetry in E. revert E.
    apply user_file_not_session_or_legacy; [|reflexivity].
    apply all_digits_no_leading_sep, H.
  - intros mob name Hd Hl Hn Hne. apply Hk. intros mobn H E.
    unfold MOBILE_RE_fullmatch in H. apply andb_true_iff in H as [H1 H2].
    apply Nat.eqb_eq in H2.
    apply (user_files_distinct base mob mobn name "auth.json") in E;
      try assumption; try reflexivity.
    destruct E as [_ E]. exact (Hne E).
Qed.

Lemma pbind_assoc {A B C} (p : prog A) (k : A -> prog B) (k' : B -> prog C) :
  pbind (pbind p k) k' = pbind p (fun a => pbind (k a) k').
Proof.
  destruct p as [s1 [a|e]]; cbn [pbind]; [|reflexivity].
  destruct (k a) as [s2 [b|e]]; cbn [pbind]; [|reflexivity].
  destruct (k' b) as [s3 r]. rewrite app_assoc. reflexivity.
Qed.

Lemma pbind_ext {A B} (p : prog A) (k k' : A -> prog B) :
  (forall a, k a = k' a) -> pbind p k = pbind p k'.
Proof.
  intros H. destruct p as [s [a|e]]; cbn [pbind]; [|reflexivity].
  rewrite H. reflexivity.
Qed.

Lemma migrate_entries_app now l1 l2 :
  AuthStore.migrate_entries base now (l1 ++ l2) =
  pbind (AuthStore.migrate_entries base now l1)
    (fun _ => AuthStore.migrate_entries base now l2).
Proof.
  induction l1 as [|e l1 IH]; cbn [app AuthStore.migrate_entries].
  - rewrite pbind_ret. reflexivity.
  - rewrite pbind_assoc. apply pbind_ext. intros _. exact IH.
Qed.

Lemma migrate_entries_complete now entries :
  Forall (fun e => exists d, snd e = JObj d) entries ->
  snd (AuthStore.migrate_entries base now entries) = Ok tt.
Proof.
  induction 1 as [|[mob rec] entries [d Hd] _ IH]; [reflexivity|].
  cbn [snd] in Hd. subst rec. cbn [AuthStore.migrate_entries].
  destruct (AuthStore.migrate_entries base now entries) as [s r]. cbn [snd] in IH.
  subst r.
  destruct (migrate_entry_outcome now mob (JObj d))
    as [[_ ->]|[(_ & H & _)|(_ & d' & _ & ->)]]; [reflexivity| |reflexivity].
  exfalso. apply (H d). reflexivity.
Qed.

(** Each start of the store writes the credential record of a legacy entry
    anew from the legacy values, whatever the credential file holds by then:
    a PIN changed since the first migration and the throttle fields are
    gone.  (Stated for the last entry that normalises to its mobile, the
    entries before it being dictionaries.) *)
Theorem migration_resets_to_legacy_values fs now db before mob rec after :
  files fs !! AuthStore.legacy_map base = Some (Doc (JObj db)) ->
  dict_get "users_by_mobile" db = Some (JObj (before ++ (mob, JObj rec) :: after)) ->
  Forall (fun e => exists d, snd e = JObj d) before ->
  MOBILE_RE_fullmatch (sub_non_digits mob) = true ->
  Forall (fun e => sub_non_digits (fst e) <> sub_non_digits mob) after ->
  files (fst (exec (AuthStore.__init__ base fs now) fs))
    !! path_join (path_join (AuthStore.users_root base) (sub_non_digits mob))
         "auth.json" =
  Some (Doc (JObj [("mobile", JStr (sub_non_digits mob));
                   ("pin_salt", match dict_get "pin_salt" rec with
                                | Some v => v | None => JStr EmptyString end);
                   ("pin_hash", match dict_get "pin_hash" rec with
                                | Some v => v | None => JStr EmptyString end);
                   ("created_at", match dict_get "created_at" rec with
                                  | Some v => v | None => JInt now end);
                   ("updated_at", match dict_get "updated_at" rec with
                                  | Some v => v | None => JInt now end)])).
Proof.
  intros Hleg Hdb Hbefore Hvalid Hafter.
  unfold AuthStore.__init__, try_pass. rewrite Hleg. cbn [exec fst].
  rewrite load_or_empty_record, pbind_ok, get_obj, Hdb. cbn [bind].
  rewrite pbind_ok.
  assert (Ht : py_or (JObj (before ++ (mob, JObj rec) :: after)) (JObj []) =
               JObj (before ++ (mob, JObj rec) :: after))
    by (destruct before; reflexivity).
  rewrite Ht. clear Ht.
  rewrite migrate_entries_app.
  pose proof (migrate_entries_complete now before Hbefore) as Hc.
  destruct (AuthStore.migrate_entries base now before) as [s1 r1]. cbn [snd] in Hc.
  subst r1. cbn [AuthStore.migrate_entries].
  destruct (migrate_entry_outcome now mob (JObj rec))
    as [[E _]|[(_ & H & _)|(_ & d & Hd & ->)]].
  - rewrite Hvalid in E. discriminate E.
  - exfalso. apply (H rec). reflexivity.
  - injection Hd as <-.
    pose proof (migrate_entries_targets now after) as Hta.
    destruct (AuthStore.migrate_entries base now after) as [s3 r3]. cbn [fst] in Hta.
    cbn [pbind perform _atomic_write_json fst].
    rewrite !run_app. rewrite run_untouched.
    + change [Mkstemp; DumpTmp ?x; Replace ?p; RemoveTmp]
        with (fst (_atomic_write_json p x)).
      rewrite run_atomic_write. cbn [files]. apply lookup_insert_eq.
    + intros Hin. rewrite Forall_forall in Hta.
      apply list_elem_of_In, Hta in Hin. destruct Hin as (mobn & H1 & H2 & E).
      unfold MOBILE_RE_fullmatch in H1, Hvalid.
      apply andb_true_iff in H1 as [H1 H1']. apply Nat.eqb_eq in H1'.
      apply andb_true_iff in Hvalid as [Hv Hv']. apply Nat.eqb_eq in Hv'.
      apply (user_files_distinct base) in E; try assumption; try reflexivity.
      destruct E as [E _].
      rewrite Forall_forall in Hafter.
      apply in_map_iff in H2 as (e & He & Hine).
      apply list_elem_of_In in Hine. apply (Hafter e Hine). congruence.
Qed.

(** ** Listing the users *)

Lemma normalize_mobile_valid name :
  MOBILE_RE_fullmatch name = true -> AuthStore._normalize_mobile name = Ok name.
Proof.
  unfold MOBILE_RE_fullmatch. intros H. apply andb_true_iff in H as [Hd Hl].
  rewrite normalize_mobile_eq, (sub_non_digits_all_digits _ Hd), Hl. reflexivity.
Qed.

Lemma sorted_In (l : list string) name : In name (sorted l) <-> In name l.
Proof.
  unfold sorted. rewrite <- !list_elem_of_In.
  rewrite (merge_sort_Permutation String.le l). reflexivity.
Qed.

Lemma sorted_StronglySorted (l : list string) : StronglySorted String.le (sorted l).
Proof. unfold sorted. apply StronglySorted_merge_sort; apply _. Qed.

(** [list_users] returns, in ascending order, exactly the names of the
    listing that are ten digits and have a credential file; each of them is
    a user [user_exists] finds.  When the directory cannot be listed the
    result is empty.  Nothing is written. *)
Theorem list_users_sorted_and_existing fs names :
  exists l,
    AuthStore.list_users base fs (Ok names) = ([], Ok l) /\
    StronglySorted String.le l /\
    (forall name,
       In name l <->
       In name names /\ MOBILE_RE_fullmatch name = true /\
       is_Some (files fs !! path_join (path_join (AuthStore.users_root base) name)
                              "auth.json")) /\
    (forall name, In name l -> AuthStore.user_exists base fs name = ([], Ok true)) /\
    (forall e, AuthStore.list_users base fs (Raise e) = ([], Ok [])).
Proof.
  eexists. split; [reflexivity|]. split; [apply sorted_StronglySorted|].
  assert (Hin : forall name,
            In name (sorted (List.filter
              (fun name => MOBILE_RE_fullmatch name &&
                 bool_decide (is_Some (files fs !!
                   path_join (path_join (AuthStore.users_root base) name) "auth.json")))
              names)) <->
            In name names /\ MOBILE_RE_fullmatch name = true /\
            is_Some (files fs !! path_join (path_join (AuthStore.users_root base) name)
                                   "auth.json")).
  { intros name. rewrite sorted_In, filter_In, andb_true_iff, bool_decide_eq_true.
    tauto. }
  split; [exact Hin|]. split.
  - intros name H. apply Hin in H as (_ & Hv & Hf).
    apply user_exists_true. exists name. split; [|exact Hf].
    apply normalize_mobile_valid, Hv.
  - intros e. reflexivity.
Qed.

End AuthFurther.

(** ** The further properties on a concrete store *)

Lemma set_current_user_witness :
  (forall f,
     files sample_fs !! "/data/users/9876543210/auth.json" = Some f ->
     let r := exec (AuthStore.set_current_user "/data" sample_fs 3000 "98765 43210")
                sample_fs in
     snd r = Ok (AuthStore.identity "9876543210") /\
     AuthStore.current_user "/data" (fst r) =
       ([], Ok (Some (AuthStore.identity "9876543210"))) /\
     files (fst r) !! "/data/users/9876543210/auth.json" = Some f) /\
  (files sample_fs !! "/data/users/9876543210/auth.json" = None ->
   AuthStore.set_current_user "/data" sample_fs 3000 "98765 43210" =
   ([], Raise NotFoundError)).
Proof.
  exact (set_current_user_trusts_existing_user "/data" sample_fs 3000
           "98765 43210" "9876543210" eq_refl).
Defined.

Lemma register_validates_witness :
  AuthStore.register sample_kdf "/data" sample_fs 3000 sample_random
    "9876543210" "12a4" = ([], Raise ValidationError).
Proof.
  apply (register_validates_before_writing sample_kdf "/data" sample_fs 3000
           sample_random "9876543210" "12a4").
  right. reflexivity.
Defined.

Lemma login_malformed_pin_witness :
  exec (AuthStore.login sample_kdf "/data" sample_fs 3000 "9876543210" "12") sample_fs
  = (sample_fs, Raise ValidationError).
Proof.
  apply (login_malformed_pin_is_not_counted sample_kdf "/data" sample_fs
           "9876543210" "9876543210" "1234" sample_record 0 0 3000 "12"
           sample_registered eq_refl).
  - unfold throttled. lia.
  - reflexivity.
Defined.

Lemma change_pin_refusals_witness :
  AuthStore.change_pin sample_kdf "/data" sample_fs 3000 sample_random
    "9876543210" "1234" "12" = ([], Raise ValidationError).
Proof.
  apply (proj1 (change_pin_refusals sample_kdf "/data" sample_fs 3000 sample_random
                  "9876543210" "9876543210" "1234" "12" eq_refl)
           sample_record 0 0 sample_registered eq_refl).
Defined.

Lemma register_resets_witness :
  let r := exec (AuthStore.register sample_kdf "/data" sample_throttled_fs 2000
                   sample_random "9876543210" "4321") sample_throttled_fs in
  snd r = Ok (AuthStore.identity "9876543210") /\
  snd (exec (AuthStore.login sample_kdf "/data" (fst r) 2001 "9876543210" "4321")
         (fst r)) = Ok (AuthStore.identity "9876543210").
Proof.
  destruct (register_resets_existing_account sample_kdf "/data" sample_kdf_length
              sample_throttled_fs "9876543210" "9876543210" "1234"
              sample_throttled_record 5 1990 2000 sample_random "4321"
              sample_throttled_registered eq_refl eq_refl eq_refl)
    as (Hok & d' & _ & _ & _ & _ & Hlogin).
  split; [exact Hok|apply Hlogin].
Defined.

Lemma existing_users_stay_witness :
  AuthStore.user_exists "/data"
    (fst (exec (AuthStore.logout "/data" sample_fs) sample_fs)) "9876543210"
  = ([], Ok true).
Proof.
  destruct (existing_users_stay sample_kdf "/data" sample_fs "9876543210")
    as (_ & _ & _ & _ & H & _); [vm_compute; reflexivity|exact H].
Defined.

Lemma operations_touch_only_their_credential_witness :
  let q := "/data/users/9123456780/auth.json" in
  files (fst (exec (AuthStore.login sample_kdf "/data" sample_fs 3000
                      "9876543210" "0000") sample_fs)) !! q
  = files sample_fs !! q.
Proof.
  destruct (operations_touch_only_their_credential sample_kdf "/data" sample_fs 3000
              sample_random "9876543210" "9876543210" "0000" "1111"
              "9123456780" "auth.json" eq_refl eq_refl eq_refl eq_refl)
    as (_ & H & _); [left; discriminate|exact H].
Defined.

Lemma migration_resets_witness :
  files (fst (exec (AuthStore.__init__ "/data" sample_legacy_fs 100) sample_legacy_fs))
    !! "/data/users/9876543210/auth.json" =
  Some (Doc (JObj [("mobile", JStr "9876543210"); ("pin_salt", JStr EmptyString);
                   ("pin_hash", JStr EmptyString); ("created_at", JInt 7);
                   ("updated_at", JInt 100)])).
Proof.
  apply (migration_resets_to_legacy_values "/data" sample_legacy_fs 100
           [("users_by_mobile",
             JObj [("9876543210", JObj [("created_at", JInt 7)])])]
           [] "9876543210" [("created_at", JInt 7)] []).
  - vm_compute. reflexivity.
  - reflexivity.
  - constructor.
  - reflexivity.
  - constructor.
Defined.

(** * Further properties of the profile and upload store *)

(** ** Profiles *)

Lemma dict_setdefault_present k v w d :
  dict_get k d = Some v -> dict_setdefault k w d = d.
Proof. intros H. unfold dict_setdefault. rewrite H. reflexivity. Qed.

Lemma dict_setdefault_is_Some k v d : is_Some (dict_get k (dict_setdefault k v d)).
Proof.
  rewrite dict_get_setdefault. destruct (dict_get k d); [eauto|].
  rewrite String.eqb_refl. eauto.
Qed.

Lemma dict_setdefault_keeps k k' v d :
  is_Some (dict_get k d) -> is_Some (dict_get k (dict_setdefault k' v d)).
Proof. intros [x Hx]. rewrite dict_get_setdefault, Hx. eauto. Qed.

Lemma dict_setdefault_noop k v d :
  is_Some (dict_get k d) -> dict_setdefault k v d = d.
Proof. intros [x Hx]. exact (dict_setdefault_present k x v d Hx). Qed.

Lemma load_profile_on_record base fs m mob d :
  LocalStore._norm_mobile m = Ok mob ->
  files fs !! path_join (path_join (LocalStore.users_root base) mob) "profile.json"
    = Some (Doc (JObj d)) ->
  LocalStore.load_profile base fs m =
  (let r :=
     dict_setdefault "address" (JStr EmptyString)
       (dict_setdefault "district" (JStr EmptyString)
          (dict_setdefault "state" (JStr EmptyString)
             (dict_setdefault "email" (JStr EmptyString)
                (dict_setdefault "name" (JStr EmptyString)
                   (dict_setdefault "mobile" (JStr mob) d))))) in
   ([OpenW (path_join (path_join (LocalStore.users_root base) mob) "profile.json");
     Dump (path_join (path_join (LocalStore.users_root base) mob) "profile.json")
       (JObj r)],
    Ok (JObj r))).
Proof.
  intros Hm Hf. unfold LocalStore.load_profile.
  rewrite Hm, pbind_ok, (profile_path_normalized base m mob Hm), pbind_ok, Hf.
  cbn [json_load as_dict]. rewrite pbind_ok. reflexivity.
Qed.

Lemma load_profile_outcome base fs m :
  (exists e, LocalStore.load_profile base fs m = ([], Raise e)) \/
  (exists mob r,
     LocalStore._norm_mobile m = Ok mob /\
     LocalStore.load_profile base fs m =
     ([OpenW (path_join (path_join (LocalStore.users_root base) mob) "profile.json");
       Dump (path_join (path_join (LocalStore.users_root base) mob) "profile.json")
         (JObj r)],
      Ok (JObj r)) /\
     is_Some (dict_get "mobile" r) /\ is_Some (dict_get "name" r) /\
     is_Some (dict_get "email" r) /\ is_Some (dict_get "state" r) /\
     is_Some (dict_get "district" r) /\ is_Some (dict_get "address" r)).
Proof.
  unfold LocalStore.load_profile.
  destruct (LocalStore._norm_mobile m) as [mob|e] eqn:Hm; [|left; eexists; reflexivity].
  rewrite pbind_ok, (profile_path_normalized base m mob Hm), pbind_ok.
  destruct (as_dict _) as [d|e]; [|left; eexists; reflexivity].
  rewrite pbind_ok. right. eexists mob, _. split; [reflexivity|].
  split; [reflexivity|].
  repeat split;
    repeat first [ apply dict_setdefault_is_Some | apply dict_setdefault_keeps ].
Qed.

(** [load_profile] persists the record it returns, and returns the same
    record when called again: whatever it returns is what the profile file
    holds afterwards, a second call returns it unchanged and rewrites the
    same document, and no other file is touched. *)
Theorem load_profile_persists_and_repeats base fs m mob r :
  LocalStore._norm_mobile m = Ok mob ->
  snd (LocalStore.load_profile base fs m) = Ok r ->
  let p := path_join (path_join (LocalStore.users_root base) mob) "profile.json" in
  let fs1 := fst (exec (LocalStore.load_profile base fs m) fs) in
  files fs1 !! p = Some (Doc r) /\
  (forall q, q <> p -> files fs1 !! q = files fs !! q) /\
  snd (LocalStore.load_profile base fs1 m) = Ok r /\
  files (fst (exec (LocalStore.load_profile base fs1 m) fs1)) !! p = Some (Doc r).
Proof.
  intros Hm Hr p fs1.
  destruct (load_profile_outcome base fs m)
    as [[e He]|(mob' & d & Hm' & He & H1 & H2 & H3 & H4 & H5 & H6)].
  { rewrite He in Hr. discriminate Hr. }
  rewrite Hm in Hm'. injection Hm' as <-.
  rewrite He in Hr. cbn [snd] in Hr. injection Hr as <-.
  assert (Hf : files fs1 !! p = Some (Doc (JObj d))).
  { subst fs1. rewrite He. cbn [exec fst run fold_left step files].
    apply lookup_insert_eq. }
  split; [exact Hf|]. split.
  { intros q Hq. subst fs1. rewrite He. cbn [exec fst run fold_left step files].
    rewrite !lookup_insert_ne by (intros E; apply Hq; symmetry; exact E).
    reflexivity. }
  rewrite (load_profile_on_record base fs1 m mob d Hm Hf). cbn zeta.
  rewrite (dict_setdefault_noop "mobile" _ d H1).
  rewrite (dict_setdefault_noop "name" _ d H2).
  rewrite (dict_setdefault_noop "email" _ d H3).
  rewrite (dict_setdefault_noop "state" _ d H4).
  rewrite (dict_setdefault_noop "district" _ d H5).
  rewrite (dict_setdefault_noop "address" _ d H6).
  split; [reflexivity|]. cbn [exec fst run fold_left step files].
  apply lookup_insert_eq.
Qed.

(** For a user whose profile file is missing or cannot be parsed,
    [load_profile] returns the default record, the mobile filled in and the
    five other fields empty, and writes it to the profile file. *)
Theorem load_profile_creates_default_profile base fs m mob :
  LocalStore._norm_mobile m = Ok mob ->
  let p := path_join (path_join (LocalStore.users_root base) mob) "profile.json" in
  files fs !! p = None \/ files fs !! p = Some Unparsable ->
  let defaults :=
    JObj [("mobile", JStr mob); ("name", JStr EmptyString);
          ("email", JStr EmptyString); ("state", JStr EmptyString);
          ("district", JStr EmptyString); ("address", JStr EmptyString)] in
  snd (LocalStore.load_profile base fs m) = Ok defaults /\
  files (fst (exec (LocalStore.load_profile base fs m) fs)) !! p = Some (Doc defaults).
Proof.
  intros Hm p Hf defaults. unfold LocalStore.load_profile.
  rewrite Hm, pbind_ok, (profile_path_normalized base m mob Hm), pbind_ok.
  fold p.
  assert (E : match files fs !! p with
              | Some f => match json_load f with Ok j => j | Raise _ => JObj [] end
              | None => JObj []
              end = JObj []) by (destruct Hf as [-> | ->]; reflexivity).
  rewrite E. cbn [as_dict]. rewrite pbind_ok.
  split; [reflexivity|]. cbn [exec fst]. apply lookup_insert_eq.
Qed.

(** A profile file that holds a JSON document other than an object (null,
    a number, a string, a list) is not replaced by defaults: [load_profile]
    raises [AttributeError] and leaves the file as it is. *)
Theorem load_profile_rejects_non_object base fs m mob j :
  LocalStore._norm_mobile m = Ok mob ->
  files fs !! path_join (path_join (LocalStore.users_root base) mob) "profile.json"
    = Some (Doc j) ->
  (forall d, j <> JObj d) ->
  exec (LocalStore.load_profile base fs m) fs = (fs, Raise PyAttributeError).
Proof.
  intros Hm Hf Hj. unfold LocalStore.load_profile.
  rewrite Hm, pbind_ok, (profile_path_normalized base m mob Hm), pbind_ok, Hf.
  cbn [json_load]. destruct j; try reflexivity.
  exfalso. eapply Hj. reflexivity.
Qed.

(** Saving and loading a profile write the profile file of that user and
    nothing else: every credential file, every other file of a user
    directory and the session are left as they were. *)
Theorem profile_operations_touch_the_profile_only base fs m data :
  let fs1 := fst (exec (LocalStore.save_profile base m data) fs) in
  let fs2 := fst (exec (LocalStore.load_profile base fs m) fs) in
  (forall mob' name,
     all_digits mob' = true -> len mob' = 10%nat ->
     startswith "/" name = false -> name <> "profile.json" ->
     let q := path_join (path_join (AuthStore.users_root base) mob') name in
     files fs1 !! q = files fs !! q /\ files fs2 !! q = files fs !! q) /\
  files fs1 !! AuthStore.session_path base = files fs !! AuthStore.session_path base /\
  files fs2 !! AuthStore.session_path base = files fs !! AuthStore.session_path base.
Proof.
  intros fs1 fs2.
  assert (Hk : forall q,
            (forall mob, LocalStore._norm_mobile m = Ok mob ->
               q <> path_join (path_join (LocalStore.users_root base) mob)
                      "profile.json") ->
            files fs1 !! q = files fs !! q /\ files fs2 !! q = files fs !! q).
  { intros q Hq. subst fs1 fs2. split.
    - unfold LocalStore.save_profile.
      destruct (LocalStore._norm_mobile m) as [mob|e] eqn:Hm; [|reflexivity].
      rewrite pbind_ok, (profile_path_normalized base m mob Hm), pbind_ok.
      cbn [exec fst open_w_dump perform run fold_left step files].
      rewrite !lookup_insert_ne; [reflexivity| |];
        intros E; apply (Hq mob eq_refl); symmetry; exact E.
    - destruct (load_profile_outcome base fs m)
        as [[e ->]|(mob & d & Hm & -> & _)]; [reflexivity|].
      cbn [exec fst run fold_left step files].
      rewrite !lookup_insert_ne; [reflexivity| |];
        intros E; apply (Hq mob Hm); symmetry; exact E. }
  assert (Hnorm : forall mob, LocalStore._norm_mobile m = Ok mob ->
                    all_digits mob = true /\ len mob = 10%nat).
  { intros mob Hm. rewrite norm_mobile_eq in Hm.
    destruct (Nat.eqb_spec (len (sub_non_digits m)) 10) as [E|]; [|discriminate].
    injection Hm as <-. split; [apply all_digits_sub_non_digits|exact E]. }
  split; [|split].
  - intros mob' name Hd' Hl' Hn Hne q. apply Hk. intros mob Hm E.
    destruct (Hnorm mob Hm) as [Hd Hl].
    apply (user_files_distinct base mob' mob name "profile.json") in E;
      try assumption; try reflexivity.
    destruct E as [_ E]. exact (Hne E).
  - apply Hk. intros mob Hm E. destruct (Hnorm mob Hm) as [Hd Hl].
    symmetry in E. revert E.
    apply user_file_not_session_or_legacy; [|reflexivity].
    apply all_digits_no_leading_sep, Hd.
  - apply Hk. intros mob Hm E. destruct (Hnorm mob Hm) as [Hd Hl].
    symmetry in E. revert E.
    apply user_file_not_session_or_legacy; [|reflexivity].
    apply all_digits_no_leading_sep, Hd.
Qed.

Lemma load_profile_persists_witness :
  let r := JObj (sample_profile ++
                 [("email", JStr EmptyString); ("state", JStr EmptyString);
                  ("district", JStr EmptyString); ("address", JStr EmptyString)])%list in
  let fs1 := fst (exec (LocalStore.load_profile "/data" sample_profile_fs "98765 43210")
                    sample_profile_fs) in
  files fs1 !! "/data/users/9876543210/profile.json" = Some (Doc r) /\
  snd (LocalStore.load_profile "/data" fs1 "98765 43210") = Ok r.
Proof.
  intros r fs1.
  assert (Hr : snd (LocalStore.load_profile "/data" sample_profile_fs "98765 43210")
               = Ok r) by (vm_compute; reflexivity).
  destruct (load_profile_persists_and_repeats "/data" sample_profile_fs "98765 43210"
              "9876543210" r eq_refl Hr) as (H1 & _ & H2 & _).
  split; [exact H1|exact H2].
Defined.

Lemma load_profile_creates_default_witness :
  snd (LocalStore.load_profile "/data" empty_fs "9876543210") =
  Ok (JObj [("mobile", JStr "9876543210"); ("name", JStr EmptyString);
            ("email", JStr EmptyString); ("state", JStr EmptyString);
            ("district", JStr EmptyString); ("address", JStr EmptyString)]).
Proof.
  apply (load_profile_creates_default_profile "/data" empty_fs "9876543210"
           "9876543210" eq_refl).
  left. reflexivity.
Defined.

Lemma load_profile_rejects_non_object_witness :
  let fs := FS {[ "/data/users/9876543210/profile.json" := Doc JNull ]} None in
  exec (LocalStore.load_profile "/data" fs "9876543210") fs = (fs, Raise PyAttributeError).
Proof.
  intros fs.
  apply (load_profile_rejects_non_object "/data" fs "9876543210" "9876543210" JNull
           eq_refl).
  - vm_compute. reflexivity.
  - intros d. discriminate.
Defined.

(** ** Media types *)

Lemma to_lower_idem c : to_lower (to_lower c) = to_lower c.
Proof. destruct c as [[] [] [] [] [] [] [] []]; reflexivity. Qed.

Lemma lower_idem s : lower (lower s) = lower s.
Proof.
  induction s as [|c s IH]; [reflexivity|].
  cbn [lower]. rewrite to_lower_idem, IH. reflexivity.
Qed.

(** ** One user directory for both stores *)

(** On ASCII input the two stores normalise a mobile alike, so they place
    the files of a user in one directory: [users/<mobile>/auth.json],
    [users/<mobile>/profile.json] and [users/<mobile>/uploads], with
    [<mobile>] the ten digits of the input. *)
Theorem stores_share_the_user_directory base m :
  is_ascii m = true ->
  AuthStore._normalize_mobile m = LocalStore._norm_mobile m /\
  AuthStore._user_dir base m = LocalStore._user_dir base m /\
  (forall mob,
     AuthStore._normalize_mobile m = Ok mob ->
     all_digits mob = true /\ len mob = 10%nat /\
     AuthStore._normalize_mobile mob = Ok mob /\
     AuthStore._auth_path base m =
       Ok (AuthStore.users_root base ++ "/" ++ mob ++ "/" ++ "auth.json") /\
     LocalStore._profile_path base m =
       Ok (AuthStore.users_root base ++ "/" ++ mob ++ "/" ++ "profile.json") /\
     LocalStore._uploads_dir base m =
       Ok (AuthStore.users_root base ++ "/" ++ mob ++ "/" ++ "uploads")).
Proof.
  intros _.
  assert (E : AuthStore._normalize_mobile m = LocalStore._norm_mobile m)
    by (rewrite normalize_mobile_eq, norm_mobile_eq; reflexivity).
  split; [exact E|]. split.
  { unfold AuthStore._user_dir, LocalStore._user_dir. rewrite E. reflexivity. }
  intros mob Hm. destruct (normalize_mobile_digits _ _ Hm) as (_ & Hd & Hl).
  split; [exact Hd|]. split; [exact Hl|].
  split; [exact (normalize_mobile_idem _ _ Hm)|].
  unfold AuthStore._auth_path, AuthStore._user_dir,
    LocalStore._profile_path, LocalStore._uploads_dir, LocalStore._user_dir.
  rewrite <- E, Hm. cbn [bind].
  change (LocalStore.users_root base) with (AuthStore.users_root base).
  rewrite (user_file_path base mob "auth.json" Hd Hl eq_refl).
  rewrite (user_file_path base mob "profile.json" Hd Hl eq_refl).
  rewrite (user_file_path base mob "uploads" Hd Hl eq_refl).
  repeat split; reflexivity.
Qed.

Lemma stores_share_the_user_directory_witness :
  AuthStore._auth_path "/data" "98765 43210" = Ok "/data/users/9876543210/auth.json" /\
  LocalStore._profile_path "/data" "98765 43210" =
    Ok "/data/users/9876543210/profile.json" /\
  LocalStore._uploads_dir "/data" "98765 43210" = Ok "/data/users/9876543210/uploads".
Proof.
  destruct (stores_share_the_user_directory "/data" "98765 43210" eq_refl)
    as (_ & _ & H).
  destruct (H "9876543210" eq_refl) as (_ & _ & _ & H1 & H2 & H3).
  split; [exact H1|]. split; [exact H2|exact H3].
Defined.

(** ** Where a [ValidationError] comes from *)

Lemma fromhex_error_bounded n :
  forall s e, (String.length s <= n)%nat -> fromhex s = Raise e -> e = PyValueError.
Proof.
  induction n as [|n IH]; intros s e Hl H.
  - destruct s; [discriminate H|cbn in Hl; lia].
  - destruct s as [|c s]; [discriminate H|]. cbn [fromhex] in H.
    cbn [String.length] in Hl.
    destruct (is_ascii_space c).
    + apply (IH s e); [lia|exact H].
    + destruct s as [|d s]; [congruence|].
      destruct (hex_value c), (hex_value d); try congruence.
      destruct (Byte.of_N _); [|congruence].
      destruct (fromhex s) as [rest|e'] eqn:E; [discriminate H|].
      cbn [bind] in H. injection H as <-.
      apply (IH s e'); [cbn [String.length] in Hl; lia|exact E].
Qed.

Lemma fromhex_error s e : fromhex s = Raise e -> e = PyValueError.
Proof. apply (fromhex_error_bounded (String.length s)). lia. Qed.

Lemma py_int_error v e : py_int v = Raise e -> e <> ValidationError.
Proof.
  destruct v; cbn [py_int]; try discriminate; try (intros [= <-]; discriminate).
  unfold int_of_str.
  destruct (match int_strip s with
            | String "-" s' => option_map Z.opp (int_digits s' 0 false)
            | String "+" s' => int_digits s' 0 false
            | s' => int_digits s' 0 false
            end); [discriminate|]. intros [= <-]. discriminate.
Qed.

Lemma get_error u k dflt e : get u k dflt = Raise e -> e <> ValidationError.
Proof. destruct u; cbn; try discriminate; intros [= <-]; discriminate. Qed.

Lemma counter_error u k e :
  (v <- get u k (JInt 0) ;; py_int v) = Raise e -> e <> ValidationError.
Proof.
  destruct (get u k (JInt 0)) as [v|e'] eqn:E; cbn [bind].
  - apply py_int_error.
  - intros [= <-]. exact (get_error _ _ _ _ E).
Qed.

Lemma hash_pin_validation_error kdf pin salt token :
  AuthStore._hash_pin kdf pin salt token = Raise ValidationError ->
  PIN_RE_fullmatch pin = false.
Proof.
  unfold AuthStore._hash_pin.
  destruct (PIN_RE_fullmatch pin); [|reflexivity]. cbn [negb].
  destruct (py_or salt (JStr token)); try discriminate.
  destruct (fromhex s) as [raw|e] eqn:E; [discriminate|].
  cbn [bind]. intros [= ->]. apply fromhex_error in E. discriminate E.
Qed.

Lemma compare_digest_error a b e : compare_digest a b = Raise e -> e = PyTypeError.
Proof.
  destruct b; cbn; try (intros [= <-]; reflexivity).
  destruct (is_ascii a && is_ascii s); [discriminate|]. intros [= <-]. reflexivity.
Qed.

Lemma normalize_mobile_error m e :
  AuthStore._normalize_mobile m = Raise e -> e = ValidationError.
Proof.
  rewrite normalize_mobile_eq.
  destruct (len (sub_non_digits m) =? 10)%nat; [discriminate|].
  intros [= <-]. reflexivity.
Qed.

Lemma login_validation_error_cause kdf base fs now m pin :
  snd (AuthStore.login kdf base fs now m pin) = Raise ValidationError ->
  (exists e, AuthStore._normalize_mobile m = Raise e) \/
  PIN_RE_fullmatch pin = false.
Proof.
  destruct (AuthStore._normalize_mobile m) as [mob|e] eqn:Hm; [|left; eauto].
  intros H. right. revert H.
  destruct (auth_path_normalized base _ _ Hm) as [_ Hap].
  unfold AuthStore.login. rewrite Hm, pbind_ok, Hap, pbind_ok.
  destruct (files fs !! _) as [f|]; [|discriminate].
  destruct (AuthStore.load_or_empty f) as [u|e]; [|discriminate].
  cbn [try_except]. rewrite pbind_ok.
  destruct (v <- get u "failed_attempts" (JInt 0) ;; py_int v) as [fails|e] eqn:E1;
    [|intros [= ->]; exfalso; exact (counter_error _ _ _ E1 eq_refl)].
  rewrite pbind_ok.
  destruct (v <- get u "last_failed_at" (JInt 0) ;; py_int v) as [last|e] eqn:E2;
    [|intros [= ->]; exfalso; exact (counter_error _ _ _ E2 eq_refl)].
  rewrite pbind_ok.
  destruct ((5 <=? fails) && (now - last <? 300)); [discriminate|].
  destruct (get u "pin_salt" (JStr EmptyString)) as [salt|e] eqn:E3;
    [|intros [= ->]; exfalso; exact (get_error _ _ _ _ E3 eq_refl)].
  rewrite pbind_ok.
  destruct (get u "pin_hash" (JStr EmptyString)) as [expect|e] eqn:E4;
    [|intros [= ->]; exfalso; exact (get_error _ _ _ _ E4 eq_refl)].
  rewrite pbind_ok.
  destruct (negb _); [discriminate|].
  destruct (AuthStore._hash_pin kdf pin salt EmptyString) as [[s got]|e] eqn:E5;
    [|intros [= ->]; exact (hash_pin_validation_error _ _ _ _ E5)].
  rewrite pbind_ok.
  destruct (compare_digest got expect) as [same|e] eqn:E6;
    [|intros [= ->]; apply compare_digest_error in E6; discriminate E6].
  rewrite pbind_ok.
  destruct (as_dict u) as [d|e] eqn:E7;
    [|destruct u; try discriminate E7; injection E7 as <-; discriminate].
  rewrite pbind_ok. destruct same; discriminate.
Qed.

Lemma register_validation_error_cause kdf base fs now rnd m pin :
  snd (AuthStore.register kdf base fs now rnd m pin) = Raise ValidationError ->
  (exists e, AuthStore._normalize_mobile m = Raise e) \/
  PIN_RE_fullmatch pin = false.
Proof.
  destruct (AuthStore._normalize_mobile m) as [mob|e] eqn:Hm; [|left; eauto].
  intros H. right. revert H.
  destruct (auth_path_normalized base _ _ Hm) as [Hud Hap].
  unfold AuthStore.register. rewrite Hm, pbind_ok, Hud, pbind_ok, Hap, pbind_ok.
  destruct (AuthStore._hash_pin kdf pin JNull (token_hex rnd)) as [[salt h]|e] eqn:E;
    [|intros [= ->]; exact (hash_pin_validation_error _ _ _ _ E)].
  rewrite pbind_ok.
  destruct (as_dict _) as [d|e] eqn:E7; [discriminate|].
  intros [= ->]. revert E7.
  destruct (match files fs !! _ with Some _ => _ | None => _ end);
    discriminate.
Qed.

(** [login] and [register] raise [ValidationError] for a malformed mobile or
    a malformed PIN, and for nothing else: whatever the files hold, an
    input that normalises and a PIN of four to six digits never give this
    error. *)
Theorem validation_error_means_malformed_input kdf base fs now rnd m mob pin :
  AuthStore._normalize_mobile m = Ok mob ->
  PIN_RE_fullmatch pin = true ->
  snd (AuthStore.login kdf base fs now m pin) <> Raise ValidationError /\
  snd (AuthStore.register kdf base fs now rnd m pin) <> Raise ValidationError.
Proof.
  intros Hm Hp. split; intros H.
  - apply login_validation_error_cause in H. destruct H as [[e He]|H]; congruence.
  - apply register_validation_error_cause in H. destruct H as [[e He]|H]; congruence.
Qed.

Lemma validation_error_witness :
  snd (AuthStore.login sample_kdf "/data" sample_throttled_fs 3000 "9876543210" "0000")
    <> Raise ValidationError /\
  snd (AuthStore.register sample_kdf "/data" sample_throttled_fs 3000 sample_random
         "9876543210" "0000") <> Raise ValidationError.
Proof.
  apply (validation_error_means_malformed_input sample_kdf "/data"
           sample_throttled_fs 3000 sample_random "9876543210" "9876543210" "0000").
  - reflexivity.
  - reflexivity.
Defined.

(** ** The checks of the user interface *)

(** What [auth_register] and [auth_login] pass on to the store, when their
    checks of the identifier and of the PIN succeed on ASCII input, is never
    refused with [ValidationError]: the digits they pass are the store's own
    normal form of the input, and the PIN is one the store accepts.  An
    identifier they refuse is one the store would refuse. *)
Theorem ui_checks_agree_with_the_store kdf base fs now rnd s pin :
  is_ascii s = true ->
  is_ascii pin = true ->
  (forall digits,
     PhotoApp._is_valid_identifier s = (true, "mobile", digits) ->
     AuthStore._normalize_mobile s = Ok digits /\
     AuthStore._normalize_mobile digits = Ok digits /\
     LocalStore._norm_mobile digits = Ok digits /\
     (PhotoApp._is_valid_pin pin = true ->
      snd (AuthStore.register kdf base fs now rnd digits (PhotoApp._as_text pin))
        <> Raise ValidationError /\
      snd (AuthStore.login kdf base fs now digits (PhotoApp._as_text pin))
        <> Raise ValidationError)) /\
  (fst (fst (PhotoApp._is_valid_identifier s)) = false ->
   AuthStore._normalize_mobile s = Raise ValidationError).
Proof.
  intros _ _. unfold PhotoApp._is_valid_identifier, PhotoApp._as_text.
  rewrite sub_non_digits_strip, normalize_mobile_eq.
  destruct (Nat.eqb_spec (len (sub_non_digits s)) 10) as [E|E]; cbn [negb fst].
  - split; [|discriminate]. intros digits [= <-].
    pose proof (all_digits_sub_non_digits s) as Hd.
    assert (Hn : AuthStore._normalize_mobile (sub_non_digits s)
                 = Ok (sub_non_digits s)).
    { rewrite normalize_mobile_eq, (sub_non_digits_all_digits _ Hd), E. reflexivity. }
    split; [reflexivity|]. split; [exact Hn|]. split.
    { rewrite norm_mobile_eq, (sub_non_digits_all_digits _ Hd), E. reflexivity. }
    unfold PhotoApp._is_valid_pin, PhotoApp._as_text. intros Hp. split; intros H.
    + apply register_validation_error_cause in H.
      destruct H as [[e He]|H]; congruence.
    + apply login_validation_error_cause in H.
      destruct H as [[e He]|H]; congruence.
  - split; [discriminate|]. reflexivity.
Qed.

Lemma ui_checks_agree_with_the_store_witness :
  PhotoApp._is_valid_identifier " 98765-43210 " = (true, "mobile", "9876543210") /\
  AuthStore._normalize_mobile " 98765-43210 " = Ok "9876543210" /\
  snd (AuthStore.login sample_kdf "/data" sample_fs 3000 "9876543210"
         (PhotoApp._as_text " 1234 ")) <> Raise ValidationError.
Proof.
  destruct (ui_checks_agree_with_the_store sample_kdf "/data" sample_fs 3000
              sample_random " 98765-43210 " " 1234 " eq_refl eq_refl) as [H _].
  destruct (H "9876543210" eq_refl) as (H1 & _ & _ & H2).
  split; [reflexivity|]. split; [exact H1|].
  exact (proj2 (H2 eq_refl)).
Defined.

(** * Further properties of the uploads *)

(** ** Printing and reading a number *)

Lemma int_digits_digit c s acc b :
  is_digit c = true ->
  int_digits (String c s) acc b =
  int_digits s (10 * acc + Z.of_nat (nat_of_ascii c - 48)) true.
Proof. intros H. cbn [int_digits]. rewrite H. reflexivity. Qed.

Lemma int_digits_of_uint_acc u : forall acc,
  int_digits (NilEmpty.string_of_uint u) (Z.pos acc) true
  = Some (Z.pos (Pos.of_uint_acc u acc)).
Proof.
  induction u as [|u IH|u IH|u IH|u IH|u IH|u IH|u IH|u IH|u IH|u IH]; intros acc;
    cbn [NilEmpty.string_of_uint Pos.of_uint_acc]; [reflexivity|..];
    rewrite int_digits_digit by reflexivity;
    rewrite <- IH; f_equal; vm_compute (Z.of_nat _); lia.
Qed.

Lemma int_digits_of_uint u : forall b,
  b = true \/ u <> Decimal.Nil ->
  int_digits (NilEmpty.string_of_uint u) 0 b = Some (Z.of_N (Pos.of_uint u)).
Proof.
  induction u as [|u IH|u IH|u IH|u IH|u IH|u IH|u IH|u IH|u IH|u IH]; intros b Hb;
    cbn [NilEmpty.string_of_uint Pos.of_uint].
  - destruct Hb as [->|Hb]; [reflexivity|congruence].
  - rewrite int_digits_digit by reflexivity. apply IH. left. reflexivity.
  - rewrite int_digits_digit by reflexivity. apply (int_digits_of_uint_acc u 1).
  - rewrite int_digits_digit by reflexivity. apply (int_digits_of_uint_acc u 2).
  - rewrite int_digits_digit by reflexivity. apply (int_digits_of_uint_acc u 3).
  - rewrite int_digits_digit by reflexivity. apply (int_digits_of_uint_acc u 4).
  - rewrite int_digits_digit by reflexivity. apply (int_digits_of_uint_acc u 5).
  - rewrite int_digits_digit by reflexivity. apply (int_digits_of_uint_acc u 6).
  - rewrite int_digits_digit by reflexivity. apply (int_digits_of_uint_acc u 7).
  - rewrite int_digits_digit by reflexivity. apply (int_digits_of_uint_acc u 8).
  - rewrite int_digits_digit by reflexivity. apply (int_digits_of_uint_acc u 9).
Qed.

Lemma all_digits_of_uint u : all_digits (NilEmpty.string_of_uint u) = true.
Proof.
  induction u as [|u IH|u IH|u IH|u IH|u IH|u IH|u IH|u IH|u IH|u IH];
    cbn [NilEmpty.string_of_uint all_digits]; [reflexivity|..]; exact IH.
Qed.

Lemma of_uint_not_empty u :
  u <> Decimal.Nil -> NilEmpty.string_of_uint u <> EmptyString.
Proof. destruct u; [congruence|..]; discriminate. Qed.

Lemma is_digit_not_int_space c : is_digit c = true -> is_int_space c = false.
Proof.
  unfold is_digit, is_int_space. intros H.
  apply andb_true_iff in H as [H1 H2].
  apply Nat.leb_le in H1. apply Nat.leb_le in H2.
  apply orb_false_iff. split.
  - apply andb_false_iff. right. apply Nat.leb_gt. lia.
  - apply Nat.eqb_neq. lia.
Qed.

Lemma int_rstrip_all_digits s : all_digits s = true -> int_rstrip s = s.
Proof.
  induction s as [|c s IH]; [reflexivity|]. cbn [all_digits int_rstrip]. intros H.
  apply andb_true_iff in H as [Hc Hs]. rewrite (IH Hs).
  destruct s; [|reflexivity]. rewrite (is_digit_not_int_space _ Hc). reflexivity.
Qed.

Lemma int_strip_all_digits s : all_digits s = true -> int_strip s = s.
Proof.
  intros H. unfold int_strip.
  destruct s as [|c s]; [reflexivity|]. cbn [int_lstrip].
  cbn [all_digits] in H. pose proof H as H'. apply andb_true_iff in H' as [Hc _].
  rewrite (is_digit_not_int_space _ Hc). apply int_rstrip_all_digits. exact H.
Qed.

Lemma int_strip_minus_digits s :
  all_digits s = true -> s <> EmptyString -> int_strip (String "-" s) = String "-" s.
Proof.
  intros H Hs. unfold int_strip. cbn [int_lstrip].
  change (is_int_space "-") with false. cbn match. cbn [int_rstrip].
  rewrite (int_rstrip_all_digits _ H). destruct s; [congruence|reflexivity].
Qed.

(** [int(str(n)) == n] *)
Lemma int_of_str_of_int n : int_of_str (str_of_int n) = Ok n.
Proof.
  unfold int_of_str, str_of_int.
  destruct n as [|p|p]; cbn [Z.to_int NilEmpty.string_of_int].
  - reflexivity.
  - pose proof (DecimalPos.Unsigned.to_uint_nonnil p) as Hn.
    rewrite (int_strip_all_digits _ (all_digits_of_uint _)).
    pose proof (int_digits_of_uint (Pos.to_uint p) false (or_intror Hn)) as E.
    rewrite DecimalPos.Unsigned.of_to in E. cbn [Z.of_N] in E.
    pose proof (all_digits_of_uint (Pos.to_uint p)) as Hd.
    destruct (NilEmpty.string_of_uint (Pos.to_uint p)) as [|c s] eqn:Es.
    + exfalso. exact (of_uint_not_empty _ Hn Es).
    + cbn [all_digits] in Hd. apply andb_true_iff in Hd as [Hc _].
      assert (Hm : Ascii.eqb c "-" = false).
      { destruct (Ascii.eqb_spec c "-") as [->|]; [discriminate Hc|reflexivity]. }
      assert (Hq : Ascii.eqb c "+" = false).
      { destruct (Ascii.eqb_spec c "+") as [->|]; [discriminate Hc|reflexivity]. }
      assert (G : match String c s with
                  | String "-" s' => option_map Z.opp (int_digits s' 0 false)
                  | String "+" s' => int_digits s' 0 false
                  | s' => int_digits s' 0 false
                  end = int_digits (String c s) 0 false).
      { destruct c as [[] [] [] [] [] [] [] []]; try reflexivity;
          discriminate Hm || discriminate Hq. }
      rewrite G, E. reflexivity.
  - pose proof (DecimalPos.Unsigned.to_uint_nonnil p) as Hn.
    rewrite (int_strip_minus_digits _ (all_digits_of_uint _) (of_uint_not_empty _ Hn)).
    rewrite (int_digits_of_uint (Pos.to_uint p) false (or_intror Hn)).
    rewrite DecimalPos.Unsigned.of_to. reflexivity.
Qed.

(** ** Reading the number back from an upload name *)

Lemma after_first_app c (a b : string) :
  after_first c a = None -> after_first c (a ++ String c b) = Some b.
Proof.
  induction a as [|x a IH]; intros H.
  - rewrite string_app_nil. cbn [after_first]. rewrite Ascii.eqb_refl. reflexivity.
  - rewrite string_app_cons. cbn [after_first] in *.
    destruct (Ascii.eqb x c); [discriminate H|]. exact (IH H).
Qed.

Lemma after_first_app_none c (a b : string) :
  after_first c a = None -> after_first c b = None -> after_first c (a ++ b) = None.
Proof.
  induction a as [|x a IH]; intros Ha Hb.
  - rewrite string_app_nil. exact Hb.
  - rewrite string_app_cons. cbn [after_first] in *.
    destruct (Ascii.eqb x c); [discriminate Ha|]. exact (IH Ha Hb).
Qed.

Lemma all_digits_without c s :
  is_digit c = false -> all_digits s = true -> after_first c s = None.
Proof.
  intros Hc. induction s as [|x s IH]; [reflexivity|].
  cbn [all_digits after_first]. intros H. apply andb_true_iff in H as [Hx Hs].
  destruct (Ascii.eqb_spec x c) as [->|_]; [congruence|]. exact (IH Hs).
Qed.

Lemma str_of_int_without c n :
  is_digit c = false -> c <> "-"%char -> after_first c (str_of_int n) = None.
Proof.
  intros Hc Hm. unfold str_of_int.
  destruct n as [|p|p]; cbn [Z.to_int NilEmpty.string_of_int].
  - apply (all_digits_without c "0" Hc). reflexivity.
  - apply all_digits_without; [exact Hc|apply all_digits_of_uint].
  - cbn [after_first].
    destruct (Ascii.eqb_spec "-"%char c) as [E|_]; [congruence|].
    apply all_digits_without; [exact Hc|apply all_digits_of_uint].
Qed.

Lemma str_of_int_not_empty n : str_of_int n <> EmptyString.
Proof.
  unfold str_of_int. destruct n as [|p|p]; cbn [Z.to_int NilEmpty.string_of_int];
    [discriminate| |discriminate].
  apply of_uint_not_empty, DecimalPos.Unsigned.to_uint_nonnil.
Qed.

Lemma split_2_third_name (mob dk rest : string) :
  after_first "_" mob = None -> after_first "_" dk = None ->
  split_2_third (mob ++ "_" ++ dk ++ "_" ++ rest) = Some rest.
Proof.
  intros Hm Hd. unfold split_2_third.
  change ("_" ++ dk ++ "_" ++ rest) with (String "_" (dk ++ String "_" rest)).
  rewrite (after_first_app _ _ _ Hm). apply after_first_app, Hd.
Qed.

Lemma split_sep_plain t : after_first "/" t = None -> split_sep t = (EmptyString, t).
Proof.
  induction t as [|c t IH]; [reflexivity|]. cbn [after_first split_sep].
  destruct (Ascii.eqb c "/") eqn:E; [discriminate|]. intros H.
  rewrite (IH H). reflexivity.
Qed.

Lemma split_sep_tail p : after_first "/" (snd (split_sep p)) = None.
Proof.
  induction p as [|c p IH]; [reflexivity|]. cbn [split_sep].
  destruct (split_sep p) as [h t]. cbn [snd] in IH.
  destruct h; [|exact IH].
  destruct (Ascii.eqb c "/") eqn:E; cbn [snd after_first]; [exact IH|].
  rewrite E. exact IH.
Qed.

Lemma span_dots_rest c t :
  after_first c t = None -> after_first c (snd (span_dots t)) = None.
Proof.
  induction t as [|x t IH]; [reflexivity|]. cbn [span_dots]. intros H.
  destruct (Ascii.eqb x ".") eqn:E; [|exact H].
  cbn [after_first] in H. destruct (Ascii.eqb x c); [discriminate H|].
  specialize (IH H). destruct (span_dots t) as [d r]. exact IH.
Qed.

Lemma split_last_dot_none s :
  split_last_dot s = None <-> after_first "." s = None.
Proof.
  induction s as [|c s IH]; [split; reflexivity|]. cbn [split_last_dot after_first].
  destruct (split_last_dot s) as [[b e]|].
  - split; [discriminate|]. destruct (Ascii.eqb c "."); [discriminate|].
    intros H. apply IH in H. discriminate H.
  - destruct (Ascii.eqb c "."); [split; discriminate|].
    split; intros _; [apply IH|]; reflexivity.
Qed.

Lemma split_last_dot_some s : forall b e,
  split_last_dot s = Some (b, e) ->
  exists e', e = String "." e' /\ after_first "." e' = None /\
             (after_first "/" s = None -> after_first "/" e' = None).
Proof.
  induction s as [|c s IH]; intros b e; [discriminate|].
  cbn [split_last_dot after_first].
  destruct (split_last_dot s) as [[b' e'']|] eqn:E.
  - intros [= <- <-]. destruct (IH _ _ eq_refl) as (e' & H1 & H2 & H3).
    exists e'. split; [exact H1|]. split; [exact H2|].
    destruct (Ascii.eqb c "/"); [discriminate|]. exact H3.
  - destruct (Ascii.eqb_spec c ".") as [->|_]; [|discriminate].
    intros [= <- <-]. exists s. split; [reflexivity|].
    split; [apply split_last_dot_none, E|]. cbn. tauto.
Qed.

Lemma split_last_dot_app (n e' : string) :
  after_first "." e' = None ->
  split_last_dot (n ++ String "." e') = Some (n, String "." e').
Proof.
  intros H. induction n as [|c n IH].
  - rewrite string_app_nil. cbn [split_last_dot].
    rewrite (proj2 (split_last_dot_none e') H). reflexivity.
  - rewrite string_app_cons. cbn [split_last_dot]. rewrite IH. reflexivity.
Qed.

(** An extension, as [os.path.splitext] returns it: empty, or a dot and
    then neither a dot nor a separator. *)
Lemma splitext_extension p :
  snd (splitext p) = EmptyString \/
  exists e', snd (splitext p) = String "." e' /\
             after_first "." e' = None /\ after_first "/" e' = None.
Proof.
  unfold splitext. pose proof (split_sep_tail p) as Ht.
  destruct (split_sep p) as [h t]. cbn [snd] in Ht.
  pose proof (span_dots_rest "/" t Ht) as Hr.
  destruct (span_dots t) as [d r]. cbn [snd] in Hr.
  destruct (split_last_dot r) as [[b e]|] eqn:E; [|left; reflexivity].
  right. destruct (split_last_dot_some _ _ _ E) as (e' & H1 & H2 & H3).
  exists e'. split; [exact H1|]. split; [exact H2|exact (H3 Hr)].
Qed.

Lemma to_lower_is c x :
  (c = "." \/ c = "/")%char -> Ascii.eqb (to_lower x) c = Ascii.eqb x c.
Proof.
  intros [-> | ->]; destruct x as [[] [] [] [] [] [] [] []]; reflexivity.
Qed.

Lemma after_first_lower c s :
  (c = "." \/ c = "/")%char ->
  after_first c s = None -> after_first c (lower s) = None.
Proof.
  intros Hc. induction s as [|x s IH]; [reflexivity|].
  cbn [lower after_first]. rewrite (to_lower_is c x Hc).
  destruct (Ascii.eqb x c); [discriminate|]. exact IH.
Qed.

Lemma lower_extension p :
  lower (snd (splitext p)) = EmptyString \/
  exists e', lower (snd (splitext p)) = String "." e' /\
             after_first "." e' = None /\ after_first "/" e' = None.
Proof.
  destruct (splitext_extension p) as [->|(e' & -> & H1 & H2)]; [left; reflexivity|].
  right. exists (lower e'). split; [reflexivity|].
  split; apply after_first_lower; auto.
Qed.

(** A name without dot and separator, followed by an extension, is split
    into the two. *)
Lemma splitext_name (n ext : string) :
  n <> EmptyString ->
  after_first "." n = None -> after_first "/" n = None ->
  ext = EmptyString \/
  (exists e', ext = String "." e' /\
              after_first "." e' = None /\ after_first "/" e' = None) ->
  splitext (n ++ ext) = (n, ext).
Proof.
  intros Hn Hdot Hsep Hext.
  assert (Hs : after_first "/" (n ++ ext) = None).
  { apply after_first_app_none; [exact Hsep|].
    destruct Hext as [->|(e' & -> & _ & H)]; [reflexivity|exact H]. }
  unfold splitext. rewrite (split_sep_plain _ Hs).
  destruct n as [|c n]; [congruence|].
  cbn [after_first] in Hdot. destruct (Ascii.eqb c ".") eqn:Ec; [discriminate|].
  rewrite string_app_cons. cbn [span_dots]. rewrite Ec.
  rewrite <- string_app_cons.
  destruct Hext as [->|(e' & -> & He & _)].
  - rewrite string_app_empty_r.
    assert (E : split_last_dot (String c n) = None).
    { apply split_last_dot_none. cbn [after_first]. rewrite Ec. exact Hdot. }
    rewrite E. reflexivity.
  - rewrite (split_last_dot_app _ _ He). rewrite !string_app_nil. reflexivity.
Qed.

Lemma day_number_of_name (mob dk : string) n (ext : string) :
  after_first "_" mob = None -> after_first "_" dk = None ->
  ext = EmptyString \/
  (exists e', ext = String "." e' /\
              after_first "." e' = None /\ after_first "/" e' = None) ->
  LocalStore.day_number (mob ++ "_" ++ dk ++ "_" ++ str_of_int n ++ ext) = Some n.
Proof.
  intros Hm Hd Hext. unfold LocalStore.day_number.
  rewrite (split_2_third_name _ _ _ Hm Hd).
  rewrite (splitext_name _ _ (str_of_int_not_empty n)
             (str_of_int_without "." n eq_refl ltac:(discriminate))
             (str_of_int_without "/" n eq_refl ltac:(discriminate)) Hext).
  cbn [fst]. rewrite int_of_str_of_int. reflexivity.
Qed.

(** ** Names given to uploads *)

Lemma startswith_app (p r : string) : startswith p (p ++ r) = true.
Proof.
  induction p as [|c p IH]; [reflexivity|].
  rewrite string_app_cons. cbn [startswith]. rewrite Ascii.eqb_refl. exact IH.
Qed.

Lemma upload_name_prefix (mob dk rest : string) :
  mob ++ "_" ++ dk ++ "_" ++ rest = (mob ++ "_" ++ dk ++ "_") ++ rest.
Proof. rewrite !string_app_assoc. reflexivity. Qed.

Lemma next_of_app digits :
  LocalStore.next_of (digits ++ [LocalStore.next_of digits]) =
  LocalStore.next_of digits + 1.
Proof.
  destruct digits as [|d ds]; [reflexivity|].
  cbn [app LocalStore.next_of]. rewrite fold_left_app. cbn [fold_left]. lia.
Qed.

Lemma add_upload_outcome base entries today clock m mob src (dk : option string) :
  LocalStore._norm_mobile m = Ok mob ->
  let date_key :=
    match dk with
    | Some k => if String.eqb k EmptyString then today else k
    | None => today
    end in
  let prefix := mob ++ "_" ++ date_key ++ "_" in
  let N := LocalStore.next_of (omap LocalStore.day_number
                                 (LocalStore.glob_prefix prefix entries)) in
  let ext := lower (snd (splitext src)) in
  let name := mob ++ "_" ++ date_key ++ "_" ++ str_of_int N ++ ext in
  LocalStore.add_upload base entries true today clock m src dk =
  Ok ({| path := path_join (path_join (path_join (LocalStore.users_root base) mob)
                              "uploads") name;
         filename := name;
         media_type := LocalStore._detect_media_type ext;
         created_at := clock |},
      if existsb (String.eqb name) entries then entries else (entries ++ [name])%list).
Proof.
  intros Hm date_key prefix N ext name.
  pose proof (norm_mobile_idem _ _ Hm) as Hmob.
  unfold LocalStore.add_upload. rewrite Hm. cbn [bind negb].
  rewrite (uploads_dir_normalized base m mob Hm). cbn [bind].
  unfold LocalStore._next_digit_for_day. rewrite Hmob. cbn [bind].
  rewrite (uploads_dir_normalized base m mob Hm). cbn [bind].
  reflexivity.
Qed.

Lemma norm_mobile_digits m mob :
  LocalStore._norm_mobile m = Ok mob -> all_digits mob = true /\ len mob = 10%nat.
Proof.
  rewrite norm_mobile_eq.
  destruct (Nat.eqb_spec (len (sub_non_digits m)) 10) as [E|]; [|discriminate].
  intros [= <-]. auto using all_digits_sub_non_digits.
Qed.

Lemma upload_name_is_new (mob dk : string) entries (ext : string) :
  after_first "_" mob = None -> after_first "_" dk = None ->
  ext = EmptyString \/
  (exists e', ext = String "." e' /\
              after_first "." e' = None /\ after_first "/" e' = None) ->
  let prefix := mob ++ "_" ++ dk ++ "_" in
  let N := LocalStore.next_of (omap LocalStore.day_number
                                 (LocalStore.glob_prefix prefix entries)) in
  ~ In (mob ++ "_" ++ dk ++ "_" ++ str_of_int N ++ ext) entries.
Proof.
  intros Hm Hd Hext prefix N Hin.
  pose proof (day_number_of_name mob dk N ext Hm Hd Hext) as Hn.
  destruct (next_of_spec (omap LocalStore.day_number
                            (LocalStore.glob_prefix prefix entries))) as (_ & H & _).
  specialize (H N). fold N in H. enough (N < N) by lia. apply H.
  apply list_elem_of_In, list_elem_of_omap.
  exists (mob ++ "_" ++ dk ++ "_" ++ str_of_int N ++ ext). split; [|exact Hn].
  apply list_elem_of_In. unfold LocalStore.glob_prefix. apply filter_In.
  split; [exact Hin|]. rewrite upload_name_prefix. apply startswith_app.
Qed.

(** [add_upload] never gives a new upload the name of a file that is
    already there, and uploads that follow each other on one day are
    numbered consecutively.  This needs a date key made of digits, as
    [_date_key()] produces it: the number is read back from the third
    underscore-separated part of the name. *)
Theorem uploads_get_new_consecutive_names
    base entries today clock clock' m mob src src' (dk : option string) :
  LocalStore._norm_mobile m = Ok mob ->
  let date_key :=
    match dk with
    | Some k => if String.eqb k EmptyString then today else k
    | None => today
    end in
  has_magic base = false ->
  all_digits date_key = true ->
  exists row entries' N,
    LocalStore.add_upload base entries true today clock m src dk = Ok (row, entries') /\
    ~ In (filename row) entries /\
    entries' = (entries ++ [filename row])%list /\
    LocalStore.day_number (filename row) = Some N /\
    exists row2 entries2,
      LocalStore.add_upload base entries' true today clock' m src' dk
        = Ok (row2, entries2) /\
      LocalStore.day_number (filename row2) = Some (N + 1) /\
      ~ In (filename row2) entries' /\
      entries2 = (entries ++ [filename row; filename row2])%list.
Proof.
  intros Hm date_key _ Hdk.
  destruct (norm_mobile_digits _ _ Hm) as [Hmd _].
  pose proof (all_digits_without "_" mob eq_refl Hmd) as Hm_.
  pose proof (all_digits_without "_" date_key eq_refl Hdk) as Hd_.
  set (prefix := mob ++ "_" ++ date_key ++ "_").
  set (digits := omap LocalStore.day_number (LocalStore.glob_prefix prefix entries)).
  set (N := LocalStore.next_of digits).
  set (name := mob ++ "_" ++ date_key ++ "_" ++ str_of_int N ++ lower (snd (splitext src))).
  assert (Hnew : ~ In name entries)
    by exact (upload_name_is_new mob date_key entries _ Hm_ Hd_ (lower_extension src)).
  assert (Hnum : LocalStore.day_number name = Some N)
    by exact (day_number_of_name mob date_key N _ Hm_ Hd_ (lower_extension src)).
  assert (Hex : existsb (String.eqb name) entries = false).
  { apply not_true_is_false. intros E. apply existsb_exists in E as (x & Hx & Ex).
    apply String.eqb_eq in Ex. subst x. exact (Hnew Hx). }
  eexists _, (entries ++ [name])%list, N.
  split.
  { rewrite (add_upload_outcome base entries today clock m mob src dk Hm).
    fold date_key prefix digits N name. rewrite Hex. reflexivity. }
  cbn [filename]. split; [exact Hnew|]. split; [reflexivity|]. split; [exact Hnum|].
  assert (Hdigits : omap LocalStore.day_number
                      (LocalStore.glob_prefix prefix (entries ++ [name])) =
                    (digits ++ [N])%list).
  { unfold LocalStore.glob_prefix. rewrite List.filter_app, omap_app. fold digits.
    f_equal. cbn [List.filter].
    assert (Hsw : startswith prefix name = true)
      by (unfold name; rewrite upload_name_prefix; apply startswith_app).
    rewrite Hsw. cbn. rewrite Hnum. reflexivity. }
  set (name2 := mob ++ "_" ++ date_key ++ "_" ++ str_of_int (N + 1)
                ++ lower (snd (splitext src'))).
  assert (Hnew2 : ~ In name2 (entries ++ [name])).
  { pose proof (upload_name_is_new mob date_key (entries ++ [name])%list _ Hm_ Hd_
                  (lower_extension src')) as H.
    cbv zeta in H. fold prefix in H. rewrite Hdigits in H.
    unfold N in H. rewrite next_of_app in H. exact H. }
  assert (Hex2 : existsb (String.eqb name2) (entries ++ [name]) = false).
  { apply not_true_is_false. intros E. apply existsb_exists in E as (x & Hx & Ex).
    apply String.eqb_eq in Ex. subst x. exact (Hnew2 Hx). }
  eexists _, _. split.
  { rewrite (add_upload_outcome base _ today clock' m mob src' dk Hm).
    fold date_key prefix. rewrite Hdigits. unfold N. rewrite next_of_app.
    fold N name2. rewrite Hex2. reflexivity. }
  cbn [filename]. split.
  { exact (day_number_of_name mob date_key (N + 1) _ Hm_ Hd_ (lower_extension src')). }
  split; [exact Hnew2|]. rewrite <- app_assoc. reflexivity.
Qed.

Lemma uploads_get_new_consecutive_names_witness :
  exists row entries' row2 entries2,
    LocalStore.add_upload "/data" sample_uploads true "20240101" 5 "98765 43210"
      "/photos/IMG_1.JPG" None = Ok (row, entries') /\
    ~ In (filename row) sample_uploads /\
    LocalStore.day_number (filename row) = Some 4 /\
    LocalStore.add_upload "/data" entries' true "20240101" 6 "98765 43210"
      "/photos/clip.MP4" None = Ok (row2, entries2) /\
    LocalStore.day_number (filename row2) = Some 5.
Proof.
  destruct (uploads_get_new_consecutive_names "/data" sample_uploads "20240101" 5 6
              "98765 43210" "9876543210" "/photos/IMG_1.JPG" "/photos/clip.MP4" None
              eq_refl eq_refl eq_refl)
    as (row & entries' & N & H1 & H2 & H3 & H4 & row2 & entries2 & H5 & H6 & _).
  assert (HN : N = 4).
  { assert (E : LocalStore.add_upload "/data" sample_uploads true "20240101" 5
                  "98765 43210" "/photos/IMG_1.JPG" None
                = Ok ({| path := "/data/users/9876543210/uploads/9876543210_20240101_4.jpg";
                         filename := "9876543210_20240101_4.jpg";
                         media_type := "image"; created_at := 5 |},
                      (sample_uploads ++ ["9876543210_20240101_4.jpg"])%list))
      by (vm_compute; reflexivity).
    rewrite E in H1. injection H1 as <- _. vm_compute in H4. congruence. }
  subst N. exists row, entries', row2, entries2.
  split; [exact H1|]. split; [exact H2|]. split; [exact H4|]. split; [exact H5|exact H6].
Defined.

(** ** Listing the uploads *)

Lemma omap_sorted {A B} (R : A -> A -> Prop) (f : A -> option B) (g : B -> A) l :
  (forall x y, f x = Some y -> g y = x) ->
  StronglySorted R l -> StronglySorted R (map g (omap f l)).
Proof.
  intros Hfg. induction 1 as [|a l Hl IH Ha]; [constructor|].
  cbn. destruct (f a) as [b|] eqn:E; [|exact IH].
  cbn [map]. rewrite (Hfg _ _ E). constructor; [exact IH|].
  apply List.Forall_forall. intros x Hx.
  apply in_map_iff in Hx as (y & <- & Hy).
  apply list_elem_of_In, list_elem_of_omap in Hy as (x & Hx & Ey).
  rewrite (Hfg _ _ Ey). rewrite List.Forall_forall in Ha.
  apply Ha, list_elem_of_In, Hx.
Qed.

(** [list_uploads_for_mobile] returns a row for exactly the names of the
    uploads directory that start with the user's mobile and an underscore
    and are files, in ascending order of the names; each row carries the
    path of the file in that directory and the media type of its
    extension.  Without an uploads directory the list is empty. *)
Theorem list_uploads_sorted_own_files
    base listing isfile getmtime clock m mob :
  LocalStore._norm_mobile m = Ok mob ->
  let udir := path_join (path_join (LocalStore.users_root base) mob) "uploads" in
  exists rows,
    LocalStore.list_uploads_for_mobile base listing isfile getmtime clock m = Ok rows /\
    (listing = None -> rows = []) /\
    StronglySorted String.le (map filename rows) /\
    (forall names name,
       listing = Some names ->
       (In name (map filename rows) <->
        In name names /\ startswith (mob ++ "_") name = true /\
        isfile (path_join udir name) = true)) /\
    (forall row,
       In row rows ->
       path row = path_join udir (filename row) /\
       media_type row =
         LocalStore._detect_media_type (snd (splitext (filename row))) /\
       created_at row =
         match getmtime (path row) with Ok t => t | Raise _ => clock end).
Proof.
  intros Hm udir. unfold LocalStore.list_uploads_for_mobile.
  rewrite Hm. cbn [bind]. rewrite (uploads_dir_normalized base m mob Hm). cbn [bind].
  fold udir. destruct listing as [names|].
  2:{ exists []. split; [reflexivity|]. split; [reflexivity|].
      split; [constructor|]. split; [discriminate|]. intros row []. }
  set (f := fun base0 : string =>
              if negb (startswith (mob ++ "_") base0) then None
              else if negb (isfile (path_join udir base0)) then None
              else Some {| path := path_join udir base0; filename := base0;
                           media_type :=
                             LocalStore._detect_media_type (lower (snd (splitext base0)));
                           created_at :=
                             match getmtime (path_join udir base0) with
                             | Ok t => t
                             | Raise _ => clock
                             end |}).
  assert (Hf : forall x y, f x = Some y ->
                 filename y = x /\ startswith (mob ++ "_") x = true /\
                 isfile (path_join udir x) = true /\
                 path y = path_join udir x /\
                 media_type y = LocalStore._detect_media_type (snd (splitext x)) /\
                 created_at y = match getmtime (path_join udir x) with
                                | Ok t => t
                                | Raise _ => clock
                                end).
  { intros x y. unfold f.
    destruct (startswith (mob ++ "_") x); [|discriminate].
    destruct (isfile (path_join udir x)); [|discriminate].
    cbn [negb]. intros [= <-]. cbn [filename path media_type created_at].
    repeat split. unfold LocalStore._detect_media_type. rewrite lower_idem.
    reflexivity. }
  exists (omap f (sorted names)). split; [reflexivity|]. split; [discriminate|].
  split.
  { apply omap_sorted; [|apply sorted_StronglySorted].
    intros x y E. apply (Hf x y E). }
  split.
  - intros names' name [= <-]. split.
    + intros H. apply in_map_iff in H as (y & <- & Hy).
      apply list_elem_of_In, list_elem_of_omap in Hy as (x & Hx & E).
      destruct (Hf _ _ E) as (-> & H1 & H2 & _).
      split; [|split; [exact H1|exact H2]].
      apply sorted_In, list_elem_of_In, Hx.
    + intros (H1 & H2 & H3). apply in_map_iff.
      exists {| path := path_join udir name; filename := name;
                media_type :=
                  LocalStore._detect_media_type (lower (snd (splitext name)));
                created_at :=
                  match getmtime (path_join udir name) with
                  | Ok t => t
                  | Raise _ => clock
                  end |}.
      split; [reflexivity|]. apply list_elem_of_In, list_elem_of_omap.
      exists name. split; [apply list_elem_of_In, sorted_In, H1|].
      unfold f. rewrite H2, H3. reflexivity.
  - intros row Hrow.
    apply list_elem_of_In, list_elem_of_omap in Hrow as (x & _ & E).
    destruct (Hf _ _ E) as (-> & _ & _ & H1 & H2 & H3).
    split; [exact H1|]. split; [exact H2|]. rewrite H1. exact H3.
Qed.

Lemma list_uploads_witness :
  exists rows,
    LocalStore.list_uploads_for_mobile "/data"
      (Some ["9876543210_20240102_7.jpg"; "notes.txt"; "9876543210_20240101_1.mp4"])
      (fun _ => true) (fun _ => Ok 9) 10 "98765 43210" = Ok rows /\
    map filename rows = ["9876543210_20240101_1.mp4"; "9876543210_20240102_7.jpg"].
Proof.
  destruct (list_uploads_sorted_own_files "/data"
              (Some ["9876543210_20240102_7.jpg"; "notes.txt";
                     "9876543210_20240101_1.mp4"])
              (fun _ => true) (fun _ => Ok 9) 10 "98765 43210" "9876543210" eq_refl)
    as (rows & H & _).
  exists rows. split; [exact H|].
  vm_compute in H. injection H as <-. reflexivity.
Defined.

(** A file added with [add_upload] is listed afterwards, under the name,
    the path and the media type [add_upload] returned, when the date key is
    made of digits. *)
Theorem uploaded_file_is_listed
    base entries today clock m mob src (dk : option string) row entries'
    isfile getmtime clock' :
  LocalStore._norm_mobile m = Ok mob ->
  all_digits (match dk with
              | Some k => if String.eqb k EmptyString then today else k
              | None => today
              end) = true ->
  LocalStore.add_upload base entries true today clock m src dk = Ok (row, entries') ->
  isfile (path row) = true ->
  exists rows r,
    LocalStore.list_uploads_for_mobile base (Some entries') isfile getmtime clock' m
      = Ok rows /\
    In r rows /\
    filename r = filename row /\ path r = path row /\ media_type r = media_type row.
Proof.
  intros Hm Hdk Hadd Hfile.
  set (date_key := match dk with
                   | Some k => if String.eqb k EmptyString then today else k
                   | None => today
                   end) in *.
  destruct (norm_mobile_digits _ _ Hm) as [Hmd Hml].
  rewrite (add_upload_outcome base entries today clock m mob src dk Hm) in Hadd.
  fold date_key in Hadd.
  set (N := LocalStore.next_of _) in Hadd.
  set (ext := lower (snd (splitext src))) in *.
  set (stem := mob ++ "_" ++ date_key ++ "_" ++ str_of_int N).
  assert (Hname : mob ++ "_" ++ date_key ++ "_" ++ str_of_int N ++ ext = stem ++ ext)
    by (unfold stem; rewrite !string_app_assoc; reflexivity).
  rewrite Hname in Hadd. set (name := stem ++ ext) in *.
  injection Hadd as <- <-. cbn [path filename media_type] in *.
  set (udir := path_join (path_join (LocalStore.users_root base) mob) "uploads") in *.
  assert (Hin : In name (if existsb (String.eqb name) entries then entries
                         else (entries ++ [name])%list)).
  { destruct (existsb _ entries) eqn:E.
    - apply existsb_exists in E as (x & Hx & Ex).
      apply String.eqb_eq in Ex. rewrite Ex. exact Hx.
    - apply in_or_app. right. left. reflexivity. }
  assert (Hpre : startswith (mob ++ "_") name = true).
  { unfold name, stem. rewrite !string_app_assoc.
    change ("_" ++ date_key ++ "_" ++ str_of_int N ++ ext)
      with (String "_" (date_key ++ "_" ++ str_of_int N ++ ext)).
    change (mob ++ "_") with (mob ++ String "_" EmptyString).
    replace (mob ++ String "_" (date_key ++ "_" ++ str_of_int N ++ ext))
      with ((mob ++ String "_" EmptyString) ++ (date_key ++ "_" ++ str_of_int N ++ ext))
      by (rewrite string_app_assoc; reflexivity).
    apply startswith_app. }
  assert (Hext : snd (splitext name) = ext).
  { assert (Hs : forall c, is_digit c = false -> c <> "-"%char -> c <> "_"%char ->
                           after_first c stem = None).
    { intros c Hc Hc1 Hc2. unfold stem.
      apply after_first_app_none; [apply all_digits_without; assumption|].
      change ("_" ++ date_key ++ "_" ++ str_of_int N)
        with (String "_" (date_key ++ String "_" (str_of_int N))).
      cbn [after_first]. destruct (Ascii.eqb_spec "_"%char c) as [E|_]; [congruence|].
      apply after_first_app_none; [apply all_digits_without; assumption|].
      cbn [after_first]. destruct (Ascii.eqb_spec "_"%char c) as [E|_]; [congruence|].
      apply str_of_int_without; assumption. }
    unfold name. rewrite splitext_name; [reflexivity| | | |].
    - unfold stem. intros E.
      destruct mob; [discriminate Hml|rewrite string_app_cons in E; discriminate E].
    - apply Hs; [reflexivity|discriminate|discriminate].
    - apply Hs; [reflexivity|discriminate|discriminate].
    - apply lower_extension. }
  unfold LocalStore.list_uploads_for_mobile.
  rewrite Hm. cbn [bind]. rewrite (uploads_dir_normalized base m mob Hm). cbn [bind].
  fold udir.
  eexists _, {| path := path_join udir name; filename := name;
                media_type := LocalStore._detect_media_type (lower (snd (splitext name)));
                created_at := match getmtime (path_join udir name) with
                              | Ok t => t
                              | Raise _ => clock'
                              end |}.
  split; [reflexivity|]. cbn [path filename media_type].
  split.
  - apply list_elem_of_In, list_elem_of_omap. exists name.
    split; [apply list_elem_of_In, sorted_In, Hin|].
    rewrite Hpre, Hfile. reflexivity.
  - split; [reflexivity|]. split; [reflexivity|].
    rewrite Hext. unfold LocalStore._detect_media_type. rewrite lower_idem.
    reflexivity.
Qed.

Lemma uploaded_file_is_listed_witness :
  exists rows r,
    LocalStore.list_uploads_for_mobile "/data"
      (Some (sample_uploads ++ ["9876543210_20240101_4.mp4"])%list)
      (fun _ => true) (fun _ => Ok 9) 10 "9876543210" = Ok rows /\
    In r rows /\ filename r = "9876543210_20240101_4.mp4" /\ media_type r = "video".
Proof.
  destruct (uploaded_file_is_listed "/data" sample_uploads "20240101" 5 "9876543210"
              "9876543210" "/photos/clip.MP4" None
              {| path := "/data/users/9876543210/uploads/9876543210_20240101_4.mp4";
                 filename := "9876543210_20240101_4.mp4";
                 media_type := "video"; created_at := 5 |}
              (sample_uploads ++ ["9876543210_20240101_4.mp4"])%list
              (fun _ => true) (fun _ => Ok 9) 10 eq_refl eq_refl
              ltac:(vm_compute; reflexivity) eq_refl)
    as (rows & r & H1 & H2 & H3 & _ & H4).
  exists rows, r. split; [exact H1|]. split; [exact H2|]. split; [exact H3|exact H4].
Defined.

